(** * oauth2_proxy: configuration validation (options.go)

    A shallow embedding of [Options.Validate] and its helpers
    ([parseURL], [parseProviderInfo], [parseSignatureKey],
    [validateCookieName], [addPadding], [secretBytes]) together with the
    properties of the validation report.

    Go strings are byte sequences and are modelled by [string]; [[]byte] is
    [list Byte.byte]; [time.Duration] (an int64) is [Z]; a Go pair
    [(value, err)] is a [result].  The mutable receiver [*Options] and the
    accumulator [msgs] are threaded explicitly.  [strings.Split] and
    [strings.Join] are transcribed and used directly.  The other calls that
    leave options.go (net/url, regexp, base64, hmacauth, the providers
    package, the file system, the network) go through an environment record
    [Env], so the general statements hold for any behaviour of those
    collaborators; [sampleEnv] is a concrete environment built on
    transcriptions of [url.Parse] and [base64.URLEncoding.DecodeString],
    used for the evaluations on concrete settings. *)

From Stdlib Require Import String Ascii List ZArith NArith Lia Bool.
From Stdlib Require Import DecimalString.
Import ListNotations.

Local Open Scope string_scope.
Local Open Scope list_scope.

(** ** Go-style results *)

Inductive result (A E : Type) : Type :=
| Ok (a : A)
| Err (e : E).
Arguments Ok {A E} a.
Arguments Err {A E} e.

(** ** Characters that cannot be written inside a literal *)

Definition nl : string := String (ascii_of_nat 10) "".
Definition dquote : string := String (ascii_of_nat 34) "".
Definition char_lf : ascii := ascii_of_nat 10.
Definition char_cr : ascii := ascii_of_nat 13.
Definition char_dquote : ascii := ascii_of_nat 34.
Definition char_backslash : ascii := ascii_of_nat 92.

Definition byte_in (lo hi c : ascii) : bool :=
  ((N_of_ascii lo <=? N_of_ascii c) && (N_of_ascii c <=? N_of_ascii hi))%N.

Definition is_lower (c : ascii) : bool := byte_in "a" "z" c.
Definition is_upper (c : ascii) : bool := byte_in "A" "Z" c.
Definition is_digit (c : ascii) : bool := byte_in "0" "9" c.
Definition is_alnum (c : ascii) : bool := is_lower c || is_upper c || is_digit c.

Fixpoint mem_byte (c : ascii) (s : string) : bool :=
  match s with
  | EmptyString => false
  | String d r => Ascii.eqb c d || mem_byte c r
  end.

(** ** package strings (the functions options.go and net/url rely on) *)

Module strings.

(** [strings.Count(s, sep)] for a one-byte [sep]. *)
Fixpoint Count (s : string) (sep : ascii) : nat :=
  match s with
  | EmptyString => 0
  | String c r => (if Ascii.eqb c sep then 1 else 0) + Count r sep
  end.

(** [strings.Split(s, sep)] for a one-byte [sep], the only way options.go
    calls it: the pieces between consecutive separators, empty pieces
    included, so that the result has [Count s sep + 1] elements. *)
Fixpoint Split (s : string) (sep : ascii) : list string :=
  match s with
  | EmptyString => [EmptyString]
  | String c r =>
      if Ascii.eqb c sep then EmptyString :: Split r sep
      else match Split r sep with
           | [] => [String c EmptyString]
           | p :: ps => String c p :: ps
           end
  end.

(** [strings.Join(elems, sep)]. *)
Fixpoint Join (elems : list string) (sep : string) : string :=
  match elems with
  | [] => EmptyString
  | [e] => e
  | e :: rest => e ++ sep ++ Join rest sep
  end.

(** [strings.Cut(s, sep)] for a one-byte [sep]: text before and after the
    first separator, and whether one was found. *)
Fixpoint Cut (s : string) (sep : ascii) : string * string * bool :=
  match s with
  | EmptyString => (EmptyString, EmptyString, false)
  | String c r =>
      if Ascii.eqb c sep then (EmptyString, r, true)
      else let '(b, a, found) := Cut r sep in (String c b, a, found)
  end.

(** [strings.IndexByte]. *)
Fixpoint IndexByte (s : string) (c : ascii) : option nat :=
  match s with
  | EmptyString => None
  | String d r =>
      if Ascii.eqb d c then Some 0
      else option_map S (IndexByte r c)
  end.

(** [strings.LastIndexByte]. *)
Fixpoint LastIndexByte (s : string) (c : ascii) : option nat :=
  match s with
  | EmptyString => None
  | String d r =>
      match LastIndexByte r c with
      | Some i => Some (S i)
      | None => if Ascii.eqb d c then Some 0 else None
      end
  end.

Definition HasPrefix (s p : string) : bool := String.prefix p s.

Definition HasSuffix (s p : string) : bool :=
  (String.length p <=? String.length s)%nat &&
  String.eqb (String.substring (String.length s - String.length p)
                               (String.length p) s) p.

(** [s[i:]] and [s[:i]]. *)
Definition from (i : nat) (s : string) : string :=
  String.substring i (String.length s - i) s.
Definition upto (i : nat) (s : string) : string := String.substring 0 i s.

(** [strings.ToLower] on ASCII letters. *)
Definition lower_byte (c : ascii) : ascii :=
  if is_upper c then ascii_of_N (N_of_ascii c + 32) else c.
Fixpoint ToLower (s : string) : string :=
  match s with
  | EmptyString => EmptyString
  | String c r => String (lower_byte c) (ToLower r)
  end.

End strings.

(** [fmt.Sprintf("%d", n)] for a length. *)
Definition itoa (n : nat) : string := NilZero.string_of_uint (Nat.to_uint n).

(** ** package encoding/base64: [URLEncoding.DecodeString]

    Transcribed from [Encoding.Decode] and [decodeQuantum]: characters are
    looked up in the URL alphabet, '\r' and '\n' are skipped, padding is
    mandatory and must close the input, and the unused low bits of a padded
    quantum are not checked (the encoding is not strict). *)

Module base64.

Definition encodeURL : string :=
  "ABCDEFGHIJKLMNOPQRSTUVWXYZabcdefghijklmnopqrstuvwxyz0123456789-_".

Definition padChar : ascii := "=".

Fixpoint position (c : ascii) (alphabet : string) (i : N) : option N :=
  match alphabet with
  | EmptyString => None
  | String d r => if Ascii.eqb c d then Some i else position c r (i + 1)
  end.

(** [enc.decodeMap[in]], with [None] for the 0xff entries. *)
Definition decodeMap (c : ascii) : option N := position c encodeURL 0.

Definition is_newline (c : ascii) : bool :=
  Ascii.eqb c char_lf || Ascii.eqb c char_cr.

Fixpoint skip_newlines (s : string) : string :=
  match s with
  | EmptyString => EmptyString
  | String c r => if is_newline c then skip_newlines r else s
  end.

Definition to_byte (n : N) : Byte.byte :=
  byte_of_ascii (ascii_of_N (N.land n 255)).

(** [val := dbuf[0]<<18 | dbuf[1]<<12 | dbuf[2]<<6 | dbuf[3]], then the
    bytes [val>>16], [val>>8], [val>>0]. *)
Definition quantum (v0 v1 v2 v3 : N) : N :=
  N.lor (N.lor (N.shiftl v0 18) (N.shiftl v1 12))
        (N.lor (N.shiftl v2 6) v3).

Definition quantum_bytes (val : N) (dlen : nat) : list Byte.byte :=
  firstn (dlen - 1)
    [to_byte (N.shiftr val 16); to_byte (N.shiftr val 8); to_byte val].

(** The decoding loop; [dbuf] holds the sextets of the quantum read so
    far ([j = length dbuf]). *)
Fixpoint decode (src : string) (dbuf : list N) : option (list Byte.byte) :=
  match src with
  | EmptyString =>
      match dbuf with
      | [] => Some []
      | _ => None
      end
  | String c rest =>
      match decodeMap c with
      | Some v =>
          match dbuf with
          | [v0; v1; v2] =>
              option_map (app (quantum_bytes (quantum v0 v1 v2 v) 4))
                         (decode rest [])
          | _ => decode rest (dbuf ++ [v])
          end
      | None =>
          if is_newline c then decode rest dbuf
          else if negb (Ascii.eqb c padChar) then None
          else
            match dbuf with
            | [v0; v1] =>
                match skip_newlines rest with
                | EmptyString => None
                | String c2 rest2 =>
                    if negb (Ascii.eqb c2 padChar) then None
                    else match skip_newlines rest2 with
                         | EmptyString =>
                             Some (quantum_bytes (quantum v0 v1 0 0) 2)
                         | _ => None
                         end
                end
            | [v0; v1; v2] =>
                match skip_newlines rest with
                | EmptyString => Some (quantum_bytes (quantum v0 v1 v2 0) 3)
                | _ => None
                end
            | _ => None
            end
      end
  end.

(** [base64.URLEncoding.DecodeString(s)]; [None] when [err != nil]. *)
Definition URLEncoding_DecodeString (s : string) : option (list Byte.byte) :=
  decode s [].

End base64.

(** ** package net/url: [Parse]

    Transcribed from [Parse], [parse], [getScheme], [parseAuthority],
    [parseHost], [validUserinfo], [validOptionalPort], [unescape] and
    [shouldEscape].  The record keeps the fields of [url.URL] that the parse
    decides; the [RawPath] and [RawFragment] encoding hints are left out. *)

Module url.

Record Userinfo : Type := mkUserinfo {
  username : string;
  password : string;
  passwordSet : bool
}.

Record URL : Type := mkURL {
  Scheme : string;
  Opaque : string;
  User : option Userinfo;
  Host : string;
  Path : string;
  ForceQuery : bool;
  RawQuery : string;
  Fragment : string;
  OmitHost : bool
}.

Definition empty : URL :=
  mkURL "" "" None "" "" false "" "" false.

Definition with_Path (u : URL) (p : string) : URL :=
  mkURL (Scheme u) (Opaque u) (User u) (Host u) p (ForceQuery u)
        (RawQuery u) (Fragment u) (OmitHost u).

Definition with_Fragment (u : URL) (f : string) : URL :=
  mkURL (Scheme u) (Opaque u) (User u) (Host u) (Path u) (ForceQuery u)
        (RawQuery u) f (OmitHost u).

(** The errors [parse] can return. *)
Inductive ParseError : Type :=
| InvalidControlCharacter
| EmptyURL
| MissingProtocolScheme
| InvalidURIForRequest
| FirstPathSegmentColon
| MissingBracketInHost
| InvalidPort (colonPort : string)
| InvalidUserinfo
| EscapeError (s : string)
| InvalidHostError (s : string).

(** [url.Error{Op, URL, Err}]. *)
Record Error : Type := mkError {
  Op : string;
  ErrURL : string;
  ErrCause : ParseError
}.

Inductive encoding : Type :=
| encodePath
| encodePathSegment
| encodeHost
| encodeZone
| encodeUserPassword
| encodeQueryComponent
| encodeFragment.

Definition is_host_mode (mode : encoding) : bool :=
  match mode with
  | encodeHost | encodeZone => true
  | _ => false
  end.

Definition ishex (c : ascii) : bool :=
  is_digit c || byte_in "a" "f" c || byte_in "A" "F" c.

Definition unhex (c : ascii) : N :=
  if is_digit c then (N_of_ascii c - N_of_ascii "0")%N
  else if byte_in "a" "f" c then (N_of_ascii c - N_of_ascii "a" + 10)%N
  else if byte_in "A" "F" c then (N_of_ascii c - N_of_ascii "A" + 10)%N
  else 0%N.

(** [shouldEscape(c, mode)]. *)
Definition shouldEscape (c : ascii) (mode : encoding) : bool :=
  if is_alnum c then false
  else if is_host_mode mode
          && (mem_byte c "!$&'()*+,;=:[]<>" || Ascii.eqb c char_dquote)
  then false
  else if mem_byte c "-_.~" then false
  else if mem_byte c "$&+,/:;=?@" then
    match mode with
    | encodePath => Ascii.eqb c "?"
    | encodePathSegment => mem_byte c "/;,?"
    | encodeUserPassword => mem_byte c "@/?:"
    | encodeQueryComponent => true
    | encodeFragment => false
    | encodeHost | encodeZone => true
    end
  else
    match mode with
    | encodeFragment => negb (mem_byte c "!()*")
    | _ => true
    end.

(** First loop of [unescape]: every '%' must start a well-formed escape
    that the mode admits, and host bytes must be legal. *)
Fixpoint unescape_check (s : string) (mode : encoding) : option ParseError :=
  match s with
  | EmptyString => None
  | String c r =>
      if Ascii.eqb c "%" then
        match r with
        | String a (String b rest) =>
            if negb (ishex a && ishex b) then
              Some (EscapeError (strings.upto 3 s))
            else
              let esc := strings.upto 3 s in
              if match mode with encodeHost => true | _ => false end
                 && (unhex a <? 8)%N && negb (String.eqb esc "%25")
              then Some (EscapeError esc)
              else
                let v := ascii_of_N (N.lor (N.shiftl (unhex a) 4) (unhex b)) in
                if match mode with encodeZone => true | _ => false end
                   && negb (String.eqb esc "%25")
                   && negb (Ascii.eqb v " ")
                   && shouldEscape v encodeHost
                then Some (EscapeError esc)
                else unescape_check rest mode
        | _ => Some (EscapeError (strings.upto 3 s))
        end
      else if Ascii.eqb c "+" then unescape_check r mode
      else if is_host_mode mode
              && (N_of_ascii c <? 128)%N
              && shouldEscape c encodeHost
      then Some (InvalidHostError (String c EmptyString))
      else unescape_check r mode
  end.

(** Second loop of [unescape]: the text with its escapes replaced. *)
Fixpoint unescape_build (s : string) (mode : encoding) : string :=
  match s with
  | EmptyString => EmptyString
  | String c r =>
      if Ascii.eqb c "%" then
        match r with
        | String a (String b rest) =>
            String (ascii_of_N (N.lor (N.shiftl (unhex a) 4) (unhex b)))
                   (unescape_build rest mode)
        | _ => EmptyString
        end
      else if Ascii.eqb c "+" then
        String (match mode with
                | encodeQueryComponent => " "%char
                | _ => "+"%char
                end) (unescape_build r mode)
      else String c (unescape_build r mode)
  end.

Definition unescape (s : string) (mode : encoding) : result string ParseError :=
  match unescape_check s mode with
  | Some e => Err e
  | None => Ok (unescape_build s mode)
  end.

(** [getScheme(rawURL)]: [(scheme, rest)]. *)
Fixpoint getScheme_at (s : string) (i : nat) (rawURL : string)
  : result (string * string) ParseError :=
  match s with
  | EmptyString => Ok (EmptyString, rawURL)
  | String c r =>
      if is_lower c || is_upper c then getScheme_at r (S i) rawURL
      else if is_digit c || mem_byte c "+-." then
        if (i =? 0)%nat then Ok (EmptyString, rawURL)
        else getScheme_at r (S i) rawURL
      else if Ascii.eqb c ":" then
        if (i =? 0)%nat then Err MissingProtocolScheme
        else Ok (strings.upto i rawURL, r)
      else Ok (EmptyString, rawURL)
  end.

Definition getScheme (rawURL : string) : result (string * string) ParseError :=
  getScheme_at rawURL 0 rawURL.

(** [stringContainsCTLByte]. *)
Fixpoint stringContainsCTLByte (s : string) : bool :=
  match s with
  | EmptyString => false
  | String c r =>
      (N_of_ascii c <? 32)%N || (N_of_ascii c =? 127)%N
      || stringContainsCTLByte r
  end.

(** [validOptionalPort(port)]: empty, or ':' followed by digits. *)
Fixpoint all_digits (s : string) : bool :=
  match s with
  | EmptyString => true
  | String c r => is_digit c && all_digits r
  end.

Definition validOptionalPort (port : string) : bool :=
  match port with
  | EmptyString => true
  | String c r => Ascii.eqb c ":" && all_digits r
  end.

(** [validUserinfo(s)]. *)
Fixpoint validUserinfo (s : string) : bool :=
  match s with
  | EmptyString => true
  | String c r =>
      (is_alnum c || mem_byte c "-._:~!$&'()*+,;=%@") && validUserinfo r
  end.

(** [parseHost(host)]. *)
Definition parseHost (host : string) : result string ParseError :=
  let plain := unescape host encodeHost in
  if strings.HasPrefix host "[" then
    match strings.LastIndexByte host "]" with
    | None => Err MissingBracketInHost
    | Some i =>
        let colonPort := strings.from (S i) host in
        if negb (validOptionalPort colonPort) then Err (InvalidPort colonPort)
        else
          match String.index 0 "%25" (strings.upto i host) with
          | Some zone =>
              match unescape (strings.upto zone host) encodeHost with
              | Err e => Err e
              | Ok host1 =>
                  match unescape (String.substring zone (i - zone) host)
                                 encodeZone with
                  | Err e => Err e
                  | Ok host2 =>
                      match unescape (strings.from i host) encodeHost with
                      | Err e => Err e
                      | Ok host3 => Ok (host1 ++ host2 ++ host3)%string
                      end
                  end
              end
          | None => plain
          end
    end
  else
    match strings.LastIndexByte host ":" with
    | Some i =>
        let colonPort := strings.from i host in
        if negb (validOptionalPort colonPort) then Err (InvalidPort colonPort)
        else plain
    | None => plain
    end.

(** [parseAuthority(authority)]: [(user, host)]. *)
Definition parseAuthority (authority : string)
  : result (option Userinfo * string) ParseError :=
  let i := strings.LastIndexByte authority "@" in
  let hostpart := match i with
                  | None => authority
                  | Some k => strings.from (S k) authority
                  end in
  match parseHost hostpart with
  | Err e => Err e
  | Ok host =>
      match i with
      | None => Ok (None, host)
      | Some k =>
          let userinfo := strings.upto k authority in
          if negb (validUserinfo userinfo) then Err InvalidUserinfo
          else if negb (mem_byte ":" userinfo) then
            match unescape userinfo encodeUserPassword with
            | Err e => Err e
            | Ok u => Ok (Some (mkUserinfo u "" false), host)
            end
          else
            let '(uname, pass, _) := strings.Cut userinfo ":" in
            match unescape uname encodeUserPassword with
            | Err e => Err e
            | Ok u =>
                match unescape pass encodeUserPassword with
                | Err e => Err e
                | Ok p => Ok (Some (mkUserinfo u p true), host)
                end
            end
      end
  end.

(** [parse(rawURL, viaRequest)]. *)
Definition parse (rawURL : string) (viaRequest : bool)
  : result URL ParseError :=
  if stringContainsCTLByte rawURL then Err InvalidControlCharacter
  else if String.eqb rawURL "" && viaRequest then Err EmptyURL
  else if String.eqb rawURL "*" then Ok (with_Path empty "*")
  else
    match getScheme rawURL with
    | Err e => Err e
    | Ok (scheme0, rest0) =>
        let scheme := strings.ToLower scheme0 in
        let '(rest1, rawQuery, forceQuery) :=
          if strings.HasSuffix rest0 "?"
             && (strings.Count rest0 "?" =? 1)%nat
          then (strings.upto (String.length rest0 - 1) rest0, "", true)
          else let '(b, a, _) := strings.Cut rest0 "?" in (b, a, false) in
        let hasScheme := negb (String.eqb scheme "") in
        let rootless := negb (strings.HasPrefix rest1 "/") in
        if rootless && hasScheme then
          Ok (mkURL scheme rest1 None "" "" forceQuery rawQuery "" false)
        else if rootless && viaRequest then Err InvalidURIForRequest
        else if rootless
                && (let '(segment, _, _) := strings.Cut rest1 "/" in
                    mem_byte ":" segment)
        then Err FirstPathSegmentColon
        else
          let authorityCase :=
            (hasScheme
             || (negb viaRequest && negb (strings.HasPrefix rest1 "///")))
            && strings.HasPrefix rest1 "//" in
          let finish (user : option Userinfo) (host : string)
                     (omit : bool) (rest : string) :=
            match unescape rest encodePath with
            | Err e => Err e
            | Ok path =>
                Ok (mkURL scheme "" user host path forceQuery rawQuery ""
                          omit)
            end in
          if authorityCase then
            let authority0 := strings.from 2 rest1 in
            let '(authority, rest2) :=
              match strings.IndexByte authority0 "/" with
              | Some i => (strings.upto i authority0,
                           strings.from i authority0)
              | None => (authority0, "")
              end in
            match parseAuthority authority with
            | Err e => Err e
            | Ok (user, host) => finish user host false rest2
            end
          else
            finish None ""
                   (hasScheme && strings.HasPrefix rest1 "/") rest1
    end.

(** [url.Parse(rawURL)]. *)
Definition Parse (rawURL : string) : result URL Error :=
  let '(u, frag, _) := strings.Cut rawURL "#" in
  match parse u false with
  | Err e => Err (mkError "parse" u e)
  | Ok parsed =>
      if String.eqb frag "" then Ok parsed
      else match unescape frag encodeFragment with
           | Err e => Err (mkError "parse" rawURL e)
           | Ok f => Ok (with_Fragment parsed f)
           end
  end.

(** The [Error] method of [url.Error], with [%q] rendered by [q]. *)
Definition cause_text (q : string -> string) (e : ParseError) : string :=
  match e with
  | InvalidControlCharacter => "net/url: invalid control character in URL"
  | EmptyURL => "empty url"
  | MissingProtocolScheme => "missing protocol scheme"
  | InvalidURIForRequest => "invalid URI for request"
  | FirstPathSegmentColon =>
      "first path segment in URL cannot contain colon"
  | MissingBracketInHost => "missing ']' in host"
  | InvalidPort p => "invalid port " ++ q p ++ " after host"
  | InvalidUserinfo => "net/url: invalid userinfo"
  | EscapeError s => "invalid URL escape " ++ q s
  | InvalidHostError s => "invalid character " ++ q s ++ " in host name"
  end.

Definition Error_text (q : string -> string) (e : Error) : string :=
  Op e ++ " " ++ q (ErrURL e) ++ ": " ++ cause_text q (ErrCause e).

End url.

(** ** Types of the collaborating packages *)

(** [time.Duration]: a signed count of nanoseconds. *)
Definition Duration : Type := Z.
Definition Hour : Duration := 3600000000000%Z.

(** [crypto.Hash]: the numeric identifier of a digest algorithm. *)
Definition crypto_Hash : Type := N.

Module regexp.
(** A compiled expression, identified by its source text. *)
Record Regexp : Type := mkRegexp { expr : string }.
End regexp.

Module os.
(** An open file, identified by the path it was opened from. *)
Record File : Type := mkFile { name : string }.
End os.

Module providers.

(** [providers.ProviderData], the fields options.go fills in. *)
Record ProviderData : Type := mkProviderData {
  ClientID : string;
  ClientSecret : string;
  LoginURL : option url.URL;
  RedeemURL : option url.URL;
  ProfileURL : option url.URL;
  ProtectedResource : option url.URL;
  ValidateURL : option url.URL;
  Scope : string;
  Prompt : string;
  ApprovalPrompt : string
}.

(** The dynamic type of a [providers.Provider] value, as far as the type
    switch of [parseProviderInfo] tells them apart. *)
Inductive Variant : Type :=
| AzureProvider
| BitbucketProvider
| GitHubProvider
| GitLabProvider
| GoogleProvider
| OIDCProvider
| OtherProvider.

(** The configuration methods options.go invokes on a provider. *)
Inductive Call : Type :=
| Configure (tenant : string)
| SetTeam (team : string)
| SetOrgTeam (org : string) (teams : list string)
| SetGroups (groups : list string)
| SetGroupRestriction (groups : list string) (adminEmail : string)
                      (credentials : os.File)
| SetVerifier (issuer jwks : string)
| SetIssuerURL (issuer : string).

(** A provider: its variant, its shared data and the configuration calls
    it has received, oldest first. *)
Record Provider : Type := mkProvider {
  variant : Variant;
  data : ProviderData;
  calls : list Call
}.

Definition invoke (p : Provider) (c : Call) : Provider :=
  mkProvider (variant p) (data p) (calls p ++ [c]).

End providers.

(** ** The configuration record *)

Record SignatureData : Type := mkSignatureData {
  hash : crypto_Hash;
  key : string
}.

(** [Options]: every setting of the struct, then the internal values that
    validation fills in. *)
Record Options : Type := mkOptions {
  ProxyPrefix : string;
  ProxyWebSockets : bool;
  HttpAddress : string;
  HttpsAddress : string;
  ForceHTTPS : bool;
  RedirectURL : string;
  ClientID : string;
  ClientSecret : string;
  TLSCertFile : string;
  TLSKeyFile : string;
  AuthenticatedEmailsFile : string;
  AzureTenant : string;
  BitbucketTeam : string;
  EmailDomains : list string;
  WhitelistDomains : list string;
  GitHubOrg : string;
  GitHubTeams : list string;
  GitLabGroups : list string;
  GoogleGroups : list string;
  GoogleAdminEmail : string;
  GoogleServiceAccountJSON : string;
  HtpasswdFile : string;
  DisplayHtpasswdForm : bool;
  CustomTemplatesDir : string;
  Banner : string;
  Footer : string;
  CookieName : string;
  CookieSecret : string;
  CookieDomain : string;
  CookiePath : string;
  CookieExpire : Duration;
  CookieRefresh : Duration;
  CookieSecure : bool;
  CookieHttpOnly : bool;
  CookieSameSite : string;
  Upstreams : list string;
  SkipAuthRegex : list string;
  SkipAuthStripHeaders : bool;
  PassBasicAuth : bool;
  BasicAuthPassword : string;
  PassAccessToken : bool;
  PassHostHeader : bool;
  SkipProviderButton : bool;
  PassUserHeaders : bool;
  SSLInsecureSkipVerify : bool;
  SetXAuthRequest : bool;
  SkipAuthPreflight : bool;
  FlushInterval : Duration;
  Provider : string;
  OIDCIssuerURL : string;
  OIDCJwksURL : string;
  SkipOIDCDiscovery : bool;
  LoginURL : string;
  RedeemURL : string;
  ProfileURL : string;
  ProtectedResource : string;
  ValidateURL : string;
  Scope : string;
  Prompt : string;
  ApprovalPrompt : string;
  RequestLogging : bool;
  RequestLoggingFormat : string;
  RealClientIPHeader : string;
  SignatureKey : string;
  (* internal values that are set after config validation *)
  redirectURL : option url.URL;
  proxyURLs : list url.URL;
  CompiledRegex : list regexp.Regexp;
  provider : option providers.Provider;
  signatureData : option SignatureData
}.

(** Assignments to the internal fields. *)

Definition set_redirectURL (o : Options) (v : option url.URL) : Options :=
  mkOptions (ProxyPrefix o) (ProxyWebSockets o) (HttpAddress o)
    (HttpsAddress o) (ForceHTTPS o) (RedirectURL o) (ClientID o)
    (ClientSecret o) (TLSCertFile o) (TLSKeyFile o) (AuthenticatedEmailsFile
    o) (AzureTenant o) (BitbucketTeam o) (EmailDomains o) (WhitelistDomains
    o) (GitHubOrg o) (GitHubTeams o) (GitLabGroups o) (GoogleGroups o)
    (GoogleAdminEmail o) (GoogleServiceAccountJSON o) (HtpasswdFile o)
    (DisplayHtpasswdForm o) (CustomTemplatesDir o) (Banner o) (Footer o)
    (CookieName o) (CookieSecret o) (CookieDomain o) (CookiePath o)
    (CookieExpire o) (CookieRefresh o) (CookieSecure o) (CookieHttpOnly o)
    (CookieSameSite o) (Upstreams o) (SkipAuthRegex o) (SkipAuthStripHeaders
    o) (PassBasicAuth o) (BasicAuthPassword o) (PassAccessToken o)
    (PassHostHeader o) (SkipProviderButton o) (PassUserHeaders o)
    (SSLInsecureSkipVerify o) (SetXAuthRequest o) (SkipAuthPreflight o)
    (FlushInterval o) (Provider o) (OIDCIssuerURL o) (OIDCJwksURL o)
    (SkipOIDCDiscovery o) (LoginURL o) (RedeemURL o) (ProfileURL o)
    (ProtectedResource o) (ValidateURL o) (Scope o) (Prompt o)
    (ApprovalPrompt o) (RequestLogging o) (RequestLoggingFormat o)
    (RealClientIPHeader o) (SignatureKey o) v (proxyURLs o) (CompiledRegex
    o) (provider o) (signatureData o).

Definition set_proxyURLs (o : Options) (v : list url.URL) : Options :=
  mkOptions (ProxyPrefix o) (ProxyWebSockets o) (HttpAddress o)
    (HttpsAddress o) (ForceHTTPS o) (RedirectURL o) (ClientID o)
    (ClientSecret o) (TLSCertFile o) (TLSKeyFile o) (AuthenticatedEmailsFile
    o) (AzureTenant o) (BitbucketTeam o) (EmailDomains o) (WhitelistDomains
    o) (GitHubOrg o) (GitHubTeams o) (GitLabGroups o) (GoogleGroups o)
    (GoogleAdminEmail o) (GoogleServiceAccountJSON o) (HtpasswdFile o)
    (DisplayHtpasswdForm o) (CustomTemplatesDir o) (Banner o) (Footer o)
    (CookieName o) (CookieSecret o) (CookieDomain o) (CookiePath o)
    (CookieExpire o) (CookieRefresh o) (CookieSecure o) (CookieHttpOnly o)
    (CookieSameSite o) (Upstreams o) (SkipAuthRegex o) (SkipAuthStripHeaders
    o) (PassBasicAuth o) (BasicAuthPassword o) (PassAccessToken o)
    (PassHostHeader o) (SkipProviderButton o) (PassUserHeaders o)
    (SSLInsecureSkipVerify o) (SetXAuthRequest o) (SkipAuthPreflight o)
    (FlushInterval o) (Provider o) (OIDCIssuerURL o) (OIDCJwksURL o)
    (SkipOIDCDiscovery o) (LoginURL o) (RedeemURL o) (ProfileURL o)
    (ProtectedResource o) (ValidateURL o) (Scope o) (Prompt o)
    (ApprovalPrompt o) (RequestLogging o) (RequestLoggingFormat o)
    (RealClientIPHeader o) (SignatureKey o) (redirectURL o) v (CompiledRegex
    o) (provider o) (signatureData o).

Definition set_CompiledRegex (o : Options) (v : list regexp.Regexp) : Options :=
  mkOptions (ProxyPrefix o) (ProxyWebSockets o) (HttpAddress o)
    (HttpsAddress o) (ForceHTTPS o) (RedirectURL o) (ClientID o)
    (ClientSecret o) (TLSCertFile o) (TLSKeyFile o) (AuthenticatedEmailsFile
    o) (AzureTenant o) (BitbucketTeam o) (EmailDomains o) (WhitelistDomains
    o) (GitHubOrg o) (GitHubTeams o) (GitLabGroups o) (GoogleGroups o)
    (GoogleAdminEmail o) (GoogleServiceAccountJSON o) (HtpasswdFile o)
    (DisplayHtpasswdForm o) (CustomTemplatesDir o) (Banner o) (Footer o)
    (CookieName o) (CookieSecret o) (CookieDomain o) (CookiePath o)
    (CookieExpire o) (CookieRefresh o) (CookieSecure o) (CookieHttpOnly o)
    (CookieSameSite o) (Upstreams o) (SkipAuthRegex o) (SkipAuthStripHeaders
    o) (PassBasicAuth o) (BasicAuthPassword o) (PassAccessToken o)
    (PassHostHeader o) (SkipProviderButton o) (PassUserHeaders o)
    (SSLInsecureSkipVerify o) (SetXAuthRequest o) (SkipAuthPreflight o)
    (FlushInterval o) (Provider o) (OIDCIssuerURL o) (OIDCJwksURL o)
    (SkipOIDCDiscovery o) (LoginURL o) (RedeemURL o) (ProfileURL o)
    (ProtectedResource o) (ValidateURL o) (Scope o) (Prompt o)
    (ApprovalPrompt o) (RequestLogging o) (RequestLoggingFormat o)
    (RealClientIPHeader o) (SignatureKey o) (redirectURL o) (proxyURLs o) v
    (provider o) (signatureData o).

Definition set_provider (o : Options) (v : option providers.Provider) : Options :=
  mkOptions (ProxyPrefix o) (ProxyWebSockets o) (HttpAddress o)
    (HttpsAddress o) (ForceHTTPS o) (RedirectURL o) (ClientID o)
    (ClientSecret o) (TLSCertFile o) (TLSKeyFile o) (AuthenticatedEmailsFile
    o) (AzureTenant o) (BitbucketTeam o) (EmailDomains o) (WhitelistDomains
    o) (GitHubOrg o) (GitHubTeams o) (GitLabGroups o) (GoogleGroups o)
    (GoogleAdminEmail o) (GoogleServiceAccountJSON o) (HtpasswdFile o)
    (DisplayHtpasswdForm o) (CustomTemplatesDir o) (Banner o) (Footer o)
    (CookieName o) (CookieSecret o) (CookieDomain o) (CookiePath o)
    (CookieExpire o) (CookieRefresh o) (CookieSecure o) (CookieHttpOnly o)
    (CookieSameSite o) (Upstreams o) (SkipAuthRegex o) (SkipAuthStripHeaders
    o) (PassBasicAuth o) (BasicAuthPassword o) (PassAccessToken o)
    (PassHostHeader o) (SkipProviderButton o) (PassUserHeaders o)
    (SSLInsecureSkipVerify o) (SetXAuthRequest o) (SkipAuthPreflight o)
    (FlushInterval o) (Provider o) (OIDCIssuerURL o) (OIDCJwksURL o)
    (SkipOIDCDiscovery o) (LoginURL o) (RedeemURL o) (ProfileURL o)
    (ProtectedResource o) (ValidateURL o) (Scope o) (Prompt o)
    (ApprovalPrompt o) (RequestLogging o) (RequestLoggingFormat o)
    (RealClientIPHeader o) (SignatureKey o) (redirectURL o) (proxyURLs o)
    (CompiledRegex o) v (signatureData o).

Definition set_signatureData (o : Options) (v : option SignatureData) : Options :=
  mkOptions (ProxyPrefix o) (ProxyWebSockets o) (HttpAddress o)
    (HttpsAddress o) (ForceHTTPS o) (RedirectURL o) (ClientID o)
    (ClientSecret o) (TLSCertFile o) (TLSKeyFile o) (AuthenticatedEmailsFile
    o) (AzureTenant o) (BitbucketTeam o) (EmailDomains o) (WhitelistDomains
    o) (GitHubOrg o) (GitHubTeams o) (GitLabGroups o) (GoogleGroups o)
    (GoogleAdminEmail o) (GoogleServiceAccountJSON o) (HtpasswdFile o)
    (DisplayHtpasswdForm o) (CustomTemplatesDir o) (Banner o) (Footer o)
    (CookieName o) (CookieSecret o) (CookieDomain o) (CookiePath o)
    (CookieExpire o) (CookieRefresh o) (CookieSecure o) (CookieHttpOnly o)
    (CookieSameSite o) (Upstreams o) (SkipAuthRegex o) (SkipAuthStripHeaders
    o) (PassBasicAuth o) (BasicAuthPassword o) (PassAccessToken o)
    (PassHostHeader o) (SkipProviderButton o) (PassUserHeaders o)
    (SSLInsecureSkipVerify o) (SetXAuthRequest o) (SkipAuthPreflight o)
    (FlushInterval o) (Provider o) (OIDCIssuerURL o) (OIDCJwksURL o)
    (SkipOIDCDiscovery o) (LoginURL o) (RedeemURL o) (ProfileURL o)
    (ProtectedResource o) (ValidateURL o) (Scope o) (Prompt o)
    (ApprovalPrompt o) (RequestLogging o) (RequestLoggingFormat o)
    (RealClientIPHeader o) (SignatureKey o) (redirectURL o) (proxyURLs o)
    (CompiledRegex o) (provider o) v.

(** [NewOptions()]; [defaultRequestLoggingFormat] is a constant of another
    file of the package. *)
Definition NewOptions (defaultRequestLoggingFormat : string) : Options :=
  {| ProxyPrefix := "/oauth2";
     ProxyWebSockets := true;
     HttpAddress := "127.0.0.1:4180";
     HttpsAddress := ":443";
     ForceHTTPS := false;
     RedirectURL := "";
     ClientID := "";
     ClientSecret := "";
     TLSCertFile := "";
     TLSKeyFile := "";
     AuthenticatedEmailsFile := "";
     AzureTenant := "";
     BitbucketTeam := "";
     EmailDomains := [];
     WhitelistDomains := [];
     GitHubOrg := "";
     GitHubTeams := [];
     GitLabGroups := [];
     GoogleGroups := [];
     GoogleAdminEmail := "";
     GoogleServiceAccountJSON := "";
     HtpasswdFile := "";
     DisplayHtpasswdForm := true;
     CustomTemplatesDir := "";
     Banner := "";
     Footer := "";
     CookieName := "_oauth2_proxy";
     CookieSecret := "";
     CookieDomain := "";
     CookiePath := "";
     CookieExpire := (168 * Hour)%Z;
     CookieRefresh := 0%Z;
     CookieSecure := true;
     CookieHttpOnly := true;
     CookieSameSite := "";
     Upstreams := [];
     SkipAuthRegex := [];
     SkipAuthStripHeaders := true;
     PassBasicAuth := true;
     BasicAuthPassword := "";
     PassAccessToken := false;
     PassHostHeader := true;
     SkipProviderButton := false;
     PassUserHeaders := true;
     SSLInsecureSkipVerify := false;
     SetXAuthRequest := false;
     SkipAuthPreflight := false;
     FlushInterval := 0%Z;
     Provider := "";
     OIDCIssuerURL := "";
     OIDCJwksURL := "";
     SkipOIDCDiscovery := false;
     LoginURL := "";
     RedeemURL := "";
     ProfileURL := "";
     ProtectedResource := "";
     ValidateURL := "";
     Scope := "";
     Prompt := "";
     ApprovalPrompt := "force";
     RequestLogging := true;
     RequestLoggingFormat := defaultRequestLoggingFormat;
     RealClientIPHeader := "X-Real-IP";
     SignatureKey := "";
     redirectURL := None;
     proxyURLs := [];
     CompiledRegex := [];
     provider := None;
     signatureData := None |}.

(** ** The environment of a validation run

    What [Validate] obtains from outside options.go.  An [error] is
    represented by its text, which is all the code does with it. *)

Record Env : Type := mkEnv {
  (** [url.Parse] *)
  url_Parse : string -> result url.URL string;
  (** [regexp.Compile] *)
  regexp_Compile : string -> result regexp.Regexp string;
  (** [base64.URLEncoding.DecodeString]; [None] when [err != nil] *)
  base64_DecodeString : string -> option (list Byte.byte);
  (** [hmacauth.DigestNameToCryptoHash]; [None] when [err != nil] *)
  DigestNameToCryptoHash : string -> option crypto_Hash;
  (** [providers.New] *)
  providers_New : string -> providers.ProviderData -> providers.Provider;
  (** [os.Open]; [None] when [err != nil] *)
  os_Open : string -> option os.File;
  (** the error of [OIDCProvider.SetIssuerURL], if any *)
  oidc_SetIssuerURL : string -> option string;
  (** whether [http.DefaultTransport] is an [*http.Transport] *)
  defaultTransportIsHTTP : bool;
  (** [(&http.Cookie{Name: name}).String()] *)
  cookie_String : string -> string;
  (** [fmt.Sprintf("%q", s)] *)
  fmt_q : string -> string;
  (** [time.Duration.String] *)
  Duration_String : Duration -> string
}.

(** Process-wide state a run can touch: the TLS configuration of the default
    transport and the files opened so far (oldest first). *)
Record World : Type := mkWorld {
  InsecureSkipVerify : bool;
  opened : list string
}.

(** ** options.go *)

Definition is_empty (s : string) : bool := String.eqb s "".

Definition len {A : Type} (l : list A) : nat := List.length l.

(** [parseURL(to_parse, urltype, msgs)]. *)
Definition parseURL (env : Env) (to_parse urltype : string)
                    (msgs : list string) : option url.URL * list string :=
  match url_Parse env to_parse with
  | Err err =>
      (None,
       msgs ++ [("error parsing " ++ urltype ++ "-url="
                 ++ fmt_q env to_parse ++ " " ++ err)%string])
  | Ok parsed => (Some parsed, msgs)
  end.

(** [addPadding(secret)]: for base64 which has had '=' padding trimmed. *)
Definition addPadding (secret : string) : string :=
  match String.length secret mod 4 with
  | 2 => (secret ++ "==")%string
  | 3 => (secret ++ "=")%string
  | _ => secret
  end.

(** [secretBytes(secret)]: attempts to base64 decode the secret, if that
    fails it treats the secret as binary. *)
Definition secretBytes (env : Env) (secret : string) : list Byte.byte :=
  match base64_DecodeString env (addPadding secret) with
  | Some b =>
      if (len b =? 16)%nat || (len b =? 24)%nat || (len b =? 32)%nat then b
      else list_byte_of_string secret
  | None => list_byte_of_string secret
  end.

(** [parseSignatureKey(o, msgs)]. *)
Definition parseSignatureKey (env : Env) (o : Options) (msgs : list string)
  : Options * list string :=
  if is_empty (SignatureKey o) then (o, msgs)
  else
    let components := strings.Split (SignatureKey o) ":" in
    match components with
    | [algorithm; secretKey] =>
        match DigestNameToCryptoHash env algorithm with
        | None =>
            (o, msgs ++ [("unsupported signature hash algorithm: "
                          ++ SignatureKey o)%string])
        | Some h =>
            (set_signatureData o (Some (mkSignatureData h secretKey)), msgs)
        end
    | _ =>
        (o, msgs ++ [("invalid signature hash:key spec: "
                      ++ SignatureKey o)%string])
    end.

(** [validateCookieName(o, msgs)]. *)
Definition validateCookieName (env : Env) (o : Options) (msgs : list string)
  : list string :=
  if is_empty (cookie_String env (CookieName o)) then
    msgs ++ [("invalid cookie name: " ++ fmt_q env (CookieName o))%string]
  else msgs.

(** The [*providers.GoogleProvider] case of [parseProviderInfo]. *)
Definition parseProviderInfo_Google (env : Env) (w : World) (o : Options)
    (p : providers.Provider) (msgs : list string)
  : World * providers.Provider * list string :=
  let msgs :=
    if (0 <? len (GoogleGroups o))%nat
       || negb (is_empty (GoogleAdminEmail o))
       || negb (is_empty (GoogleServiceAccountJSON o))
    then
      let msgs := if (len (GoogleGroups o) <? 1)%nat
                  then msgs ++ ["missing setting: google-group"] else msgs in
      let msgs := if is_empty (GoogleAdminEmail o)
                  then msgs ++ ["missing setting: google-admin-email"]
                  else msgs in
      if is_empty (GoogleServiceAccountJSON o)
      then msgs ++ ["missing setting: google-service-account-json"]
      else msgs
    else msgs in
  if negb (is_empty (GoogleServiceAccountJSON o)) then
    let w := mkWorld (InsecureSkipVerify w)
                     (opened w ++ [GoogleServiceAccountJSON o]) in
    match os_Open env (GoogleServiceAccountJSON o) with
    | None =>
        (w, p, msgs ++ [("invalid Google credentials file: "
                         ++ GoogleServiceAccountJSON o)%string])
    | Some file =>
        (w,
         providers.invoke p
           (providers.SetGroupRestriction (GoogleGroups o)
                                          (GoogleAdminEmail o) file),
         msgs)
    end
  else (w, p, msgs).

(** The [*providers.OIDCProvider] case of [parseProviderInfo]. *)
Definition parseProviderInfo_OIDC (env : Env) (o : Options)
    (p : providers.Provider) (msgs : list string)
  : providers.Provider * list string :=
  let msgs := if is_empty (OIDCIssuerURL o)
              then msgs ++ ["missing-setting: oidc-issuer-url"] else msgs in
  if SkipOIDCDiscovery o then
    let msgs := if is_empty (LoginURL o)
                then msgs ++ ["missing setting: login-url"] else msgs in
    let msgs := if is_empty (RedeemURL o)
                then msgs ++ ["missing setting: redeem-url"] else msgs in
    let msgs := if is_empty (OIDCJwksURL o)
                then msgs ++ ["missing setting: oidc-jwks-url"] else msgs in
    if negb (is_empty (OIDCIssuerURL o)) && negb (is_empty (OIDCJwksURL o))
    then (providers.invoke p
            (providers.SetVerifier (OIDCIssuerURL o) (OIDCJwksURL o)), msgs)
    else (p, msgs)
  else
    if negb (is_empty (OIDCIssuerURL o)) then
      let p := providers.invoke p (providers.SetIssuerURL (OIDCIssuerURL o)) in
      match oidc_SetIssuerURL env (OIDCIssuerURL o) with
      | Some err => (p, msgs ++ [err])
      | None => (p, msgs)
      end
    else (p, msgs).

(** The five endpoint URLs parsed at the head of [parseProviderInfo]. *)
Definition parseProviderInfo_data (env : Env) (o : Options)
    (msgs : list string) : providers.ProviderData * list string :=
  let '(login, msgs) := parseURL env (LoginURL o) "login" msgs in
  let '(redeem, msgs) := parseURL env (RedeemURL o) "redeem" msgs in
  let '(profile, msgs) := parseURL env (ProfileURL o) "profile" msgs in
  let '(validate, msgs) := parseURL env (ValidateURL o) "validate" msgs in
  let '(resource, msgs) :=
    parseURL env (ProtectedResource o) "resource" msgs in
  (providers.mkProviderData (ClientID o) (ClientSecret o) login redeem
     profile resource validate (Scope o) (Prompt o) (ApprovalPrompt o),
   msgs).

(** [parseProviderInfo(o, msgs)]. *)
Definition parseProviderInfo (env : Env) (w : World) (o : Options)
    (msgs : list string) : World * Options * list string :=
  let '(p, msgs) := parseProviderInfo_data env o msgs in
  let pr := providers_New env (Provider o) p in
  match providers.variant pr with
  | providers.AzureProvider =>
      (w, set_provider o
            (Some (providers.invoke pr (providers.Configure (AzureTenant o)))),
       msgs)
  | providers.BitbucketProvider =>
      (w, set_provider o
            (Some (providers.invoke pr (providers.SetTeam (BitbucketTeam o)))),
       msgs)
  | providers.GitHubProvider =>
      (w, set_provider o
            (Some (providers.invoke pr
                     (providers.SetOrgTeam (GitHubOrg o) (GitHubTeams o)))),
       msgs)
  | providers.GitLabProvider =>
      (w, set_provider o
            (Some (providers.invoke pr (providers.SetGroups (GitLabGroups o)))),
       msgs)
  | providers.GoogleProvider =>
      let '(w, pr, msgs) := parseProviderInfo_Google env w o pr msgs in
      (w, set_provider o (Some pr), msgs)
  | providers.OIDCProvider =>
      let '(pr, msgs) := parseProviderInfo_OIDC env o pr msgs in
      (w, set_provider o (Some pr), msgs)
  | providers.OtherProvider => (w, set_provider o (Some pr), msgs)
  end.

(** *** The checks of [Validate], in the order of the source *)

(** Lines 148-156: the insecure transport policy. *)
Definition Validate_insecureTLS (env : Env) (w : World) (o : Options)
    (msgs : list string) : World * list string :=
  if SSLInsecureSkipVerify o then
    if defaultTransportIsHTTP env then (mkWorld true (opened w), msgs)
    else
      (w, msgs ++ ["error setting insecure tls config: DefaultTransport is unexpected type"])
  else (w, msgs).

Definition email_validation_missing : string :=
  ("missing setting for email validation: email-domain or authenticated-emails-file required."
   ++ nl ++ "      use email-domain=* to authorize all email addresses")%string.

(** Lines 158-170: the settings that must be present. *)
Definition Validate_required (o : Options) (msgs : list string)
  : list string :=
  let msgs := if is_empty (CookieSecret o)
              then msgs ++ ["missing setting: cookie-secret"] else msgs in
  let msgs := if is_empty (ClientID o)
              then msgs ++ ["missing setting: client-id"] else msgs in
  let msgs := if is_empty (ClientSecret o)
              then msgs ++ ["missing setting: client-secret"] else msgs in
  if is_empty (AuthenticatedEmailsFile o)
     && (len (EmailDomains o) =? 0)%nat
     && is_empty (HtpasswdFile o)
  then msgs ++ [email_validation_missing]
  else msgs.

(** Lines 175-183: the body of the loop over [o.Upstreams]. *)
Definition Validate_upstream (env : Env) (st : Options * list string)
    (u : string) : Options * list string :=
  let '(o, msgs) := st in
  match url_Parse env u with
  | Err err => (o, msgs ++ [("error parsing upstream: " ++ err)%string])
  | Ok upstreamURL =>
      let upstreamURL :=
        if is_empty (url.Path upstreamURL)
        then url.with_Path upstreamURL "/" else upstreamURL in
      (set_proxyURLs o (proxyURLs o ++ [upstreamURL]), msgs)
  end.

(** Lines 174-184. *)
Definition Validate_upstreams (env : Env) (o : Options) (msgs : list string)
  : Options * list string :=
  fold_left (Validate_upstream env) (Upstreams o) (o, msgs).

(** Lines 187-192: the body of the loop over [o.SkipAuthRegex]. *)
Definition Validate_regex (env : Env) (st : Options * list string)
    (u : string) : Options * list string :=
  let '(o, msgs) := st in
  match regexp_Compile env u with
  | Err err =>
      (o, msgs ++ [("error compiling regex=" ++ fmt_q env u ++ " "
                    ++ err)%string])
  | Ok compiled => (set_CompiledRegex o (CompiledRegex o ++ [compiled]), msgs)
  end.

(** Lines 186-193. *)
Definition Validate_skipAuthRegex (env : Env) (o : Options)
    (msgs : list string) : Options * list string :=
  fold_left (Validate_regex env) (SkipAuthRegex o) (o, msgs).

(** The loop of lines 199-203 over [[]int{16, 24, 32}]. *)
Definition valid_cookie_secret_size (env : Env) (o : Options) : bool :=
  fold_left
    (fun valid i =>
       if (len (secretBytes env (CookieSecret o)) =? i)%nat then true
       else valid)
    [16; 24; 32] false.

(** Lines 204-207. *)
Definition decoded (env : Env) (o : Options) : bool :=
  negb (String.eqb (string_of_list_byte (secretBytes env (CookieSecret o)))
                   (CookieSecret o)).

Definition cookie_secret_message (n : nat) (suffix : string) : string :=
  ("cookie_secret must be 16, 24, or 32 bytes "
   ++ "to create an AES cipher when "
   ++ "pass_access_token == true or "
   ++ "cookie_refresh != 0, but is " ++ itoa n ++ " bytes." ++ suffix)%string.

(** Lines 197-220: the size of the cookie secret. *)
Definition Validate_cookieSecret (env : Env) (o : Options)
    (msgs : list string) : list string :=
  if PassAccessToken o || negb (CookieRefresh o =? 0)%Z then
    if negb (valid_cookie_secret_size env o) then
      let suffix :=
        if decoded env o
        then (" note: cookie secret was base64 decoded from "
              ++ fmt_q env (CookieSecret o))%string
        else "" in
      msgs ++ [cookie_secret_message
                 (len (secretBytes env (CookieSecret o))) suffix]
    else msgs
  else msgs.

Definition cookie_refresh_message (env : Env) (o : Options) : string :=
  ("cookie_refresh (" ++ Duration_String env (CookieRefresh o)
   ++ ") must be less than "
   ++ "cookie_expire (" ++ Duration_String env (CookieExpire o) ++ ")")%string.

(** Lines 222-228: refresh against expiry. *)
Definition Validate_cookieRefresh (env : Env) (o : Options)
    (msgs : list string) : list string :=
  if (CookieRefresh o >=? CookieExpire o)%Z
  then msgs ++ [cookie_refresh_message env o]
  else msgs.

Definition cookie_samesite_message (o : Options) : string :=
  ("cookie_samesite (" ++ CookieSameSite o
   ++ ") must be one of ['', 'lax', 'strict', 'none']")%string.

(** Lines 230-234: the same-site switch. *)
Definition Validate_cookieSameSite (o : Options) (msgs : list string)
  : list string :=
  if String.eqb (CookieSameSite o) ""
     || String.eqb (CookieSameSite o) "none"
     || String.eqb (CookieSameSite o) "lax"
     || String.eqb (CookieSameSite o) "strict"
  then msgs
  else msgs ++ [cookie_samesite_message o].

Definition realClientIPHeaders : list string :=
  ["X-Real-IP"; "X-Forwarded-For"; "X-ProxyUser-IP"].

(** Lines 239-254: the real-client-IP header. *)
Definition Validate_realClientIPHeader (env : Env) (o : Options)
    (msgs : list string) : list string :=
  if negb (is_empty (RealClientIPHeader o)) then
    let valid :=
      fold_left
        (fun valid s =>
           if String.eqb (RealClientIPHeader o) s then true else valid)
        realClientIPHeaders false in
    if negb valid then
      msgs ++ [("unsupported real-client-ip-header "
                ++ fmt_q env (RealClientIPHeader o))%string]
    else msgs
  else msgs.

(** [Validate] up to line 254: the state of the world, the receiver and the
    collected messages. *)
Definition Validate_collect (env : Env) (w : World) (o : Options)
  : World * Options * list string :=
  let msgs : list string := [] in
  let '(w, msgs) := Validate_insecureTLS env w o msgs in
  let msgs := Validate_required o msgs in
  let '(parsed, msgs) := parseURL env (RedirectURL o) "redirect" msgs in
  let o := set_redirectURL o parsed in
  let '(o, msgs) := Validate_upstreams env o msgs in
  let '(o, msgs) := Validate_skipAuthRegex env o msgs in
  let '(w, o, msgs) := parseProviderInfo env w o msgs in
  let msgs := Validate_cookieSecret env o msgs in
  let msgs := Validate_cookieRefresh env o msgs in
  let msgs := Validate_cookieSameSite o msgs in
  let '(o, msgs) := parseSignatureKey env o msgs in
  let msgs := validateCookieName env o msgs in
  let msgs := Validate_realClientIPHeader env o msgs in
  (w, o, msgs).

(** Lines 256-260: [fmt.Errorf] over the joined messages, or [nil]. *)
Definition Validate_error (msgs : list string) : option string :=
  if negb (len msgs =? 0)%nat then
    Some ("Invalid configuration:" ++ nl ++ "  "
          ++ strings.Join msgs (nl ++ "  "))%string
  else None.

(** [(o *Options) Validate() error]. *)
Definition Validate (env : Env) (w : World) (o : Options)
  : World * Options * option string :=
  let '(w, o, msgs) := Validate_collect env w o in
  (w, o, Validate_error msgs).

(** ** A concrete environment

    The standard-library functions are the transcriptions above and below;
    the parts that depend on the machine (files, network) or that are not
    transcribed are fixed to simple stand-ins, each described where it is
    defined. *)

Module time.

(** [fmtInt]: the decimal digits of [v]. *)
Definition fmtInt (v : N) : string := NilZero.string_of_uint (N.to_uint v).

Definition digit_char (d : N) : ascii := ascii_of_N (d + N_of_ascii "0").

(** [fmtFrac]: the fraction of [v / 10^prec] written in front of [tail]
    without trailing zeros, and the quotient. *)
Fixpoint fmtFrac_loop (prec : nat) (v : N) (print : bool) (tail : string)
  : string * N * bool :=
  match prec with
  | O => (tail, v, print)
  | S k =>
      let digit := (v mod 10)%N in
      let print := print || negb (digit =? 0)%N in
      fmtFrac_loop k (v / 10)%N print
        (if print then String (digit_char digit) tail else tail)
  end.

Definition fmtFrac (tail : string) (v : N) (prec : nat) : string * N :=
  let '(out, q, print) := fmtFrac_loop prec v false tail in
  (if print then String "." out else out, q).

(** The two bytes of the micro sign. *)
Definition micro : string :=
  String (ascii_of_nat 194) (String (ascii_of_nat 181) "").

(** [Duration.String]. *)
Definition Duration_String (d : Duration) : string :=
  let u := Z.abs_N d in
  let text :=
    if (u <? 1000000000)%N then
      if (u =? 0)%N then "0s"
      else
        let '(prec, unit) :=
          if (u <? 1000)%N then (0, "ns")
          else if (u <? 1000000)%N then (3, (micro ++ "s")%string)
          else (6, "ms") in
        let '(out, q) := fmtFrac unit u prec in
        (fmtInt q ++ out)%string
    else
      let '(out, q) := fmtFrac "s" u 9 in
      let out := (fmtInt (q mod 60) ++ out)%string in
      let q := (q / 60)%N in
      if (0 <? q)%N then
        let out := (fmtInt (q mod 60) ++ "m" ++ out)%string in
        let q := (q / 60)%N in
        if (0 <? q)%N then (fmtInt q ++ "h" ++ out)%string else out
      else out in
  if (d <? 0)%Z then String "-" text else text.

End time.

Module strconv.

Definition hex_digit (n : N) : ascii :=
  match String.get (N.to_nat n) "0123456789abcdef" with
  | Some c => c
  | None => "0"%char
  end.

Definition hex_escape (c : ascii) : string :=
  String char_backslash
    (String "x" (String (hex_digit (N_of_ascii c / 16))
                        (String (hex_digit (N_of_ascii c mod 16)) ""))).

Definition quote_byte (c : ascii) : string :=
  let n := N_of_ascii c in
  if Ascii.eqb c char_dquote || Ascii.eqb c char_backslash
  then String char_backslash (String c "")
  else if (32 <=? n)%N && (n <? 127)%N then String c ""
  else if (n =? 7)%N then String char_backslash "a"
  else if (n =? 8)%N then String char_backslash "b"
  else if (n =? 12)%N then String char_backslash "f"
  else if (n =? 10)%N then String char_backslash "n"
  else if (n =? 13)%N then String char_backslash "r"
  else if (n =? 9)%N then String char_backslash "t"
  else if (n =? 11)%N then String char_backslash "v"
  else hex_escape c.

Fixpoint quote_body (s : string) : string :=
  match s with
  | EmptyString => EmptyString
  | String c r => (quote_byte c ++ quote_body r)%string
  end.

(** [strconv.Quote] on ASCII text.  Bytes from 0x80 up are written as
    hexadecimal escapes, which is what Go does only when they are not part
    of a printable UTF-8 sequence. *)
Definition Quote (s : string) : string :=
  (dquote ++ quote_body s ++ dquote)%string.

End strconv.

Module http.

(** The token characters of a cookie name. *)
Definition isTokenByte (c : ascii) : bool :=
  is_alnum c || mem_byte c "!#$%&'*+-.^_`|~".

Fixpoint all_token (s : string) : bool :=
  match s with
  | EmptyString => true
  | String c r => isTokenByte c && all_token r
  end.

Definition isCookieNameValid (raw : string) : bool :=
  negb (String.eqb raw "") && all_token raw.

(** [(&http.Cookie{Name: name}).String()]: empty for an invalid name,
    otherwise the name followed by '=' and the empty value. *)
Definition Cookie_String (name : string) : string :=
  if isCookieNameValid name then (name ++ "=")%string else "".

End http.

Module hmacauth.

(** The digest names of hmacauth's table with their [crypto.Hash]
    identifiers; which of them are available depends on the hash packages
    linked into the binary, here all of them. *)
Definition supportedAlgorithms : list (string * crypto_Hash) :=
  [("md4", 1%N); ("md5", 2%N); ("sha1", 3%N); ("sha224", 4%N);
   ("sha256", 5%N); ("sha384", 6%N); ("sha512", 7%N); ("ripemd160", 9%N)].

Fixpoint lookup (name : string) (table : list (string * crypto_Hash))
  : option crypto_Hash :=
  match table with
  | [] => None
  | (n, h) :: rest => if String.eqb name n then Some h else lookup name rest
  end.

Definition DigestNameToCryptoHash (name : string) : option crypto_Hash :=
  lookup name supportedAlgorithms.

End hmacauth.

(** Stand-in for [providers.New]: the variant is chosen by name, "google"
    being the default, and the provider starts without configuration
    calls. *)
Definition sample_providers_New (name : string) (p : providers.ProviderData)
  : providers.Provider :=
  let v :=
    if String.eqb name "azure" then providers.AzureProvider
    else if String.eqb name "bitbucket" then providers.BitbucketProvider
    else if String.eqb name "github" then providers.GitHubProvider
    else if String.eqb name "gitlab" then providers.GitLabProvider
    else if String.eqb name "oidc" then providers.OIDCProvider
    else if String.eqb name "linkedin" || String.eqb name "facebook"
    then providers.OtherProvider
    else providers.GoogleProvider in
  providers.mkProvider v p [].

(** Stand-in for [regexp.Compile], which is not transcribed: it knows the
    patterns made of letters, digits, '/', '-' and '_' (Go compiles those to
    themselves) and reports any other pattern as an error. *)
Fixpoint literal_pattern (s : string) : bool :=
  match s with
  | EmptyString => true
  | String c r => (is_alnum c || mem_byte c "/-_") && literal_pattern r
  end.

Definition sample_regexp_Compile (p : string) : result regexp.Regexp string :=
  if literal_pattern p then Ok (regexp.mkRegexp p)
  else Err ("pattern outside the literal fragment")%string.

(** A file system with one readable credentials file. *)
Definition sample_os_Open (path : string) : option os.File :=
  if String.eqb path "/etc/oauth2/credentials.json"
  then Some (os.mkFile path) else None.

(** A network on which discovery succeeds for one issuer only. *)
Definition sample_SetIssuerURL (issuer : string) : option string :=
  if String.eqb issuer "https://issuer.example.com" then None
  else Some ("oidc: discovery failed for " ++ issuer)%string.

Definition go_url_Parse (s : string) : result url.URL string :=
  match url.Parse s with
  | Ok u => Ok u
  | Err e => Err (url.Error_text strconv.Quote e)
  end.

Definition sampleEnv : Env :=
  {| url_Parse := go_url_Parse;
     regexp_Compile := sample_regexp_Compile;
     base64_DecodeString := base64.URLEncoding_DecodeString;
     DigestNameToCryptoHash := hmacauth.DigestNameToCryptoHash;
     providers_New := sample_providers_New;
     os_Open := sample_os_Open;
     oidc_SetIssuerURL := sample_SetIssuerURL;
     defaultTransportIsHTTP := true;
     cookie_String := http.Cookie_String;
     fmt_q := strconv.Quote;
     Duration_String := time.Duration_String |}.

Definition world0 : World := mkWorld false [].

(** Assignments to settings, as a caller makes them before [Validate]. *)

Definition with_ClientID (v : string) (o : Options) : Options :=
  mkOptions (ProxyPrefix o) (ProxyWebSockets o) (HttpAddress o)
    (HttpsAddress o) (ForceHTTPS o) (RedirectURL o) v (ClientSecret o)
    (TLSCertFile o) (TLSKeyFile o) (AuthenticatedEmailsFile o) (AzureTenant
    o) (BitbucketTeam o) (EmailDomains o) (WhitelistDomains o) (GitHubOrg o)
    (GitHubTeams o) (GitLabGroups o) (GoogleGroups o) (GoogleAdminEmail o)
    (GoogleServiceAccountJSON o) (HtpasswdFile o) (DisplayHtpasswdForm o)
    (CustomTemplatesDir o) (Banner o) (Footer o) (CookieName o)
    (CookieSecret o) (CookieDomain o) (CookiePath o) (CookieExpire o)
    (CookieRefresh o) (CookieSecure o) (CookieHttpOnly o) (CookieSameSite o)
    (Upstreams o) (SkipAuthRegex o) (SkipAuthStripHeaders o) (PassBasicAuth
    o) (BasicAuthPassword o) (PassAccessToken o) (PassHostHeader o)
    (SkipProviderButton o) (PassUserHeaders o) (SSLInsecureSkipVerify o)
    (SetXAuthRequest o) (SkipAuthPreflight o) (FlushInterval o) (Provider o)
    (OIDCIssuerURL o) (OIDCJwksURL o) (SkipOIDCDiscovery o) (LoginURL o)
    (RedeemURL o) (ProfileURL o) (ProtectedResource o) (ValidateURL o)
    (Scope o) (Prompt o) (ApprovalPrompt o) (RequestLogging o)
    (RequestLoggingFormat o) (RealClientIPHeader o) (SignatureKey o)
    (redirectURL o) (proxyURLs o) (CompiledRegex o) (provider o)
    (signatureData o).

Definition with_ClientSecret (v : string) (o : Options) : Options :=
  mkOptions (ProxyPrefix o) (ProxyWebSockets o) (HttpAddress o)
    (HttpsAddress o) (ForceHTTPS o) (RedirectURL o) (ClientID o) v
    (TLSCertFile o) (TLSKeyFile o) (AuthenticatedEmailsFile o) (AzureTenant
    o) (BitbucketTeam o) (EmailDomains o) (WhitelistDomains o) (GitHubOrg o)
    (GitHubTeams o) (GitLabGroups o) (GoogleGroups o) (GoogleAdminEmail o)
    (GoogleServiceAccountJSON o) (HtpasswdFile o) (DisplayHtpasswdForm o)
    (CustomTemplatesDir o) (Banner o) (Footer o) (CookieName o)
    (CookieSecret o) (CookieDomain o) (CookiePath o) (CookieExpire o)
    (CookieRefresh o) (CookieSecure o) (CookieHttpOnly o) (CookieSameSite o)
    (Upstreams o) (SkipAuthRegex o) (SkipAuthStripHeaders o) (PassBasicAuth
    o) (BasicAuthPassword o) (PassAccessToken o) (PassHostHeader o)
    (SkipProviderButton o) (PassUserHeaders o) (SSLInsecureSkipVerify o)
    (SetXAuthRequest o) (SkipAuthPreflight o) (FlushInterval o) (Provider o)
    (OIDCIssuerURL o) (OIDCJwksURL o) (SkipOIDCDiscovery o) (LoginURL o)
    (RedeemURL o) (ProfileURL o) (ProtectedResource o) (ValidateURL o)
    (Scope o) (Prompt o) (ApprovalPrompt o) (RequestLogging o)
    (RequestLoggingFormat o) (RealClientIPHeader o) (SignatureKey o)
    (redirectURL o) (proxyURLs o) (CompiledRegex o) (provider o)
    (signatureData o).

Definition with_EmailDomains (v : list string) (o : Options) : Options :=
  mkOptions (ProxyPrefix o) (ProxyWebSockets o) (HttpAddress o)
    (HttpsAddress o) (ForceHTTPS o) (RedirectURL o) (ClientID o)
    (ClientSecret o) (TLSCertFile o) (TLSKeyFile o) (AuthenticatedEmailsFile
    o) (AzureTenant o) (BitbucketTeam o) v (WhitelistDomains o) (GitHubOrg
    o) (GitHubTeams o) (GitLabGroups o) (GoogleGroups o) (GoogleAdminEmail
    o) (GoogleServiceAccountJSON o) (HtpasswdFile o) (DisplayHtpasswdForm o)
    (CustomTemplatesDir o) (Banner o) (Footer o) (CookieName o)
    (CookieSecret o) (CookieDomain o) (CookiePath o) (CookieExpire o)
    (CookieRefresh o) (CookieSecure o) (CookieHttpOnly o) (CookieSameSite o)
    (Upstreams o) (SkipAuthRegex o) (SkipAuthStripHeaders o) (PassBasicAuth
    o) (BasicAuthPassword o) (PassAccessToken o) (PassHostHeader o)
    (SkipProviderButton o) (PassUserHeaders o) (SSLInsecureSkipVerify o)
    (SetXAuthRequest o) (SkipAuthPreflight o) (FlushInterval o) (Provider o)
    (OIDCIssuerURL o) (OIDCJwksURL o) (SkipOIDCDiscovery o) (LoginURL o)
    (RedeemURL o) (ProfileURL o) (ProtectedResource o) (ValidateURL o)
    (Scope o) (Prompt o) (ApprovalPrompt o) (RequestLogging o)
    (RequestLoggingFormat o) (RealClientIPHeader o) (SignatureKey o)
    (redirectURL o) (proxyURLs o) (CompiledRegex o) (provider o)
    (signatureData o).

Definition with_CookieSecret (v : string) (o : Options) : Options :=
  mkOptions (ProxyPrefix o) (ProxyWebSockets o) (HttpAddress o)
    (HttpsAddress o) (ForceHTTPS o) (RedirectURL o) (ClientID o)
    (ClientSecret o) (TLSCertFile o) (TLSKeyFile o) (AuthenticatedEmailsFile
    o) (AzureTenant o) (BitbucketTeam o) (EmailDomains o) (WhitelistDomains
    o) (GitHubOrg o) (GitHubTeams o) (GitLabGroups o) (GoogleGroups o)
    (GoogleAdminEmail o) (GoogleServiceAccountJSON o) (HtpasswdFile o)
    (DisplayHtpasswdForm o) (CustomTemplatesDir o) (Banner o) (Footer o)
    (CookieName o) v (CookieDomain o) (CookiePath o) (CookieExpire o)
    (CookieRefresh o) (CookieSecure o) (CookieHttpOnly o) (CookieSameSite o)
    (Upstreams o) (SkipAuthRegex o) (SkipAuthStripHeaders o) (PassBasicAuth
    o) (BasicAuthPassword o) (PassAccessToken o) (PassHostHeader o)
    (SkipProviderButton o) (PassUserHeaders o) (SSLInsecureSkipVerify o)
    (SetXAuthRequest o) (SkipAuthPreflight o) (FlushInterval o) (Provider o)
    (OIDCIssuerURL o) (OIDCJwksURL o) (SkipOIDCDiscovery o) (LoginURL o)
    (RedeemURL o) (ProfileURL o) (ProtectedResource o) (ValidateURL o)
    (Scope o) (Prompt o) (ApprovalPrompt o) (RequestLogging o)
    (RequestLoggingFormat o) (RealClientIPHeader o) (SignatureKey o)
    (redirectURL o) (proxyURLs o) (CompiledRegex o) (provider o)
    (signatureData o).

Definition with_CookieExpire (v : Duration) (o : Options) : Options :=
  mkOptions (ProxyPrefix o) (ProxyWebSockets o) (HttpAddress o)
    (HttpsAddress o) (ForceHTTPS o) (RedirectURL o) (ClientID o)
    (ClientSecret o) (TLSCertFile o) (TLSKeyFile o) (AuthenticatedEmailsFile
    o) (AzureTenant o) (BitbucketTeam o) (EmailDomains o) (WhitelistDomains
    o) (GitHubOrg o) (GitHubTeams o) (GitLabGroups o) (GoogleGroups o)
    (GoogleAdminEmail o) (GoogleServiceAccountJSON o) (HtpasswdFile o)
    (DisplayHtpasswdForm o) (CustomTemplatesDir o) (Banner o) (Footer o)
    (CookieName o) (CookieSecret o) (CookieDomain o) (CookiePath o) v
    (CookieRefresh o) (CookieSecure o) (CookieHttpOnly o) (CookieSameSite o)
    (Upstreams o) (SkipAuthRegex o) (SkipAuthStripHeaders o) (PassBasicAuth
    o) (BasicAuthPassword o) (PassAccessToken o) (PassHostHeader o)
    (SkipProviderButton o) (PassUserHeaders o) (SSLInsecureSkipVerify o)
    (SetXAuthRequest o) (SkipAuthPreflight o) (FlushInterval o) (Provider o)
    (OIDCIssuerURL o) (OIDCJwksURL o) (SkipOIDCDiscovery o) (LoginURL o)
    (RedeemURL o) (ProfileURL o) (ProtectedResource o) (ValidateURL o)
    (Scope o) (Prompt o) (ApprovalPrompt o) (RequestLogging o)
    (RequestLoggingFormat o) (RealClientIPHeader o) (SignatureKey o)
    (redirectURL o) (proxyURLs o) (CompiledRegex o) (provider o)
    (signatureData o).

Definition with_CookieRefresh (v : Duration) (o : Options) : Options :=
  mkOptions (ProxyPrefix o) (ProxyWebSockets o) (HttpAddress o)
    (HttpsAddress o) (ForceHTTPS o) (RedirectURL o) (ClientID o)
    (ClientSecret o) (TLSCertFile o) (TLSKeyFile o) (AuthenticatedEmailsFile
    o) (AzureTenant o) (BitbucketTeam o) (EmailDomains o) (WhitelistDomains
    o) (GitHubOrg o) (GitHubTeams o) (GitLabGroups o) (GoogleGroups o)
    (GoogleAdminEmail o) (GoogleServiceAccountJSON o) (HtpasswdFile o)
    (DisplayHtpasswdForm o) (CustomTemplatesDir o) (Banner o) (Footer o)
    (CookieName o) (CookieSecret o) (CookieDomain o) (CookiePath o)
    (CookieExpire o) v (CookieSecure o) (CookieHttpOnly o) (CookieSameSite
    o) (Upstreams o) (SkipAuthRegex o) (SkipAuthStripHeaders o)
    (PassBasicAuth o) (BasicAuthPassword o) (PassAccessToken o)
    (PassHostHeader o) (SkipProviderButton o) (PassUserHeaders o)
    (SSLInsecureSkipVerify o) (SetXAuthRequest o) (SkipAuthPreflight o)
    (FlushInterval o) (Provider o) (OIDCIssuerURL o) (OIDCJwksURL o)
    (SkipOIDCDiscovery o) (LoginURL o) (RedeemURL o) (ProfileURL o)
    (ProtectedResource o) (ValidateURL o) (Scope o) (Prompt o)
    (ApprovalPrompt o) (RequestLogging o) (RequestLoggingFormat o)
    (RealClientIPHeader o) (SignatureKey o) (redirectURL o) (proxyURLs o)
    (CompiledRegex o) (provider o) (signatureData o).

Definition with_CookieSameSite (v : string) (o : Options) : Options :=
  mkOptions (ProxyPrefix o) (ProxyWebSockets o) (HttpAddress o)
    (HttpsAddress o) (ForceHTTPS o) (RedirectURL o) (ClientID o)
    (ClientSecret o) (TLSCertFile o) (TLSKeyFile o) (AuthenticatedEmailsFile
    o) (AzureTenant o) (BitbucketTeam o) (EmailDomains o) (WhitelistDomains
    o) (GitHubOrg o) (GitHubTeams o) (GitLabGroups o) (GoogleGroups o)
    (GoogleAdminEmail o) (GoogleServiceAccountJSON o) (HtpasswdFile o)
    (DisplayHtpasswdForm o) (CustomTemplatesDir o) (Banner o) (Footer o)
    (CookieName o) (CookieSecret o) (CookieDomain o) (CookiePath o)
    (CookieExpire o) (CookieRefresh o) (CookieSecure o) (CookieHttpOnly o) v
    (Upstreams o) (SkipAuthRegex o) (SkipAuthStripHeaders o) (PassBasicAuth
    o) (BasicAuthPassword o) (PassAccessToken o) (PassHostHeader o)
    (SkipProviderButton o) (PassUserHeaders o) (SSLInsecureSkipVerify o)
    (SetXAuthRequest o) (SkipAuthPreflight o) (FlushInterval o) (Provider o)
    (OIDCIssuerURL o) (OIDCJwksURL o) (SkipOIDCDiscovery o) (LoginURL o)
    (RedeemURL o) (ProfileURL o) (ProtectedResource o) (ValidateURL o)
    (Scope o) (Prompt o) (ApprovalPrompt o) (RequestLogging o)
    (RequestLoggingFormat o) (RealClientIPHeader o) (SignatureKey o)
    (redirectURL o) (proxyURLs o) (CompiledRegex o) (provider o)
    (signatureData o).

Definition with_Upstreams (v : list string) (o : Options) : Options :=
  mkOptions (ProxyPrefix o) (ProxyWebSockets o) (HttpAddress o)
    (HttpsAddress o) (ForceHTTPS o) (RedirectURL o) (ClientID o)
    (ClientSecret o) (TLSCertFile o) (TLSKeyFile o) (AuthenticatedEmailsFile
    o) (AzureTenant o) (BitbucketTeam o) (EmailDomains o) (WhitelistDomains
    o) (GitHubOrg o) (GitHubTeams o) (GitLabGroups o) (GoogleGroups o)
    (GoogleAdminEmail o) (GoogleServiceAccountJSON o) (HtpasswdFile o)
    (DisplayHtpasswdForm o) (CustomTemplatesDir o) (Banner o) (Footer o)
    (CookieName o) (CookieSecret o) (CookieDomain o) (CookiePath o)
    (CookieExpire o) (CookieRefresh o) (CookieSecure o) (CookieHttpOnly o)
    (CookieSameSite o) v (SkipAuthRegex o) (SkipAuthStripHeaders o)
    (PassBasicAuth o) (BasicAuthPassword o) (PassAccessToken o)
    (PassHostHeader o) (SkipProviderButton o) (PassUserHeaders o)
    (SSLInsecureSkipVerify o) (SetXAuthRequest o) (SkipAuthPreflight o)
    (FlushInterval o) (Provider o) (OIDCIssuerURL o) (OIDCJwksURL o)
    (SkipOIDCDiscovery o) (LoginURL o) (RedeemURL o) (ProfileURL o)
    (ProtectedResource o) (ValidateURL o) (Scope o) (Prompt o)
    (ApprovalPrompt o) (RequestLogging o) (RequestLoggingFormat o)
    (RealClientIPHeader o) (SignatureKey o) (redirectURL o) (proxyURLs o)
    (CompiledRegex o) (provider o) (signatureData o).

Definition with_PassAccessToken (v : bool) (o : Options) : Options :=
  mkOptions (ProxyPrefix o) (ProxyWebSockets o) (HttpAddress o)
    (HttpsAddress o) (ForceHTTPS o) (RedirectURL o) (ClientID o)
    (ClientSecret o) (TLSCertFile o) (TLSKeyFile o) (AuthenticatedEmailsFile
    o) (AzureTenant o) (BitbucketTeam o) (EmailDomains o) (WhitelistDomains
    o) (GitHubOrg o) (GitHubTeams o) (GitLabGroups o) (GoogleGroups o)
    (GoogleAdminEmail o) (GoogleServiceAccountJSON o) (HtpasswdFile o)
    (DisplayHtpasswdForm o) (CustomTemplatesDir o) (Banner o) (Footer o)
    (CookieName o) (CookieSecret o) (CookieDomain o) (CookiePath o)
    (CookieExpire o) (CookieRefresh o) (CookieSecure o) (CookieHttpOnly o)
    (CookieSameSite o) (Upstreams o) (SkipAuthRegex o) (SkipAuthStripHeaders
    o) (PassBasicAuth o) (BasicAuthPassword o) v (PassHostHeader o)
    (SkipProviderButton o) (PassUserHeaders o) (SSLInsecureSkipVerify o)
    (SetXAuthRequest o) (SkipAuthPreflight o) (FlushInterval o) (Provider o)
    (OIDCIssuerURL o) (OIDCJwksURL o) (SkipOIDCDiscovery o) (LoginURL o)
    (RedeemURL o) (ProfileURL o) (ProtectedResource o) (ValidateURL o)
    (Scope o) (Prompt o) (ApprovalPrompt o) (RequestLogging o)
    (RequestLoggingFormat o) (RealClientIPHeader o) (SignatureKey o)
    (redirectURL o) (proxyURLs o) (CompiledRegex o) (provider o)
    (signatureData o).

Definition with_Provider (v : string) (o : Options) : Options :=
  mkOptions (ProxyPrefix o) (ProxyWebSockets o) (HttpAddress o)
    (HttpsAddress o) (ForceHTTPS o) (RedirectURL o) (ClientID o)
    (ClientSecret o) (TLSCertFile o) (TLSKeyFile o) (AuthenticatedEmailsFile
    o) (AzureTenant o) (BitbucketTeam o) (EmailDomains o) (WhitelistDomains
    o) (GitHubOrg o) (GitHubTeams o) (GitLabGroups o) (GoogleGroups o)
    (GoogleAdminEmail o) (GoogleServiceAccountJSON o) (HtpasswdFile o)
    (DisplayHtpasswdForm o) (CustomTemplatesDir o) (Banner o) (Footer o)
    (CookieName o) (CookieSecret o) (CookieDomain o) (CookiePath o)
    (CookieExpire o) (CookieRefresh o) (CookieSecure o) (CookieHttpOnly o)
    (CookieSameSite o) (Upstreams o) (SkipAuthRegex o) (SkipAuthStripHeaders
    o) (PassBasicAuth o) (BasicAuthPassword o) (PassAccessToken o)
    (PassHostHeader o) (SkipProviderButton o) (PassUserHeaders o)
    (SSLInsecureSkipVerify o) (SetXAuthRequest o) (SkipAuthPreflight o)
    (FlushInterval o) v (OIDCIssuerURL o) (OIDCJwksURL o) (SkipOIDCDiscovery
    o) (LoginURL o) (RedeemURL o) (ProfileURL o) (ProtectedResource o)
    (ValidateURL o) (Scope o) (Prompt o) (ApprovalPrompt o) (RequestLogging
    o) (RequestLoggingFormat o) (RealClientIPHeader o) (SignatureKey o)
    (redirectURL o) (proxyURLs o) (CompiledRegex o) (provider o)
    (signatureData o).

Definition with_OIDCIssuerURL (v : string) (o : Options) : Options :=
  mkOptions (ProxyPrefix o) (ProxyWebSockets o) (HttpAddress o)
    (HttpsAddress o) (ForceHTTPS o) (RedirectURL o) (ClientID o)
    (ClientSecret o) (TLSCertFile o) (TLSKeyFile o) (AuthenticatedEmailsFile
    o) (AzureTenant o) (BitbucketTeam o) (EmailDomains o) (WhitelistDomains
    o) (GitHubOrg o) (GitHubTeams o) (GitLabGroups o) (GoogleGroups o)
    (GoogleAdminEmail o) (GoogleServiceAccountJSON o) (HtpasswdFile o)
    (DisplayHtpasswdForm o) (CustomTemplatesDir o) (Banner o) (Footer o)
    (CookieName o) (CookieSecret o) (CookieDomain o) (CookiePath o)
    (CookieExpire o) (CookieRefresh o) (CookieSecure o) (CookieHttpOnly o)
    (CookieSameSite o) (Upstreams o) (SkipAuthRegex o) (SkipAuthStripHeaders
    o) (PassBasicAuth o) (BasicAuthPassword o) (PassAccessToken o)
    (PassHostHeader o) (SkipProviderButton o) (PassUserHeaders o)
    (SSLInsecureSkipVerify o) (SetXAuthRequest o) (SkipAuthPreflight o)
    (FlushInterval o) (Provider o) v (OIDCJwksURL o) (SkipOIDCDiscovery o)
    (LoginURL o) (RedeemURL o) (ProfileURL o) (ProtectedResource o)
    (ValidateURL o) (Scope o) (Prompt o) (ApprovalPrompt o) (RequestLogging
    o) (RequestLoggingFormat o) (RealClientIPHeader o) (SignatureKey o)
    (redirectURL o) (proxyURLs o) (CompiledRegex o) (provider o)
    (signatureData o).

Definition with_OIDCJwksURL (v : string) (o : Options) : Options :=
  mkOptions (ProxyPrefix o) (ProxyWebSockets o) (HttpAddress o)
    (HttpsAddress o) (ForceHTTPS o) (RedirectURL o) (ClientID o)
    (ClientSecret o) (TLSCertFile o) (TLSKeyFile o) (AuthenticatedEmailsFile
    o) (AzureTenant o) (BitbucketTeam o) (EmailDomains o) (WhitelistDomains
    o) (GitHubOrg o) (GitHubTeams o) (GitLabGroups o) (GoogleGroups o)
    (GoogleAdminEmail o) (GoogleServiceAccountJSON o) (HtpasswdFile o)
    (DisplayHtpasswdForm o) (CustomTemplatesDir o) (Banner o) (Footer o)
    (CookieName o) (CookieSecret o) (CookieDomain o) (CookiePath o)
    (CookieExpire o) (CookieRefresh o) (CookieSecure o) (CookieHttpOnly o)
    (CookieSameSite o) (Upstreams o) (SkipAuthRegex o) (SkipAuthStripHeaders
    o) (PassBasicAuth o) (BasicAuthPassword o) (PassAccessToken o)
    (PassHostHeader o) (SkipProviderButton o) (PassUserHeaders o)
    (SSLInsecureSkipVerify o) (SetXAuthRequest o) (SkipAuthPreflight o)
    (FlushInterval o) (Provider o) (OIDCIssuerURL o) v (SkipOIDCDiscovery o)
    (LoginURL o) (RedeemURL o) (ProfileURL o) (ProtectedResource o)
    (ValidateURL o) (Scope o) (Prompt o) (ApprovalPrompt o) (RequestLogging
    o) (RequestLoggingFormat o) (RealClientIPHeader o) (SignatureKey o)
    (redirectURL o) (proxyURLs o) (CompiledRegex o) (provider o)
    (signatureData o).

Definition with_SkipOIDCDiscovery (v : bool) (o : Options) : Options :=
  mkOptions (ProxyPrefix o) (ProxyWebSockets o) (HttpAddress o)
    (HttpsAddress o) (ForceHTTPS o) (RedirectURL o) (ClientID o)
    (ClientSecret o) (TLSCertFile o) (TLSKeyFile o) (AuthenticatedEmailsFile
    o) (AzureTenant o) (BitbucketTeam o) (EmailDomains o) (WhitelistDomains
    o) (GitHubOrg o) (GitHubTeams o) (GitLabGroups o) (GoogleGroups o)
    (GoogleAdminEmail o) (GoogleServiceAccountJSON o) (HtpasswdFile o)
    (DisplayHtpasswdForm o) (CustomTemplatesDir o) (Banner o) (Footer o)
    (CookieName o) (CookieSecret o) (CookieDomain o) (CookiePath o)
    (CookieExpire o) (CookieRefresh o) (CookieSecure o) (CookieHttpOnly o)
    (CookieSameSite o) (Upstreams o) (SkipAuthRegex o) (SkipAuthStripHeaders
    o) (PassBasicAuth o) (BasicAuthPassword o) (PassAccessToken o)
    (PassHostHeader o) (SkipProviderButton o) (PassUserHeaders o)
    (SSLInsecureSkipVerify o) (SetXAuthRequest o) (SkipAuthPreflight o)
    (FlushInterval o) (Provider o) (OIDCIssuerURL o) (OIDCJwksURL o) v
    (LoginURL o) (RedeemURL o) (ProfileURL o) (ProtectedResource o)
    (ValidateURL o) (Scope o) (Prompt o) (ApprovalPrompt o) (RequestLogging
    o) (RequestLoggingFormat o) (RealClientIPHeader o) (SignatureKey o)
    (redirectURL o) (proxyURLs o) (CompiledRegex o) (provider o)
    (signatureData o).

Definition with_LoginURL (v : string) (o : Options) : Options :=
  mkOptions (ProxyPrefix o) (ProxyWebSockets o) (HttpAddress o)
    (HttpsAddress o) (ForceHTTPS o) (RedirectURL o) (ClientID o)
    (ClientSecret o) (TLSCertFile o) (TLSKeyFile o) (AuthenticatedEmailsFile
    o) (AzureTenant o) (BitbucketTeam o) (EmailDomains o) (WhitelistDomains
    o) (GitHubOrg o) (GitHubTeams o) (GitLabGroups o) (GoogleGroups o)
    (GoogleAdminEmail o) (GoogleServiceAccountJSON o) (HtpasswdFile o)
    (DisplayHtpasswdForm o) (CustomTemplatesDir o) (Banner o) (Footer o)
    (CookieName o) (CookieSecret o) (CookieDomain o) (CookiePath o)
    (CookieExpire o) (CookieRefresh o) (CookieSecure o) (CookieHttpOnly o)
    (CookieSameSite o) (Upstreams o) (SkipAuthRegex o) (SkipAuthStripHeaders
    o) (PassBasicAuth o) (BasicAuthPassword o) (PassAccessToken o)
    (PassHostHeader o) (SkipProviderButton o) (PassUserHeaders o)
    (SSLInsecureSkipVerify o) (SetXAuthRequest o) (SkipAuthPreflight o)
    (FlushInterval o) (Provider o) (OIDCIssuerURL o) (OIDCJwksURL o)
    (SkipOIDCDiscovery o) v (RedeemURL o) (ProfileURL o) (ProtectedResource
    o) (ValidateURL o) (Scope o) (Prompt o) (ApprovalPrompt o)
    (RequestLogging o) (RequestLoggingFormat o) (RealClientIPHeader o)
    (SignatureKey o) (redirectURL o) (proxyURLs o) (CompiledRegex o)
    (provider o) (signatureData o).

Definition with_RedeemURL (v : string) (o : Options) : Options :=
  mkOptions (ProxyPrefix o) (ProxyWebSockets o) (HttpAddress o)
    (HttpsAddress o) (ForceHTTPS o) (RedirectURL o) (ClientID o)
    (ClientSecret o) (TLSCertFile o) (TLSKeyFile o) (AuthenticatedEmailsFile
    o) (AzureTenant o) (BitbucketTeam o) (EmailDomains o) (WhitelistDomains
    o) (GitHubOrg o) (GitHubTeams o) (GitLabGroups o) (GoogleGroups o)
    (GoogleAdminEmail o) (GoogleServiceAccountJSON o) (HtpasswdFile o)
    (DisplayHtpasswdForm o) (CustomTemplatesDir o) (Banner o) (Footer o)
    (CookieName o) (CookieSecret o) (CookieDomain o) (CookiePath o)
    (CookieExpire o) (CookieRefresh o) (CookieSecure o) (CookieHttpOnly o)
    (CookieSameSite o) (Upstreams o) (SkipAuthRegex o) (SkipAuthStripHeaders
    o) (PassBasicAuth o) (BasicAuthPassword o) (PassAccessToken o)
    (PassHostHeader o) (SkipProviderButton o) (PassUserHeaders o)
    (SSLInsecureSkipVerify o) (SetXAuthRequest o) (SkipAuthPreflight o)
    (FlushInterval o) (Provider o) (OIDCIssuerURL o) (OIDCJwksURL o)
    (SkipOIDCDiscovery o) (LoginURL o) v (ProfileURL o) (ProtectedResource
    o) (ValidateURL o) (Scope o) (Prompt o) (ApprovalPrompt o)
    (RequestLogging o) (RequestLoggingFormat o) (RealClientIPHeader o)
    (SignatureKey o) (redirectURL o) (proxyURLs o) (CompiledRegex o)
    (provider o) (signatureData o).

Definition with_GoogleGroups (v : list string) (o : Options) : Options :=
  mkOptions (ProxyPrefix o) (ProxyWebSockets o) (HttpAddress o)
    (HttpsAddress o) (ForceHTTPS o) (RedirectURL o) (ClientID o)
    (ClientSecret o) (TLSCertFile o) (TLSKeyFile o) (AuthenticatedEmailsFile
    o) (AzureTenant o) (BitbucketTeam o) (EmailDomains o) (WhitelistDomains
    o) (GitHubOrg o) (GitHubTeams o) (GitLabGroups o) v (GoogleAdminEmail o)
    (GoogleServiceAccountJSON o) (HtpasswdFile o) (DisplayHtpasswdForm o)
    (CustomTemplatesDir o) (Banner o) (Footer o) (CookieName o)
    (CookieSecret o) (CookieDomain o) (CookiePath o) (CookieExpire o)
    (CookieRefresh o) (CookieSecure o) (CookieHttpOnly o) (CookieSameSite o)
    (Upstreams o) (SkipAuthRegex o) (SkipAuthStripHeaders o) (PassBasicAuth
    o) (BasicAuthPassword o) (PassAccessToken o) (PassHostHeader o)
    (SkipProviderButton o) (PassUserHeaders o) (SSLInsecureSkipVerify o)
    (SetXAuthRequest o) (SkipAuthPreflight o) (FlushInterval o) (Provider o)
    (OIDCIssuerURL o) (OIDCJwksURL o) (SkipOIDCDiscovery o) (LoginURL o)
    (RedeemURL o) (ProfileURL o) (ProtectedResource o) (ValidateURL o)
    (Scope o) (Prompt o) (ApprovalPrompt o) (RequestLogging o)
    (RequestLoggingFormat o) (RealClientIPHeader o) (SignatureKey o)
    (redirectURL o) (proxyURLs o) (CompiledRegex o) (provider o)
    (signatureData o).

Definition with_GoogleAdminEmail (v : string) (o : Options) : Options :=
  mkOptions (ProxyPrefix o) (ProxyWebSockets o) (HttpAddress o)
    (HttpsAddress o) (ForceHTTPS o) (RedirectURL o) (ClientID o)
    (ClientSecret o) (TLSCertFile o) (TLSKeyFile o) (AuthenticatedEmailsFile
    o) (AzureTenant o) (BitbucketTeam o) (EmailDomains o) (WhitelistDomains
    o) (GitHubOrg o) (GitHubTeams o) (GitLabGroups o) (GoogleGroups o) v
    (GoogleServiceAccountJSON o) (HtpasswdFile o) (DisplayHtpasswdForm o)
    (CustomTemplatesDir o) (Banner o) (Footer o) (CookieName o)
    (CookieSecret o) (CookieDomain o) (CookiePath o) (CookieExpire o)
    (CookieRefresh o) (CookieSecure o) (CookieHttpOnly o) (CookieSameSite o)
    (Upstreams o) (SkipAuthRegex o) (SkipAuthStripHeaders o) (PassBasicAuth
    o) (BasicAuthPassword o) (PassAccessToken o) (PassHostHeader o)
    (SkipProviderButton o) (PassUserHeaders o) (SSLInsecureSkipVerify o)
    (SetXAuthRequest o) (SkipAuthPreflight o) (FlushInterval o) (Provider o)
    (OIDCIssuerURL o) (OIDCJwksURL o) (SkipOIDCDiscovery o) (LoginURL o)
    (RedeemURL o) (ProfileURL o) (ProtectedResource o) (ValidateURL o)
    (Scope o) (Prompt o) (ApprovalPrompt o) (RequestLogging o)
    (RequestLoggingFormat o) (RealClientIPHeader o) (SignatureKey o)
    (redirectURL o) (proxyURLs o) (CompiledRegex o) (provider o)
    (signatureData o).

Definition with_GoogleServiceAccountJSON (v : string) (o : Options) : Options :=
  mkOptions (ProxyPrefix o) (ProxyWebSockets o) (HttpAddress o)
    (HttpsAddress o) (ForceHTTPS o) (RedirectURL o) (ClientID o)
    (ClientSecret o) (TLSCertFile o) (TLSKeyFile o) (AuthenticatedEmailsFile
    o) (AzureTenant o) (BitbucketTeam o) (EmailDomains o) (WhitelistDomains
    o) (GitHubOrg o) (GitHubTeams o) (GitLabGroups o) (GoogleGroups o)
    (GoogleAdminEmail o) v (HtpasswdFile o) (DisplayHtpasswdForm o)
    (CustomTemplatesDir o) (Banner o) (Footer o) (CookieName o)
    (CookieSecret o) (CookieDomain o) (CookiePath o) (CookieExpire o)
    (CookieRefresh o) (CookieSecure o) (CookieHttpOnly o) (CookieSameSite o)
    (Upstreams o) (SkipAuthRegex o) (SkipAuthStripHeaders o) (PassBasicAuth
    o) (BasicAuthPassword o) (PassAccessToken o) (PassHostHeader o)
    (SkipProviderButton o) (PassUserHeaders o) (SSLInsecureSkipVerify o)
    (SetXAuthRequest o) (SkipAuthPreflight o) (FlushInterval o) (Provider o)
    (OIDCIssuerURL o) (OIDCJwksURL o) (SkipOIDCDiscovery o) (LoginURL o)
    (RedeemURL o) (ProfileURL o) (ProtectedResource o) (ValidateURL o)
    (Scope o) (Prompt o) (ApprovalPrompt o) (RequestLogging o)
    (RequestLoggingFormat o) (RealClientIPHeader o) (SignatureKey o)
    (redirectURL o) (proxyURLs o) (CompiledRegex o) (provider o)
    (signatureData o).

Definition with_SignatureKey (v : string) (o : Options) : Options :=
  mkOptions (ProxyPrefix o) (ProxyWebSockets o) (HttpAddress o)
    (HttpsAddress o) (ForceHTTPS o) (RedirectURL o) (ClientID o)
    (ClientSecret o) (TLSCertFile o) (TLSKeyFile o) (AuthenticatedEmailsFile
    o) (AzureTenant o) (BitbucketTeam o) (EmailDomains o) (WhitelistDomains
    o) (GitHubOrg o) (GitHubTeams o) (GitLabGroups o) (GoogleGroups o)
    (GoogleAdminEmail o) (GoogleServiceAccountJSON o) (HtpasswdFile o)
    (DisplayHtpasswdForm o) (CustomTemplatesDir o) (Banner o) (Footer o)
    (CookieName o) (CookieSecret o) (CookieDomain o) (CookiePath o)
    (CookieExpire o) (CookieRefresh o) (CookieSecure o) (CookieHttpOnly o)
    (CookieSameSite o) (Upstreams o) (SkipAuthRegex o) (SkipAuthStripHeaders
    o) (PassBasicAuth o) (BasicAuthPassword o) (PassAccessToken o)
    (PassHostHeader o) (SkipProviderButton o) (PassUserHeaders o)
    (SSLInsecureSkipVerify o) (SetXAuthRequest o) (SkipAuthPreflight o)
    (FlushInterval o) (Provider o) (OIDCIssuerURL o) (OIDCJwksURL o)
    (SkipOIDCDiscovery o) (LoginURL o) (RedeemURL o) (ProfileURL o)
    (ProtectedResource o) (ValidateURL o) (Scope o) (Prompt o)
    (ApprovalPrompt o) (RequestLogging o) (RequestLoggingFormat o)
    (RealClientIPHeader o) v (redirectURL o) (proxyURLs o) (CompiledRegex o)
    (provider o) (signatureData o).

(** Options in the style of the package's tests: the three required
    credentials and one e-mail domain on top of the defaults. *)
Definition testOptions : Options :=
  with_EmailDomains ["*"]
    (with_CookieSecret "foobar"
       (with_ClientSecret "xyzzyplugh"
          (with_ClientID "bazquux" (NewOptions "")))).

(** ** The findings of each check

    What a check contributes to the report, as a function of the settings
    alone; the theorems below relate them to the code above. *)

Definition when (b : bool) (m : string) : list string :=
  if b then [m] else [].

(** A valid AES key length. *)
Definition size_ok (n : nat) : bool :=
  (n =? 16)%nat || (n =? 24)%nat || (n =? 32)%nat.

Definition url_findings (env : Env) (to_parse urltype : string)
  : list string :=
  snd (parseURL env to_parse urltype []).

(** The normalisation of lines 179-181. *)
Definition default_path (u : url.URL) : url.URL :=
  if is_empty (url.Path u) then url.with_Path u "/" else u.

Definition upstream_accepted (env : Env) (targets : list string)
  : list url.URL :=
  flat_map (fun u => match url_Parse env u with
                     | Ok parsed => [default_path parsed]
                     | Err _ => []
                     end) targets.

Definition upstream_findings (env : Env) (targets : list string)
  : list string :=
  flat_map (fun u => match url_Parse env u with
                     | Ok _ => []
                     | Err err => [("error parsing upstream: " ++ err)%string]
                     end) targets.

Definition regex_accepted (env : Env) (patterns : list string)
  : list regexp.Regexp :=
  flat_map (fun u => match regexp_Compile env u with
                     | Ok compiled => [compiled]
                     | Err _ => []
                     end) patterns.

Definition regex_findings (env : Env) (patterns : list string)
  : list string :=
  flat_map (fun u => match regexp_Compile env u with
                     | Ok _ => []
                     | Err err =>
                         [("error compiling regex=" ++ fmt_q env u ++ " "
                           ++ err)%string]
                     end) patterns.

Definition endpoint_findings (env : Env) (o : Options) : list string :=
  url_findings env (LoginURL o) "login"
  ++ url_findings env (RedeemURL o) "redeem"
  ++ url_findings env (ProfileURL o) "profile"
  ++ url_findings env (ValidateURL o) "validate"
  ++ url_findings env (ProtectedResource o) "resource".

(** Whether one of the three Google group-restriction settings is set. *)
Definition google_restricted (o : Options) : bool :=
  (0 <? len (GoogleGroups o))%nat
  || negb (is_empty (GoogleAdminEmail o))
  || negb (is_empty (GoogleServiceAccountJSON o)).

Definition google_missing (o : Options) : list string :=
  when (len (GoogleGroups o) <? 1)%nat "missing setting: google-group"
  ++ when (is_empty (GoogleAdminEmail o)) "missing setting: google-admin-email"
  ++ when (is_empty (GoogleServiceAccountJSON o))
          "missing setting: google-service-account-json".

Definition google_credentials_findings (env : Env) (o : Options)
  : list string :=
  if is_empty (GoogleServiceAccountJSON o) then []
  else match os_Open env (GoogleServiceAccountJSON o) with
       | Some _ => []
       | None => [("invalid Google credentials file: "
                   ++ GoogleServiceAccountJSON o)%string]
       end.

Definition google_findings (env : Env) (o : Options) : list string :=
  (if google_restricted o then google_missing o else [])
  ++ google_credentials_findings env o.

Definition oidc_issuer_missing (o : Options) : list string :=
  when (is_empty (OIDCIssuerURL o)) "missing-setting: oidc-issuer-url".

Definition oidc_skipped_missing (o : Options) : list string :=
  when (is_empty (LoginURL o)) "missing setting: login-url"
  ++ when (is_empty (RedeemURL o)) "missing setting: redeem-url"
  ++ when (is_empty (OIDCJwksURL o)) "missing setting: oidc-jwks-url".

Definition oidc_discovery_findings (env : Env) (o : Options) : list string :=
  if is_empty (OIDCIssuerURL o) then []
  else match oidc_SetIssuerURL env (OIDCIssuerURL o) with
       | Some err => [err]
       | None => []
       end.

Definition oidc_findings (env : Env) (o : Options) : list string :=
  oidc_issuer_missing o
  ++ (if SkipOIDCDiscovery o then oidc_skipped_missing o
      else oidc_discovery_findings env o).

(** The provider value handed to the type switch. *)
Definition selected_provider (env : Env) (o : Options) : providers.Provider :=
  providers_New env (Provider o) (fst (parseProviderInfo_data env o [])).

Definition provider_findings (env : Env) (o : Options) : list string :=
  endpoint_findings env o
  ++ match providers.variant (selected_provider env o) with
     | providers.GoogleProvider => google_findings env o
     | providers.OIDCProvider => oidc_findings env o
     | _ => []
     end.

Definition signature_findings (env : Env) (o : Options) : list string :=
  if is_empty (SignatureKey o) then []
  else match strings.Split (SignatureKey o) ":" with
       | [algorithm; _] =>
           match DigestNameToCryptoHash env algorithm with
           | Some _ => []
           | None => [("unsupported signature hash algorithm: "
                       ++ SignatureKey o)%string]
           end
       | _ => [("invalid signature hash:key spec: " ++ SignatureKey o)%string]
       end.

(** The findings of the twelve checks of [Validate], in source order. *)
Definition Validate_findings (env : Env) (o : Options) : list (list string) :=
  [ snd (Validate_insecureTLS env world0 o []);
    Validate_required o [];
    url_findings env (RedirectURL o) "redirect";
    upstream_findings env (Upstreams o);
    regex_findings env (SkipAuthRegex o);
    provider_findings env o;
    Validate_cookieSecret env o [];
    Validate_cookieRefresh env o [];
    Validate_cookieSameSite o [];
    signature_findings env o;
    validateCookieName env o [];
    Validate_realClientIPHeader env o [] ].

(** The settings of [o], with the internal values cleared. *)
Definition settings (o : Options) : Options :=
  set_signatureData
    (set_provider
       (set_CompiledRegex (set_proxyURLs (set_redirectURL o None) []) [])
       None)
    None.

(** The secret passes when it is a raw key of a valid length or when its
    padded form decodes to one. *)
Definition secret_passes (env : Env) (secret : string) : Prop :=
  size_ok (String.length secret) = true
  \/ exists b, base64_DecodeString env (addPadding secret) = Some b
               /\ size_ok (len b) = true.

(** The guard of line 197. *)
Definition secret_check_enabled (o : Options) : bool :=
  PassAccessToken o || negb (CookieRefresh o =? 0)%Z.

(** ** What a run leaves behind

    The values [parseProviderInfo] hands to the provider and the files it
    opens, as functions of the settings. *)

(** The configuration calls the type switch of [parseProviderInfo] makes. *)
Definition provider_calls (env : Env) (o : Options) : list providers.Call :=
  match providers.variant (selected_provider env o) with
  | providers.AzureProvider => [providers.Configure (AzureTenant o)]
  | providers.BitbucketProvider => [providers.SetTeam (BitbucketTeam o)]
  | providers.GitHubProvider =>
      [providers.SetOrgTeam (GitHubOrg o) (GitHubTeams o)]
  | providers.GitLabProvider => [providers.SetGroups (GitLabGroups o)]
  | providers.GoogleProvider =>
      if is_empty (GoogleServiceAccountJSON o) then []
      else match os_Open env (GoogleServiceAccountJSON o) with
           | Some file =>
               [providers.SetGroupRestriction (GoogleGroups o)
                  (GoogleAdminEmail o) file]
           | None => []
           end
  | providers.OIDCProvider =>
      if SkipOIDCDiscovery o then
        if negb (is_empty (OIDCIssuerURL o))
           && negb (is_empty (OIDCJwksURL o))
        then [providers.SetVerifier (OIDCIssuerURL o) (OIDCJwksURL o)]
        else []
      else if is_empty (OIDCIssuerURL o) then []
           else [providers.SetIssuerURL (OIDCIssuerURL o)]
  | providers.OtherProvider => []
  end.

(** The paths [parseProviderInfo] passes to [os.Open]. *)
Definition provider_opened (env : Env) (o : Options) : list string :=
  match providers.variant (selected_provider env o) with
  | providers.GoogleProvider =>
      if is_empty (GoogleServiceAccountJSON o) then []
      else [GoogleServiceAccountJSON o]
  | _ => []
  end.

(** The provider stored in [o.provider]. *)
Definition configured_provider (env : Env) (o : Options)
  : providers.Provider :=
  providers.mkProvider
    (providers.variant (selected_provider env o))
    (providers.data (selected_provider env o))
    (providers.calls (selected_provider env o) ++ provider_calls env o).

(** [b] occurs in [a] as a contiguous piece. *)
Definition occurs_in (b a : string) : Prop :=
  exists pre post : string, a = (pre ++ b ++ post)%string.

(** The signature data [parseSignatureKey] leaves in [o.signatureData]. *)
Definition signature_result (env : Env) (o : Options)
  : option SignatureData :=
  if is_empty (SignatureKey o) then signatureData o
  else match strings.Split (SignatureKey o) ":" with
       | [algorithm; secretKey] =>
           match DigestNameToCryptoHash env algorithm with
           | Some h => Some (mkSignatureData h secretKey)
           | None => signatureData o
           end
       | _ => signatureData o
       end.

(** The receiver after [Validate]: the settings of [o] with the internal
    values filled in. *)
Definition validated (env : Env) (o : Options) : Options :=
  set_signatureData
    (set_provider
       (set_CompiledRegex
          (set_proxyURLs
             (set_redirectURL o
                (fst (parseURL env (RedirectURL o) "redirect" [])))
             (proxyURLs o ++ upstream_accepted env (Upstreams o)))
          (CompiledRegex o ++ regex_accepted env (SkipAuthRegex o)))
       (Some (configured_provider env o)))
    (signature_result env o).

(** The world after [Validate]. *)
Definition world_after (env : Env) (w : World) (o : Options) : World :=
  mkWorld
    (InsecureSkipVerify w
     || (SSLInsecureSkipVerify o && defaultTransportIsHTTP env))
    (opened w ++ provider_opened env o).

(** [a] and [b] agree on every setting (every field that carries a flag). *)
Definition same_settings (a b : Options) : Prop :=
  ProxyPrefix a = ProxyPrefix b
  /\ ProxyWebSockets a = ProxyWebSockets b
  /\ HttpAddress a = HttpAddress b
  /\ HttpsAddress a = HttpsAddress b
  /\ ForceHTTPS a = ForceHTTPS b
  /\ RedirectURL a = RedirectURL b
  /\ ClientID a = ClientID b
  /\ ClientSecret a = ClientSecret b
  /\ TLSCertFile a = TLSCertFile b
  /\ TLSKeyFile a = TLSKeyFile b
  /\ AuthenticatedEmailsFile a = AuthenticatedEmailsFile b
  /\ AzureTenant a = AzureTenant b
  /\ BitbucketTeam a = BitbucketTeam b
  /\ EmailDomains a = EmailDomains b
  /\ WhitelistDomains a = WhitelistDomains b
  /\ GitHubOrg a = GitHubOrg b
  /\ GitHubTeams a = GitHubTeams b
  /\ GitLabGroups a = GitLabGroups b
  /\ GoogleGroups a = GoogleGroups b
  /\ GoogleAdminEmail a = GoogleAdminEmail b
  /\ GoogleServiceAccountJSON a = GoogleServiceAccountJSON b
  /\ HtpasswdFile a = HtpasswdFile b
  /\ DisplayHtpasswdForm a = DisplayHtpasswdForm b
  /\ CustomTemplatesDir a = CustomTemplatesDir b
  /\ Banner a = Banner b
  /\ Footer a = Footer b
  /\ CookieName a = CookieName b
  /\ CookieSecret a = CookieSecret b
  /\ CookieDomain a = CookieDomain b
  /\ CookiePath a = CookiePath b
  /\ CookieExpire a = CookieExpire b
  /\ CookieRefresh a = CookieRefresh b
  /\ CookieSecure a = CookieSecure b
  /\ CookieHttpOnly a = CookieHttpOnly b
  /\ CookieSameSite a = CookieSameSite b
  /\ Upstreams a = Upstreams b
  /\ SkipAuthRegex a = SkipAuthRegex b
  /\ SkipAuthStripHeaders a = SkipAuthStripHeaders b
  /\ PassBasicAuth a = PassBasicAuth b
  /\ BasicAuthPassword a = BasicAuthPassword b
  /\ PassAccessToken a = PassAccessToken b
  /\ PassHostHeader a = PassHostHeader b
  /\ SkipProviderButton a = SkipProviderButton b
  /\ PassUserHeaders a = PassUserHeaders b
  /\ SSLInsecureSkipVerify a = SSLInsecureSkipVerify b
  /\ SetXAuthRequest a = SetXAuthRequest b
  /\ SkipAuthPreflight a = SkipAuthPreflight b
  /\ FlushInterval a = FlushInterval b
  /\ Provider a = Provider b
  /\ OIDCIssuerURL a = OIDCIssuerURL b
  /\ OIDCJwksURL a = OIDCJwksURL b
  /\ SkipOIDCDiscovery a = SkipOIDCDiscovery b
  /\ LoginURL a = LoginURL b
  /\ RedeemURL a = RedeemURL b
  /\ ProfileURL a = ProfileURL b
  /\ ProtectedResource a = ProtectedResource b
  /\ ValidateURL a = ValidateURL b
  /\ Scope a = Scope b
  /\ Prompt a = Prompt b
  /\ ApprovalPrompt a = ApprovalPrompt b
  /\ RequestLogging a = RequestLogging b
  /\ RequestLoggingFormat a = RequestLoggingFormat b
  /\ RealClientIPHeader a = RealClientIPHeader b
  /\ SignatureKey a = SignatureKey b.

(** ** main.go: the flag set and the struct tags it is resolved against *)

Module flag.

(** The value of a flag: [flag.String], [flag.Bool], [flag.Duration], or a
    [StringArray] registered with [flag.Var]. *)
Inductive Value : Type :=
| StringValue (s : string)
| BoolValue (b : bool)
| DurationValue (d : Duration)
| StringArrayValue (l : list string).

(** A defined flag: its name and default value (the usage text is left
    out). *)
Record Flag : Type := mkFlag {
  Name : string;
  DefValue : Value
}.

(** [FlagSet.Lookup]. *)
Fixpoint Lookup (flags : list Flag) (name : string) : option Flag :=
  match flags with
  | [] => None
  | f :: rest => if String.eqb (Name f) name then Some f else Lookup rest name
  end.

(** Whether two values have the same Go type. *)
Definition same_kind (a b : Value) : bool :=
  match a, b with
  | StringValue _, StringValue _ => true
  | BoolValue _, BoolValue _ => true
  | DurationValue _, DurationValue _ => true
  | StringArrayValue _, StringArrayValue _ => true
  | _, _ => false
  end.

End flag.

(** [mainFlagSet()]: the flags in the order of their definition; the seven
    [StringArray] variables start empty. *)
Definition mainFlagSet (defaultRequestLoggingFormat : string)
  : list flag.Flag :=
  [ flag.mkFlag "http-address" (flag.StringValue "127.0.0.1:4180");
    flag.mkFlag "https-address" (flag.StringValue ":443");
    flag.mkFlag "force-https" (flag.BoolValue false);
    flag.mkFlag "tls-cert-file" (flag.StringValue "");
    flag.mkFlag "tls-key-file" (flag.StringValue "");
    flag.mkFlag "redirect-url" (flag.StringValue "");
    flag.mkFlag "upstream" (flag.StringArrayValue []);
    flag.mkFlag "set-xauthrequest" (flag.BoolValue false);
    flag.mkFlag "pass-user-headers" (flag.BoolValue true);
    flag.mkFlag "pass-basic-auth" (flag.BoolValue true);
    flag.mkFlag "basic-auth-password" (flag.StringValue "");
    flag.mkFlag "pass-access-token" (flag.BoolValue false);
    flag.mkFlag "pass-host-header" (flag.BoolValue true);
    flag.mkFlag "skip-auth-regex" (flag.StringArrayValue []);
    flag.mkFlag "skip-auth-strip-headers" (flag.BoolValue true);
    flag.mkFlag "skip-provider-button" (flag.BoolValue false);
    flag.mkFlag "skip-auth-preflight" (flag.BoolValue false);
    flag.mkFlag "ssl-insecure-skip-verify" (flag.BoolValue false);
    flag.mkFlag "flush-interval" (flag.DurationValue 0%Z);
    flag.mkFlag "email-domain" (flag.StringArrayValue []);
    flag.mkFlag "whitelist-domain" (flag.StringArrayValue []);
    flag.mkFlag "azure-tenant" (flag.StringValue "common");
    flag.mkFlag "bitbucket-team" (flag.StringValue "");
    flag.mkFlag "github-org" (flag.StringValue "");
    flag.mkFlag "github-team" (flag.StringArrayValue []);
    flag.mkFlag "gitlab-group" (flag.StringArrayValue []);
    flag.mkFlag "google-group" (flag.StringArrayValue []);
    flag.mkFlag "google-admin-email" (flag.StringValue "");
    flag.mkFlag "google-service-account-json" (flag.StringValue "");
    flag.mkFlag "client-id" (flag.StringValue "");
    flag.mkFlag "client-secret" (flag.StringValue "");
    flag.mkFlag "authenticated-emails-file" (flag.StringValue "");
    flag.mkFlag "htpasswd-file" (flag.StringValue "");
    flag.mkFlag "display-htpasswd-form" (flag.BoolValue true);
    flag.mkFlag "custom-templates-dir" (flag.StringValue "");
    flag.mkFlag "banner" (flag.StringValue "");
    flag.mkFlag "footer" (flag.StringValue "");
    flag.mkFlag "proxy-prefix" (flag.StringValue "/oauth2");
    flag.mkFlag "proxy-websockets" (flag.BoolValue true);
    flag.mkFlag "cookie-name" (flag.StringValue "_oauth2_proxy");
    flag.mkFlag "cookie-secret" (flag.StringValue "");
    flag.mkFlag "cookie-domain" (flag.StringValue "");
    flag.mkFlag "cookie-path" (flag.StringValue "/");
    flag.mkFlag "cookie-expire" (flag.DurationValue (168 * Hour)%Z);
    flag.mkFlag "cookie-refresh" (flag.DurationValue 0%Z);
    flag.mkFlag "cookie-secure" (flag.BoolValue true);
    flag.mkFlag "cookie-httponly" (flag.BoolValue true);
    flag.mkFlag "cookie-samesite" (flag.StringValue "");
    flag.mkFlag "request-logging" (flag.BoolValue true);
    flag.mkFlag "request-logging-format" (flag.StringValue defaultRequestLoggingFormat);
    flag.mkFlag "real-client-ip-header" (flag.StringValue "X-Real-IP");
    flag.mkFlag "provider" (flag.StringValue "google");
    flag.mkFlag "oidc-issuer-url" (flag.StringValue "");
    flag.mkFlag "oidc-jwks-url" (flag.StringValue "");
    flag.mkFlag "skip-oidc-discovery" (flag.BoolValue false);
    flag.mkFlag "login-url" (flag.StringValue "");
    flag.mkFlag "redeem-url" (flag.StringValue "");
    flag.mkFlag "profile-url" (flag.StringValue "");
    flag.mkFlag "resource" (flag.StringValue "");
    flag.mkFlag "validate-url" (flag.StringValue "");
    flag.mkFlag "scope" (flag.StringValue "");
    flag.mkFlag "prompt" (flag.StringValue "");
    flag.mkFlag "approval-prompt" (flag.StringValue "force");
    flag.mkFlag "signature-key" (flag.StringValue "") ].

(** The two flags [main] adds before parsing. *)
Definition main_flags : list flag.Flag :=
  [ flag.mkFlag "config" (flag.StringValue "");
    flag.mkFlag "version" (flag.BoolValue false) ].

(** The struct tags of a field of [Options] and the field itself. *)
Record Tag : Type := mkTag {
  tag_field : string;
  tag_flag : string;
  tag_cfg : string;
  tag_env : option string;
  tag_value : Options -> flag.Value
}.

(** The tagged fields of [Options], in the order of the struct. *)
Definition Options_tags : list Tag :=
  [ mkTag "ProxyPrefix" "proxy-prefix" "proxy_prefix" None
      (fun o => flag.StringValue (ProxyPrefix o));
    mkTag "ProxyWebSockets" "proxy-websockets" "proxy_websockets" None
      (fun o => flag.BoolValue (ProxyWebSockets o));
    mkTag "HttpAddress" "http-address" "http_address" None
      (fun o => flag.StringValue (HttpAddress o));
    mkTag "HttpsAddress" "https-address" "https_address" None
      (fun o => flag.StringValue (HttpsAddress o));
    mkTag "ForceHTTPS" "force-https" "force_https" None
      (fun o => flag.BoolValue (ForceHTTPS o));
    mkTag "RedirectURL" "redirect-url" "redirect_url" None
      (fun o => flag.StringValue (RedirectURL o));
    mkTag "ClientID" "client-id" "client_id" (Some "OAUTH2_PROXY_CLIENT_ID")
      (fun o => flag.StringValue (ClientID o));
    mkTag "ClientSecret" "client-secret" "client_secret" (Some "OAUTH2_PROXY_CLIENT_SECRET")
      (fun o => flag.StringValue (ClientSecret o));
    mkTag "TLSCertFile" "tls-cert-file" "tls_cert_file" None
      (fun o => flag.StringValue (TLSCertFile o));
    mkTag "TLSKeyFile" "tls-key-file" "tls_key_file" None
      (fun o => flag.StringValue (TLSKeyFile o));
    mkTag "AuthenticatedEmailsFile" "authenticated-emails-file" "authenticated_emails_file" None
      (fun o => flag.StringValue (AuthenticatedEmailsFile o));
    mkTag "AzureTenant" "azure-tenant" "azure_tenant" None
      (fun o => flag.StringValue (AzureTenant o));
    mkTag "BitbucketTeam" "bitbucket-team" "bitbucket_team" None
      (fun o => flag.StringValue (BitbucketTeam o));
    mkTag "EmailDomains" "email-domain" "email_domains" None
      (fun o => flag.StringArrayValue (EmailDomains o));
    mkTag "WhitelistDomains" "whitelist-domain" "whitelist_domains" (Some "OAUTH2_PROXY_WHITELIST_DOMAINS")
      (fun o => flag.StringArrayValue (WhitelistDomains o));
    mkTag "GitHubOrg" "github-org" "github_org" None
      (fun o => flag.StringValue (GitHubOrg o));
    mkTag "GitHubTeams" "github-team" "github_teams" None
      (fun o => flag.StringArrayValue (GitHubTeams o));
    mkTag "GitLabGroups" "gitlab-group" "gitlab_groups" None
      (fun o => flag.StringArrayValue (GitLabGroups o));
    mkTag "GoogleGroups" "google-group" "google_groups" None
      (fun o => flag.StringArrayValue (GoogleGroups o));
    mkTag "GoogleAdminEmail" "google-admin-email" "google_admin_email" None
      (fun o => flag.StringValue (GoogleAdminEmail o));
    mkTag "GoogleServiceAccountJSON" "google-service-account-json" "google_service_account_json" None
      (fun o => flag.StringValue (GoogleServiceAccountJSON o));
    mkTag "HtpasswdFile" "htpasswd-file" "htpasswd_file" None
      (fun o => flag.StringValue (HtpasswdFile o));
    mkTag "DisplayHtpasswdForm" "display-htpasswd-form" "display_htpasswd_form" None
      (fun o => flag.BoolValue (DisplayHtpasswdForm o));
    mkTag "CustomTemplatesDir" "custom-templates-dir" "custom_templates_dir" None
      (fun o => flag.StringValue (CustomTemplatesDir o));
    mkTag "Banner" "banner" "banner" None
      (fun o => flag.StringValue (Banner o));
    mkTag "Footer" "footer" "footer" None
      (fun o => flag.StringValue (Footer o));
    mkTag "CookieName" "cookie-name" "cookie_name" (Some "OAUTH2_PROXY_COOKIE_NAME")
      (fun o => flag.StringValue (CookieName o));
    mkTag "CookieSecret" "cookie-secret" "cookie_secret" (Some "OAUTH2_PROXY_COOKIE_SECRET")
      (fun o => flag.StringValue (CookieSecret o));
    mkTag "CookieDomain" "cookie-domain" "cookie_domain" (Some "OAUTH2_PROXY_COOKIE_DOMAIN")
      (fun o => flag.StringValue (CookieDomain o));
    mkTag "CookiePath" "cookie-path" "cookie_path" (Some "OAUTH2_PROXY_COOKIE_PATH")
      (fun o => flag.StringValue (CookiePath o));
    mkTag "CookieExpire" "cookie-expire" "cookie_expire" (Some "OAUTH2_PROXY_COOKIE_EXPIRE")
      (fun o => flag.DurationValue (CookieExpire o));
    mkTag "CookieRefresh" "cookie-refresh" "cookie_refresh" (Some "OAUTH2_PROXY_COOKIE_REFRESH")
      (fun o => flag.DurationValue (CookieRefresh o));
    mkTag "CookieSecure" "cookie-secure" "cookie_secure" None
      (fun o => flag.BoolValue (CookieSecure o));
    mkTag "CookieHttpOnly" "cookie-httponly" "cookie_httponly" None
      (fun o => flag.BoolValue (CookieHttpOnly o));
    mkTag "CookieSameSite" "cookie-samesite" "cookie_samesite" None
      (fun o => flag.StringValue (CookieSameSite o));
    mkTag "Upstreams" "upstream" "upstreams" None
      (fun o => flag.StringArrayValue (Upstreams o));
    mkTag "SkipAuthRegex" "skip-auth-regex" "skip_auth_regex" None
      (fun o => flag.StringArrayValue (SkipAuthRegex o));
    mkTag "SkipAuthStripHeaders" "skip-auth-strip-headers" "skip_auth_strip_headers" None
      (fun o => flag.BoolValue (SkipAuthStripHeaders o));
    mkTag "PassBasicAuth" "pass-basic-auth" "pass_basic_auth" None
      (fun o => flag.BoolValue (PassBasicAuth o));
    mkTag "BasicAuthPassword" "basic-auth-password" "basic_auth_password" None
      (fun o => flag.StringValue (BasicAuthPassword o));
    mkTag "PassAccessToken" "pass-access-token" "pass_access_token" None
      (fun o => flag.BoolValue (PassAccessToken o));
    mkTag "PassHostHeader" "pass-host-header" "pass_host_header" None
      (fun o => flag.BoolValue (PassHostHeader o));
    mkTag "SkipProviderButton" "skip-provider-button" "skip_provider_button" None
      (fun o => flag.BoolValue (SkipProviderButton o));
    mkTag "PassUserHeaders" "pass-user-headers" "pass_user_headers" None
      (fun o => flag.BoolValue (PassUserHeaders o));
    mkTag "SSLInsecureSkipVerify" "ssl-insecure-skip-verify" "ssl_insecure_skip_verify" None
      (fun o => flag.BoolValue (SSLInsecureSkipVerify o));
    mkTag "SetXAuthRequest" "set-xauthrequest" "set_xauthrequest" None
      (fun o => flag.BoolValue (SetXAuthRequest o));
    mkTag "SkipAuthPreflight" "skip-auth-preflight" "skip_auth_preflight" None
      (fun o => flag.BoolValue (SkipAuthPreflight o));
    mkTag "FlushInterval" "flush-interval" "flush_interval" None
      (fun o => flag.DurationValue (FlushInterval o));
    mkTag "Provider" "provider" "provider" None
      (fun o => flag.StringValue (Provider o));
    mkTag "OIDCIssuerURL" "oidc-issuer-url" "oidc_issuer_url" None
      (fun o => flag.StringValue (OIDCIssuerURL o));
    mkTag "OIDCJwksURL" "oidc-jwks-url" "oidc_jwks_url" None
      (fun o => flag.StringValue (OIDCJwksURL o));
    mkTag "SkipOIDCDiscovery" "skip-oidc-discovery" "skip_oidc_discovery" None
      (fun o => flag.BoolValue (SkipOIDCDiscovery o));
    mkTag "LoginURL" "login-url" "login_url" None
      (fun o => flag.StringValue (LoginURL o));
    mkTag "RedeemURL" "redeem-url" "redeem_url" None
      (fun o => flag.StringValue (RedeemURL o));
    mkTag "ProfileURL" "profile-url" "profile_url" None
      (fun o => flag.StringValue (ProfileURL o));
    mkTag "ProtectedResource" "resource" "resource" None
      (fun o => flag.StringValue (ProtectedResource o));
    mkTag "ValidateURL" "validate-url" "validate_url" None
      (fun o => flag.StringValue (ValidateURL o));
    mkTag "Scope" "scope" "scope" None
      (fun o => flag.StringValue (Scope o));
    mkTag "Prompt" "prompt" "prompt" None
      (fun o => flag.StringValue (Prompt o));
    mkTag "ApprovalPrompt" "approval-prompt" "approval_prompt" None
      (fun o => flag.StringValue (ApprovalPrompt o));
    mkTag "RequestLogging" "request-logging" "request_logging" None
      (fun o => flag.BoolValue (RequestLogging o));
    mkTag "RequestLoggingFormat" "request-logging-format" "request_logging_format" None
      (fun o => flag.StringValue (RequestLoggingFormat o));
    mkTag "RealClientIPHeader" "real-client-ip-header" "real_client_ip_header" None
      (fun o => flag.StringValue (RealClientIPHeader o));
    mkTag "SignatureKey" "signature-key" "signature_key" (Some "OAUTH2_PROXY_SIGNATURE_KEY")
      (fun o => flag.StringValue (SignatureKey o)) ].

(** [strings.ToUpper] on ASCII letters. *)
Definition upper_byte (c : ascii) : ascii :=
  if is_lower c then ascii_of_N (N_of_ascii c - 32) else c.

Fixpoint ToUpper (s : string) : string :=
  match s with
  | EmptyString => EmptyString
  | String c r => String (upper_byte c) (ToUpper r)
  end.

(** The flag name with every '-' turned into '_'. *)
Fixpoint underscored (s : string) : string :=
  match s with
  | EmptyString => EmptyString
  | String c r =>
      String (if Ascii.eqb c "-" then "_"%char else c) (underscored r)
  end.

(** ** main.go: [main] after the flags are parsed

    [flagSet.Parse] (which exits on a malformed command line) has returned
    the config path and the version flag.  What [main] obtains from the rest
    of the package and from the libraries is gathered in [MainEnv]; the
    constructors [NewValidator] and [NewOAuthProxy] and the resolution of
    the options are taken to return, and what they do besides is not part
    of main.go. *)

Module proxy.

(** A loaded htpasswd file, identified by its path. *)
Record HtpasswdFile : Type := mkHtpasswdFile { path : string }.

(** The fields of [OAuthProxy] that [main] assigns. *)
Record OAuthProxy : Type := mkOAuthProxy {
  SignInMessage : string;
  HtpasswdFile_ : option HtpasswdFile;
  DisplayHtpasswdForm_ : bool
}.

End proxy.

(** The handlers [main] composes. *)
Inductive Handler : Type :=
| ProxyHandler (p : proxy.OAuthProxy)
| redirectToHTTPS (h : Handler) (httpsAddress : string)
| LoggingHandler (h : Handler) (realClientIPHeader format : string)
| NoLoggingHandler (h : Handler).

Record Server : Type := mkServer {
  ServerHandler : Handler;
  Opts : Options
}.

Record MainEnv : Type := mkMainEnv {
  validation : Env;
  VERSION : string;
  runtime_Version : string;
  defaultRequestLoggingFormat_ : string;
  (** the error of [toml.DecodeFile], if any *)
  toml_DecodeFile : string -> option string;
  (** [cfg.LoadEnvForStruct(opts)] followed by [options.Resolve], for the
      configuration read from the given path *)
  Resolve : string -> Options -> Options;
  (** [NewOAuthProxy(opts, NewValidator(...))] *)
  NewOAuthProxy : Options -> proxy.OAuthProxy;
  (** [NewHtpasswdFromFile] *)
  NewHtpasswdFromFile : string -> result proxy.HtpasswdFile string
}.

(** What the process writes: text printed to standard output, and messages
    handed to the logger (which adds its own date and file prefix). *)
Inductive Output : Type :=
| Printed (text : string)
| Logged (text : string).

(** How [main] ends. *)
Inductive Outcome : Type :=
| Returned
| Exited (code : nat)
| Serving (s : Server).

(** Lines 135-147: the sign-in message. *)
Definition main_SignInMessage (opts : Options) (current : string) : string :=
  if negb (is_empty (Banner opts)) then
    if String.eqb (Banner opts) "-" then "" else Banner opts
  else if negb (len (EmailDomains opts) =? 0)%nat
          && is_empty (AuthenticatedEmailsFile opts) then
    if (1 <? len (EmailDomains opts))%nat then
      ("Authenticate using one of the following domains: "
       ++ strings.Join (EmailDomains opts) ", ")%string
    else
      match EmailDomains opts with
      | domain :: _ =>
          if negb (String.eqb domain "*")
          then ("Authenticate using " ++ domain)%string
          else current
      | [] => current
      end
  else current.

(** Lines 158-168: the handler chain. *)
Definition main_handler (opts : Options) (p : proxy.OAuthProxy) : Handler :=
  let handler := ProxyHandler p in
  let handler :=
    if ForceHTTPS opts then redirectToHTTPS handler (HttpsAddress opts)
    else handler in
  if RequestLogging opts then
    LoggingHandler handler (RealClientIPHeader opts)
                   (RequestLoggingFormat opts)
  else NoLoggingHandler handler.

(** [main()], from line 110 on. *)
Definition main (menv : MainEnv) (w : World) (config : string)
    (showVersion : bool) : World * list Output * Outcome :=
  if showVersion then
    (w,
     [Printed ("oauth2_proxy v" ++ VERSION menv ++ " (built with "
               ++ runtime_Version menv ++ ")" ++ nl)%string],
     Returned)
  else
    let opts := NewOptions (defaultRequestLoggingFormat_ menv) in
    match (if negb (is_empty config) then toml_DecodeFile menv config
           else None) with
    | Some err =>
        (w,
         [Logged ("ERROR: failed to load config file " ++ config ++ " - "
                  ++ err)%string],
         Exited 1)
    | None =>
        let opts := Resolve menv config opts in
        let '(w, opts, err) := Validate (validation menv) w opts in
        match err with
        | Some text => (w, [Logged text], Exited 1)
        | None =>
            let oauthproxy := NewOAuthProxy menv opts in
            let oauthproxy :=
              proxy.mkOAuthProxy
                (main_SignInMessage opts (proxy.SignInMessage oauthproxy))
                (proxy.HtpasswdFile_ oauthproxy)
                (proxy.DisplayHtpasswdForm_ oauthproxy) in
            let serve (out : list Output) (p : proxy.OAuthProxy) :=
              (w, out, Serving (mkServer (main_handler opts p) opts)) in
            if negb (is_empty (HtpasswdFile opts)) then
              let notice :=
                Logged ("using htpasswd file " ++ HtpasswdFile opts)%string in
              match NewHtpasswdFromFile menv (HtpasswdFile opts) with
              | Err err =>
                  (w,
                   [notice;
                    Logged ("FATAL: unable to open " ++ HtpasswdFile opts
                            ++ " " ++ err)%string],
                   Exited 1)
              | Ok file =>
                  serve [notice]
                    (proxy.mkOAuthProxy (proxy.SignInMessage oauthproxy)
                       (Some file) (DisplayHtpasswdForm opts))
              end
            else serve [] oauthproxy
        end
    end.

(** Whether a list of names has no repetition. *)
Fixpoint distinct (names : list string) : bool :=
  match names with
  | [] => true
  | n :: rest => negb (existsb (String.eqb n) rest) && distinct rest
  end.

(** Whether every byte of [s] belongs to the URL-safe base64 alphabet. *)
Fixpoint all_alphabet (s : string) : bool :=
  match s with
  | EmptyString => true
  | String c r =>
      match base64.decodeMap c with
      | Some _ => all_alphabet r
      | None => false
      end
  end.

(** A concrete environment for [main]: no config file can be decoded except
    the empty path's absence of one, resolution supplies the credentials of
    [testOptions], and one htpasswd file exists. *)
Definition sampleMainEnv : MainEnv :=
  {| validation := sampleEnv;
     VERSION := "2.2.1";
     runtime_Version := "go1.12";
     defaultRequestLoggingFormat_ := "";
     toml_DecodeFile := fun path => Some ("open " ++ path
                                           ++ ": no such file or directory")%string;
     Resolve := fun _ _ => testOptions;
     NewOAuthProxy := fun _ => proxy.mkOAuthProxy "" None false;
     NewHtpasswdFromFile :=
       fun path => if String.eqb path "/etc/oauth2/htpasswd"
                   then Ok (proxy.mkHtpasswdFile path)
                   else Err ("open " ++ path
                             ++ ": no such file or directory")%string |}.

(** ** The alphabets of [encoding/base64]

    [Encoding.Decode] is one loop for every encoding; only the alphabet
    behind [decodeMap] differs.  [decode_in] is that loop over a given
    alphabet, so that [StdEncoding] can be set beside the [URLEncoding]
    that [secretBytes] calls. *)


Fixpoint decode_in (alphabet src : string) (dbuf : list N)
  : option (list Byte.byte) :=
  match src with
  | EmptyString =>
      match dbuf with
      | [] => Some []
      | _ => None
      end
  | String c rest =>
      match base64.position c alphabet 0 with
      | Some v =>
          match dbuf with
          | [v0; v1; v2] =>
              option_map
                (app (base64.quantum_bytes (base64.quantum v0 v1 v2 v) 4))
                (decode_in alphabet rest [])
          | _ => decode_in alphabet rest (dbuf ++ [v])
          end
      | None =>
          if base64.is_newline c then decode_in alphabet rest dbuf
          else if negb (Ascii.eqb c base64.padChar) then None
          else
            match dbuf with
            | [v0; v1] =>
                match base64.skip_newlines rest with
                | EmptyString => None
                | String c2 rest2 =>
                    if negb (Ascii.eqb c2 base64.padChar) then None
                    else match base64.skip_newlines rest2 with
                         | EmptyString =>
                             Some (base64.quantum_bytes
                                     (base64.quantum v0 v1 0 0) 2)
                         | _ => None
                         end
                end
            | [v0; v1; v2] =>
                match base64.skip_newlines rest with
                | EmptyString =>
                    Some (base64.quantum_bytes (base64.quantum v0 v1 v2 0) 3)
                | _ => None
                end
            | _ => None
            end
      end
  end.




(** * Properties *)

(** ** Strings *)

Lemma is_empty_true (s : string) : is_empty s = true <-> s = "".
Proof. unfold is_empty. apply String.eqb_eq. Qed.

Lemma is_empty_false (s : string) : is_empty s = false <-> s <> "".
Proof. unfold is_empty. apply String.eqb_neq. Qed.

Lemma length_app_string (a b : string) :
  String.length (a ++ b) = String.length a + String.length b.
Proof. induction a as [|c a IH]; simpl; [reflexivity | now rewrite IH]. Qed.

Lemma length_list_byte_of_string (s : string) :
  len (list_byte_of_string s) = String.length s.
Proof. induction s as [|c s IH]; simpl; [reflexivity | now rewrite <- IH]. Qed.

Section Split.
Variable sep : ascii.

Lemma Split_not_nil (s : string) : strings.Split s sep <> [].
Proof.
  induction s as [|c s IH]; simpl; [discriminate|].
  destruct (Ascii.eqb c sep); [discriminate|].
  destruct (strings.Split s sep); [contradiction | discriminate].
Qed.

Lemma Split_length (s : string) :
  len (strings.Split s sep) = S (strings.Count s sep).
Proof.
  induction s as [|c s IH]; simpl; [reflexivity|].
  destruct (Ascii.eqb c sep); simpl.
  - now rewrite <- IH.
  - destruct (strings.Split s sep) eqn:E; simpl in *; [discriminate | exact IH].
Qed.

Lemma Split_pieces (s : string) :
  Forall (fun p => strings.Count p sep = 0) (strings.Split s sep).
Proof.
  induction s as [|c s IH]; simpl.
  - constructor; [reflexivity | constructor].
  - destruct (Ascii.eqb c sep) eqn:E.
    + constructor; [reflexivity | exact IH].
    + destruct (strings.Split s sep) as [|p ps].
      * constructor; [simpl; now rewrite E | constructor].
      * inversion IH as [|? ? Hp Hps]; subst.
        constructor; [simpl; now rewrite E | exact Hps].
Qed.

Lemma Join_cons2 (e p : string) (ps : list string) (d : string) :
  strings.Join (e :: p :: ps) d = (e ++ d ++ strings.Join (p :: ps) d)%string.
Proof. reflexivity. Qed.

Lemma Join_Split (s : string) :
  strings.Join (strings.Split s sep) (String sep "") = s.
Proof.
  induction s as [|c s IH]; [reflexivity|].
  cbn [strings.Split].
  pose proof (Split_not_nil s) as Hn.
  destruct (strings.Split s sep) as [|p ps]; [contradiction|].
  destruct (Ascii.eqb c sep) eqn:E.
  - apply Ascii.eqb_eq in E; subst c.
    rewrite Join_cons2, IH. reflexivity.
  - destruct ps as [|q ps].
    + simpl in *. now rewrite IH.
    + rewrite Join_cons2 in IH |- *. rewrite <- IH. reflexivity.
Qed.

Lemma Count_app (a b : string) :
  strings.Count (a ++ b) sep = strings.Count a sep + strings.Count b sep.
Proof. induction a as [|c a IH]; simpl; [reflexivity | rewrite IH; lia]. Qed.

(** A text with no separator in [a] or [b] splits into exactly those. *)
Lemma Split_two (a b : string) :
  strings.Count a sep = 0 -> strings.Count b sep = 0 ->
  strings.Split (a ++ String sep b) sep = [a; b].
Proof.
  intros Ha Hb. induction a as [|c a IH]; simpl in *.
  - rewrite Ascii.eqb_refl. f_equal.
    clear Ha. induction b as [|d b IHb]; simpl in *; [reflexivity|].
    destruct (Ascii.eqb d sep); [discriminate|].
    rewrite IHb by exact Hb. reflexivity.
  - destruct (Ascii.eqb c sep); [discriminate|].
    rewrite IH by exact Ha. reflexivity.
Qed.

Lemma Split_two_inv (s a b : string) :
  strings.Split s sep = [a; b] ->
  s = (a ++ String sep b)%string
  /\ strings.Count a sep = 0 /\ strings.Count b sep = 0.
Proof.
  intros E. pose proof (Join_Split s) as J. pose proof (Split_pieces s) as P.
  rewrite E in J, P. simpl in J.
  inversion P as [|? ? Ha P']; subst. inversion P' as [|? ? Hb _]; subst.
  repeat split; auto.
Qed.
End Split.

(** ** Signature Spec Parser *)

Lemma parseSignatureKey_empty (env : Env) (o : Options) (msgs : list string) :
  is_empty (SignatureKey o) = true -> parseSignatureKey env o msgs = (o, msgs).
Proof. intros E. unfold parseSignatureKey. now rewrite E. Qed.

Lemma parseSignatureKey_two (env : Env) (o : Options) (msgs : list string)
    (algorithm secretKey : string) :
  is_empty (SignatureKey o) = false ->
  strings.Split (SignatureKey o) ":" = [algorithm; secretKey] ->
  parseSignatureKey env o msgs =
  match DigestNameToCryptoHash env algorithm with
  | Some h => (set_signatureData o (Some (mkSignatureData h secretKey)), msgs)
  | None =>
      (o, msgs ++ [("unsupported signature hash algorithm: "
                    ++ SignatureKey o)%string])
  end.
Proof.
  intros E S. unfold parseSignatureKey. rewrite E, S.
  destruct (DigestNameToCryptoHash env algorithm); reflexivity.
Qed.

Lemma parseSignatureKey_malformed (env : Env) (o : Options)
    (msgs : list string) :
  is_empty (SignatureKey o) = false ->
  len (strings.Split (SignatureKey o) ":") <> 2 ->
  parseSignatureKey env o msgs =
  (o, msgs ++ [("invalid signature hash:key spec: " ++ SignatureKey o)%string]).
Proof.
  intros E L. unfold parseSignatureKey. rewrite E.
  destruct (strings.Split (SignatureKey o) ":") as [|a [|b [|c r]]];
    simpl in L; try reflexivity.
  now contradiction L.
Qed.

(** C1, as the code has it: a non-empty signature key is split at every
    colon, so it has one more component than it has colons; any key whose
    number of colons is not exactly one (none, or two and more as in
    "sha1:a:b") is reported as an invalid hash:key spec; a key
    [algorithm:secret] with a single colon resolves to the digest named by
    [algorithm] together with [secret], or is reported as unsupported when
    the name is not mapped. *)
Theorem C1_parseSignatureKey_every_colon
    (env : Env) (o : Options) (msgs : list string) :
  is_empty (SignatureKey o) = false ->
  len (strings.Split (SignatureKey o) ":")
  = S (strings.Count (SignatureKey o) ":")
  /\ (strings.Count (SignatureKey o) ":" <> 1 ->
      parseSignatureKey env o msgs =
      (o, msgs ++ [("invalid signature hash:key spec: "
                    ++ SignatureKey o)%string]))
  /\ (forall algorithm secretKey : string,
        SignatureKey o = (algorithm ++ ":" ++ secretKey)%string ->
        strings.Count algorithm ":" = 0 ->
        strings.Count secretKey ":" = 0 ->
        parseSignatureKey env o msgs =
        match DigestNameToCryptoHash env algorithm with
        | Some h =>
            (set_signatureData o (Some (mkSignatureData h secretKey)), msgs)
        | None =>
            (o, msgs ++ [("unsupported signature hash algorithm: "
                          ++ SignatureKey o)%string])
        end)
  /\ (strings.Count (SignatureKey o) ":" = 1 ->
      exists algorithm secretKey : string,
        SignatureKey o = (algorithm ++ ":" ++ secretKey)%string
        /\ strings.Count algorithm ":" = 0
        /\ strings.Count secretKey ":" = 0).
Proof.
  intros E. pose proof (Split_length ":" (SignatureKey o)) as L.
  repeat split.
  - exact L.
  - intros C. apply parseSignatureKey_malformed; [exact E|].
    rewrite L. intros H. apply C. now injection H.
  - intros algorithm secretKey K Ha Hs.
    apply parseSignatureKey_two; [exact E|].
    rewrite K. now apply Split_two.
  - intros C. rewrite C in L.
    destruct (strings.Split (SignatureKey o) ":") as [|a [|b [|c r]]] eqn:S;
      simpl in L; try discriminate.
    exists a, b. now apply Split_two_inv.
Qed.

(** The theorem at the key "sha1:secret". *)
Lemma C1_parseSignatureKey_witness :
  let o := with_SignatureKey "sha1:secret" testOptions in
  is_empty (SignatureKey o) = false
  /\ parseSignatureKey sampleEnv o []
     = (set_signatureData o (Some (mkSignatureData 3%N "secret")), []).
Proof.
  intros o. split; [reflexivity|].
  destruct (C1_parseSignatureKey_every_colon sampleEnv o [] eq_refl)
    as (_ & _ & H & _).
  exact (H "sha1" "secret" eq_refl eq_refl eq_refl).
Defined.

(** C1 as stated fails: the key "sha1:a:b" names a supported digest, yet it
    is not resolved with the secret "a:b"; it is reported as an invalid
    spec and no signature data is stored. *)
Lemma C1_counterexample_secret_with_colon :
  let o := with_SignatureKey "sha1:a:b" testOptions in
  DigestNameToCryptoHash sampleEnv "sha1" = Some 3%N
  /\ parseSignatureKey sampleEnv o []
     = (o, ["invalid signature hash:key spec: sha1:a:b"])
  /\ signatureData (fst (parseSignatureKey sampleEnv o []))
     <> Some (mkSignatureData 3%N "a:b").
Proof.
  intros o. split; [reflexivity|]. split; [reflexivity|].
  vm_compute. discriminate.
Qed.

(** ** Secret Codec *)

Lemma mod4_cases (n : nat) :
  n mod 4 = 0 \/ n mod 4 = 1 \/ n mod 4 = 2 \/ n mod 4 = 3.
Proof.
  pose proof (Nat.mod_upper_bound n 4 ltac:(discriminate)). lia.
Qed.

Lemma addPadding_2 (s : string) :
  String.length s mod 4 = 2 -> addPadding s = (s ++ "==")%string.
Proof. intros E. unfold addPadding. now rewrite E. Qed.

Lemma addPadding_3 (s : string) :
  String.length s mod 4 = 3 -> addPadding s = (s ++ "=")%string.
Proof. intros E. unfold addPadding. now rewrite E. Qed.

Lemma addPadding_other (s : string) :
  String.length s mod 4 = 0 \/ String.length s mod 4 = 1 -> addPadding s = s.
Proof. intros [E|E]; unfold addPadding; now rewrite E. Qed.

Lemma add_mod4 (n k : nat) : (n + k) mod 4 = (n mod 4 + k) mod 4.
Proof.
  rewrite (Nat.Div0.add_mod n k 4), (Nat.Div0.add_mod (n mod 4) k 4).
  now rewrite Nat.Div0.mod_mod.
Qed.

Lemma addPadding_length (s : string) :
  String.length (addPadding s) mod 4 = 0 <-> String.length s mod 4 <> 1.
Proof.
  destruct (mod4_cases (String.length s)) as [E|[E|[E|E]]].
  - rewrite addPadding_other by auto. rewrite E. split; [discriminate | reflexivity].
  - rewrite addPadding_other by auto. rewrite E. split; [discriminate | contradiction].
  - rewrite addPadding_2, length_app_string, add_mod4, E by exact E.
    split; [discriminate | reflexivity].
  - rewrite addPadding_3, length_app_string, add_mod4, E by exact E.
    split; [discriminate | reflexivity].
Qed.

Lemma secretBytes_eq (env : Env) (secret : string) :
  secretBytes env secret =
  match base64_DecodeString env (addPadding secret) with
  | Some b => if size_ok (len b) then b else list_byte_of_string secret
  | None => list_byte_of_string secret
  end.
Proof. reflexivity. Qed.

(** C3, as the code has it: the codec appends "==" to a secret whose length
    is 2 modulo 4 and "=" to one whose length is 3 modulo 4, and leaves every
    other secret as it is, so the padded length is a multiple of 4 exactly
    when the original length is not 1 modulo 4; it then returns the decoded
    bytes when decoding the padded text succeeds with 16, 24 or 32 bytes,
    and the raw bytes of the original string in every other case. *)
Theorem C3_secret_codec (env : Env) (secret : string) :
  (String.length secret mod 4 = 2 -> addPadding secret = (secret ++ "==")%string)
  /\ (String.length secret mod 4 = 3 ->
      addPadding secret = (secret ++ "=")%string)
  /\ (String.length secret mod 4 = 0 \/ String.length secret mod 4 = 1 ->
      addPadding secret = secret)
  /\ (String.length (addPadding secret) mod 4 = 0
      <-> String.length secret mod 4 <> 1)
  /\ secretBytes env secret
     = match base64_DecodeString env (addPadding secret) with
       | Some b => if size_ok (len b) then b else list_byte_of_string secret
       | None => list_byte_of_string secret
       end
  /\ string_of_list_byte (list_byte_of_string secret) = secret.
Proof.
  repeat apply conj.
  - apply addPadding_2.
  - apply addPadding_3.
  - apply addPadding_other.
  - apply addPadding_length.
  - apply addPadding_length.
  - apply secretBytes_eq.
  - apply string_of_list_byte_of_string.
Qed.

(** C3 as stated fails: the one-character secret "a" is left unpadded, so
    its length does not become a multiple of 4. *)
Lemma C3_counterexample_unpadded :
  addPadding "a" = "a" /\ String.length (addPadding "a") mod 4 <> 0.
Proof. split; [reflexivity | vm_compute; discriminate]. Qed.

(** ** The cookie-secret size check *)

Lemma valid_cookie_secret_size_eq (env : Env) (o : Options) :
  valid_cookie_secret_size env o
  = size_ok (len (secretBytes env (CookieSecret o))).
Proof.
  unfold valid_cookie_secret_size, size_ok. simpl.
  destruct (len (secretBytes env (CookieSecret o)) =? 16)%nat eqn:E16;
    destruct (len (secretBytes env (CookieSecret o)) =? 24)%nat eqn:E24;
    destruct (len (secretBytes env (CookieSecret o)) =? 32)%nat eqn:E32;
    try reflexivity.
Qed.

Lemma secretBytes_size (env : Env) (secret : string) :
  size_ok (len (secretBytes env secret)) = true <-> secret_passes env secret.
Proof.
  unfold secret_passes. rewrite secretBytes_eq.
  destruct (base64_DecodeString env (addPadding secret)) as [b|] eqn:D.
  - destruct (size_ok (len b)) eqn:S.
    + split; [intros _; right; now exists b | intros _; exact S].
    + rewrite length_list_byte_of_string. split; [now left|].
      intros [H|(b' & Hb & Hs)]; [exact H|].
      injection Hb as <-. congruence.
  - rewrite length_list_byte_of_string. split; [now left|].
    intros [H|(b' & Hb & _)]; [exact H | discriminate].
Qed.

(** When the size is wrong the codec has fallen back to the raw bytes. *)
Lemma secretBytes_raw_when_invalid (env : Env) (secret : string) :
  size_ok (len (secretBytes env secret)) = false ->
  secretBytes env secret = list_byte_of_string secret.
Proof.
  rewrite secretBytes_eq.
  destruct (base64_DecodeString env (addPadding secret)) as [b|];
    [|reflexivity].
  destruct (size_ok (len b)) eqn:S; [congruence | reflexivity].
Qed.

Lemma decoded_false_when_invalid (env : Env) (o : Options) :
  valid_cookie_secret_size env o = false -> decoded env o = false.
Proof.
  rewrite valid_cookie_secret_size_eq. intros V. unfold decoded.
  rewrite (secretBytes_raw_when_invalid _ _ V), string_of_list_byte_of_string.
  now rewrite String.eqb_refl.
Qed.

Lemma Validate_cookieSecret_eq (env : Env) (o : Options) (msgs : list string) :
  Validate_cookieSecret env o msgs =
  if secret_check_enabled o && negb (valid_cookie_secret_size env o)
  then msgs ++ [cookie_secret_message (String.length (CookieSecret o)) ""]
  else msgs.
Proof.
  unfold Validate_cookieSecret, secret_check_enabled.
  destruct (PassAccessToken o || negb (CookieRefresh o =? 0)%Z);
    [|reflexivity].
  destruct (valid_cookie_secret_size env o) eqn:V; [reflexivity|].
  simpl. rewrite (decoded_false_when_invalid _ _ V).
  rewrite valid_cookie_secret_size_eq in V.
  now rewrite (secretBytes_raw_when_invalid _ _ V), length_list_byte_of_string.
Qed.

Lemma app_one_neq {A : Type} (l : list A) (x : A) : l ++ [x] <> l.
Proof.
  intros H. apply (f_equal (@List.length A)) in H.
  rewrite length_app in H. simpl in H. lia.
Qed.


(** C10: whenever the size message is emitted, the length it reports is the
    length of the original secret string and the base64 note is absent: the
    decoded flag is never set in a failing run. *)
Theorem C10_size_message_reports_raw_length
    (env : Env) (o : Options) (msgs : list string) :
  (Validate_cookieSecret env o msgs = msgs
   \/ Validate_cookieSecret env o msgs
      = msgs ++ [cookie_secret_message (String.length (CookieSecret o)) ""])
  /\ (Validate_cookieSecret env o msgs <> msgs ->
      len (secretBytes env (CookieSecret o)) = String.length (CookieSecret o)
      /\ decoded env o = false)
  /\ (valid_cookie_secret_size env o = false -> decoded env o = false).
Proof.
  pose proof (Validate_cookieSecret_eq env o msgs) as E.
  repeat apply conj.
  - rewrite E.
    destruct (secret_check_enabled o && negb (valid_cookie_secret_size env o));
      [now right | now left].
  - intros N. rewrite E in N.
    destruct (secret_check_enabled o); simpl in N; [|contradiction].
    destruct (valid_cookie_secret_size env o) eqn:V; simpl in N;
      [contradiction|].
    split; [|now apply decoded_false_when_invalid].
    rewrite valid_cookie_secret_size_eq in V.
    now rewrite (secretBytes_raw_when_invalid _ _ V),
                length_list_byte_of_string.
  - apply decoded_false_when_invalid.
Qed.

(** ** Refresh against expiry *)

(** C8: exactly one message, carrying both durations, is appended if and
    only if the refresh interval is greater than or equal to the expiry
    interval; equal values fail and a strictly smaller refresh passes. *)
Theorem C8_refresh_less_than_expire
    (env : Env) (o : Options) (msgs : list string) :
  ((CookieRefresh o >= CookieExpire o)%Z
   <-> Validate_cookieRefresh env o msgs
       = msgs ++ [("cookie_refresh (" ++ Duration_String env (CookieRefresh o)
                   ++ ") must be less than cookie_expire ("
                   ++ Duration_String env (CookieExpire o) ++ ")")%string])
  /\ ((CookieRefresh o < CookieExpire o)%Z
      <-> Validate_cookieRefresh env o msgs = msgs)
  /\ (CookieRefresh o = CookieExpire o ->
      Validate_cookieRefresh env o msgs <> msgs).
Proof.
  unfold Validate_cookieRefresh.
  change (cookie_refresh_message env o)
    with ("cookie_refresh (" ++ Duration_String env (CookieRefresh o)
          ++ ") must be less than cookie_expire ("
          ++ Duration_String env (CookieExpire o) ++ ")")%string.
  destruct (CookieRefresh o >=? CookieExpire o)%Z eqn:C.
  - apply Z.geb_le in C. repeat apply conj.
    + reflexivity.
    + intros _. lia.
    + intros H. exfalso. lia.
    + intros H. now apply app_one_neq in H.
    + intros _. apply app_one_neq.
  - assert (CookieRefresh o < CookieExpire o)%Z as L.
    { destruct (Z.lt_ge_cases (CookieRefresh o) (CookieExpire o)) as [H|H];
        [exact H|]. apply Z.geb_le in H. congruence. }
    repeat apply conj.
    + intros H. exfalso. lia.
    + intros H. symmetry in H. now apply app_one_neq in H.
    + intros _. reflexivity.
    + intros _. exact L.
    + intros H. exfalso. lia.
Qed.

(** ** The same-site attribute *)

Lemma same_site_allowed (v : string) :
  String.eqb v "" || String.eqb v "none" || String.eqb v "lax"
  || String.eqb v "strict" = true
  <-> In v [""; "none"; "lax"; "strict"].
Proof.
  simpl. rewrite !orb_true_iff, !String.eqb_eq. intuition congruence.
Qed.

(** C9: the same-site check appends a message, which contains the offending
    value, if and only if the setting is none of "", "none", "lax" and
    "strict". *)
Theorem C9_same_site_values (o : Options) (msgs : list string) :
  (In (CookieSameSite o) [""; "none"; "lax"; "strict"]
   <-> Validate_cookieSameSite o msgs = msgs)
  /\ (~ In (CookieSameSite o) [""; "none"; "lax"; "strict"]
      <-> Validate_cookieSameSite o msgs
          = msgs ++ [("cookie_samesite (" ++ CookieSameSite o
                      ++ ") must be one of ['', 'lax', 'strict', 'none']")%string]).
Proof.
  pose proof (same_site_allowed (CookieSameSite o)) as A.
  unfold Validate_cookieSameSite.
  change (cookie_samesite_message o)
    with ("cookie_samesite (" ++ CookieSameSite o
          ++ ") must be one of ['', 'lax', 'strict', 'none']")%string.
  destruct (String.eqb (CookieSameSite o) ""
            || String.eqb (CookieSameSite o) "none"
            || String.eqb (CookieSameSite o) "lax"
            || String.eqb (CookieSameSite o) "strict").
  - assert (In (CookieSameSite o) [""; "none"; "lax"; "strict"]) as I
      by now apply A.
    repeat apply conj.
    + reflexivity.
    + intros _. exact I.
    + intros N. contradiction.
    + intros H. symmetry in H. now apply app_one_neq in H.
  - assert (~ In (CookieSameSite o) [""; "none"; "lax"; "strict"]) as N.
    { intros I. apply A in I. discriminate. }
    repeat apply conj.
    + intros I. contradiction.
    + intros H. now apply app_one_neq in H.
    + reflexivity.
    + intros _. exact N.
Qed.

(** ** Accumulation: every check appends its findings *)

Lemma parseURL_acc (env : Env) (to_parse urltype : string)
    (msgs : list string) :
  parseURL env to_parse urltype msgs
  = (fst (parseURL env to_parse urltype []),
     msgs ++ url_findings env to_parse urltype).
Proof.
  unfold url_findings, parseURL.
  destruct (url_Parse env to_parse); simpl; [now rewrite app_nil_r|reflexivity].
Qed.

Lemma set_proxyURLs_same (o : Options) : set_proxyURLs o (proxyURLs o) = o.
Proof. now destruct o. Qed.

Lemma set_CompiledRegex_same (o : Options) :
  set_CompiledRegex o (CompiledRegex o) = o.
Proof. now destruct o. Qed.

Lemma upstream_fold (env : Env) (targets : list string) :
  forall (o : Options) (msgs : list string),
    fold_left (Validate_upstream env) targets (o, msgs)
    = (set_proxyURLs o (proxyURLs o ++ upstream_accepted env targets),
       msgs ++ upstream_findings env targets).
Proof.
  induction targets as [|u rest IH]; intros o msgs; simpl.
  - now rewrite !app_nil_r, set_proxyURLs_same.
  - unfold Validate_upstream at 1. fold (Validate_upstream env).
    destruct (url_Parse env u) as [parsed|err].
    + rewrite IH. fold (default_path parsed). simpl.
      now rewrite <- !app_assoc.
    + rewrite IH. simpl. now rewrite <- !app_assoc.
Qed.

Lemma Validate_upstreams_eq (env : Env) (o : Options) (msgs : list string) :
  Validate_upstreams env o msgs
  = (set_proxyURLs o (proxyURLs o ++ upstream_accepted env (Upstreams o)),
     msgs ++ upstream_findings env (Upstreams o)).
Proof. apply upstream_fold. Qed.

Lemma regex_fold (env : Env) (patterns : list string) :
  forall (o : Options) (msgs : list string),
    fold_left (Validate_regex env) patterns (o, msgs)
    = (set_CompiledRegex o (CompiledRegex o ++ regex_accepted env patterns),
       msgs ++ regex_findings env patterns).
Proof.
  induction patterns as [|u rest IH]; intros o msgs; simpl.
  - now rewrite !app_nil_r, set_CompiledRegex_same.
  - unfold Validate_regex at 1. fold (Validate_regex env).
    destruct (regexp_Compile env u) as [compiled|err].
    + rewrite IH. simpl. now rewrite <- !app_assoc.
    + rewrite IH. simpl. now rewrite <- !app_assoc.
Qed.

Lemma Validate_skipAuthRegex_eq (env : Env) (o : Options)
    (msgs : list string) :
  Validate_skipAuthRegex env o msgs
  = (set_CompiledRegex o
       (CompiledRegex o ++ regex_accepted env (SkipAuthRegex o)),
     msgs ++ regex_findings env (SkipAuthRegex o)).
Proof. apply regex_fold. Qed.

Lemma upstream_split_length (env : Env) (targets : list string) :
  len (upstream_accepted env targets) + len (upstream_findings env targets)
  = len targets.
Proof.
  induction targets as [|u rest IH]; simpl; [reflexivity|].
  unfold len in *. rewrite !length_app.
  destruct (url_Parse env u); simpl; lia.
Qed.

(** ** Upstream targets *)

(** C7, as the code has it: every upstream entry the URL parser rejects is
    reported with a message of its own and left out, every entry it accepts
    is appended in input order with an empty path replaced by "/"; for the
    list ["http://a:8080", "not a url"] both entries are accepted (the
    second is a relative path for the parser), no message is produced and
    two entries are stored, while the list ["http://a:8080", ":not a url"]
    yields one stored entry with path "/" and exactly one message. *)
Theorem C7_upstreams (env : Env) (o : Options) (msgs : list string) :
  Validate_upstreams env o msgs
  = (set_proxyURLs o (proxyURLs o ++ upstream_accepted env (Upstreams o)),
     msgs ++ upstream_findings env (Upstreams o))
  /\ len (upstream_accepted env (Upstreams o))
     + len (upstream_findings env (Upstreams o)) = len (Upstreams o)
  /\ (forall (u : string) (rest : list string),
        upstream_accepted env (u :: rest)
        = match url_Parse env u with
          | Ok parsed =>
              (if is_empty (url.Path parsed)
               then url.with_Path parsed "/" else parsed)
              :: upstream_accepted env rest
          | Err _ => upstream_accepted env rest
          end
        /\ upstream_findings env (u :: rest)
           = match url_Parse env u with
             | Ok _ => upstream_findings env rest
             | Err err =>
                 ("error parsing upstream: " ++ err)%string
                 :: upstream_findings env rest
             end)
  /\ (let both := with_Upstreams ["http://a:8080"; "not a url"] testOptions in
      snd (Validate_upstreams sampleEnv both []) = []
      /\ map url.Path (proxyURLs (fst (Validate_upstreams sampleEnv both [])))
         = ["/"; "not a url"])
  /\ (let one := with_Upstreams ["http://a:8080"; ":not a url"] testOptions in
      len (snd (Validate_upstreams sampleEnv one [])) = 1
      /\ map url.Path (proxyURLs (fst (Validate_upstreams sampleEnv one [])))
         = ["/"]).
Proof.
  repeat apply conj.
  - apply Validate_upstreams_eq.
  - apply upstream_split_length.
  - intros u rest. unfold upstream_accepted, upstream_findings, default_path.
    simpl. destruct (url_Parse env u); split; reflexivity.
  - reflexivity.
  - reflexivity.
  - reflexivity.
  - reflexivity.
Qed.

(** C7 as stated fails: for ["http://a:8080", "not a url"] the second target
    is parsed (as the relative path "not a url"), so no parse-error message
    is produced and two entries, not one, are accepted. *)
Lemma C7_counterexample_not_a_url :
  let o := with_Upstreams ["http://a:8080"; "not a url"] testOptions in
  url.Parse "not a url" = Ok (url.with_Path url.empty "not a url")
  /\ snd (Validate_upstreams sampleEnv o []) = []
  /\ len (proxyURLs (fst (Validate_upstreams sampleEnv o []))) = 2.
Proof. repeat split. Qed.

(** ** Provider Configurator *)

Lemma parseProviderInfo_data_acc (env : Env) (o : Options)
    (msgs : list string) :
  parseProviderInfo_data env o msgs
  = (fst (parseProviderInfo_data env o []), msgs ++ endpoint_findings env o).
Proof.
  unfold parseProviderInfo_data, endpoint_findings, url_findings, parseURL.
  destruct (url_Parse env (LoginURL o));
    destruct (url_Parse env (RedeemURL o));
    destruct (url_Parse env (ProfileURL o));
    destruct (url_Parse env (ValidateURL o));
    destruct (url_Parse env (ProtectedResource o));
    simpl; repeat rewrite app_nil_r; repeat rewrite <- app_assoc;
    reflexivity.
Qed.

Lemma parseProviderInfo_Google_msgs (env : Env) (w : World) (o : Options)
    (p : providers.Provider) (msgs : list string) :
  snd (parseProviderInfo_Google env w o p msgs)
  = msgs ++ google_findings env o.
Proof.
  unfold parseProviderInfo_Google, google_findings, google_missing,
    google_credentials_findings, google_restricted, when.
  destruct ((0 <? len (GoogleGroups o))%nat
            || negb (is_empty (GoogleAdminEmail o))
            || negb (is_empty (GoogleServiceAccountJSON o)));
    destruct (len (GoogleGroups o) <? 1)%nat;
    destruct (is_empty (GoogleAdminEmail o));
    destruct (is_empty (GoogleServiceAccountJSON o));
    try destruct (os_Open env (GoogleServiceAccountJSON o));
    simpl; repeat rewrite app_nil_r; repeat rewrite <- app_assoc;
    reflexivity.
Qed.

Lemma parseProviderInfo_Google_no_credentials (env : Env) (w : World)
    (o : Options) (p : providers.Provider) (msgs : list string) :
  is_empty (GoogleServiceAccountJSON o) = true ->
  fst (parseProviderInfo_Google env w o p msgs) = (w, p).
Proof.
  intros E. unfold parseProviderInfo_Google. rewrite E. reflexivity.
Qed.

Lemma parseProviderInfo_Google_credentials (env : Env) (w : World)
    (o : Options) (p : providers.Provider) (msgs : list string) :
  is_empty (GoogleServiceAccountJSON o) = false ->
  opened (fst (fst (parseProviderInfo_Google env w o p msgs)))
  = opened w ++ [GoogleServiceAccountJSON o].
Proof.
  intros E. unfold parseProviderInfo_Google. rewrite E. simpl.
  destruct (os_Open env (GoogleServiceAccountJSON o)); reflexivity.
Qed.

Lemma parseProviderInfo_OIDC_msgs (env : Env) (o : Options)
    (p : providers.Provider) (msgs : list string) :
  snd (parseProviderInfo_OIDC env o p msgs) = msgs ++ oidc_findings env o.
Proof.
  unfold parseProviderInfo_OIDC, oidc_findings, oidc_issuer_missing,
    oidc_skipped_missing, oidc_discovery_findings, when.
  destruct (is_empty (OIDCIssuerURL o));
    destruct (SkipOIDCDiscovery o);
    destruct (is_empty (LoginURL o));
    destruct (is_empty (RedeemURL o));
    destruct (is_empty (OIDCJwksURL o));
    try destruct (oidc_SetIssuerURL env (OIDCIssuerURL o));
    simpl; repeat rewrite app_nil_r; repeat rewrite <- app_assoc;
    reflexivity.
Qed.

Lemma parseProviderInfo_OIDC_verifier (env : Env) (o : Options)
    (p : providers.Provider) (msgs : list string) :
  SkipOIDCDiscovery o = true ->
  fst (parseProviderInfo_OIDC env o p msgs)
  = if negb (is_empty (OIDCIssuerURL o)) && negb (is_empty (OIDCJwksURL o))
    then providers.invoke p
           (providers.SetVerifier (OIDCIssuerURL o) (OIDCJwksURL o))
    else p.
Proof.
  intros S. unfold parseProviderInfo_OIDC. rewrite S.
  destruct (negb (is_empty (OIDCIssuerURL o))
            && negb (is_empty (OIDCJwksURL o))); reflexivity.
Qed.

(** [parseProviderInfo] stores a provider and appends its findings. *)
Lemma parseProviderInfo_eq (env : Env) (w : World) (o : Options)
    (msgs : list string) :
  exists (w' : World) (pr : providers.Provider),
    parseProviderInfo env w o msgs
    = (w', set_provider o (Some pr), msgs ++ provider_findings env o).
Proof.
  unfold parseProviderInfo, provider_findings, selected_provider.
  rewrite parseProviderInfo_data_acc. rewrite app_assoc.
  set (d := fst (parseProviderInfo_data env o [])).
  set (m := msgs ++ endpoint_findings env o).
  destruct (providers.variant (providers_New env (Provider o) d)) eqn:V;
    try (rewrite app_nil_r; eexists; eexists; reflexivity).
  - pose proof (parseProviderInfo_Google_msgs env w o
                  (providers_New env (Provider o) d) m) as G.
    destruct (parseProviderInfo_Google env w o
                (providers_New env (Provider o) d) m) as [[w' pr] ms].
    simpl in G. subst ms. now exists w', pr.
  - pose proof (parseProviderInfo_OIDC_msgs env o
                  (providers_New env (Provider o) d) m) as G.
    destruct (parseProviderInfo_OIDC env o
                (providers_New env (Provider o) d) m) as [pr ms].
    simpl in G. subst ms. now exists w, pr.
Qed.

(** C6: for the Google variant, as soon as one of the group list, the admin
    e-mail and the credentials path is set, each of the three that is
    missing is reported with a message of its own; with only the group list
    set, the provider check contributes exactly the two messages for the
    admin e-mail and the credentials path, and opens no file. *)
Theorem C6_google_group_restriction
    (env : Env) (w : World) (o : Options) (msgs : list string) :
  providers.variant (selected_provider env o) = providers.GoogleProvider ->
  (google_restricted o = true ->
   snd (parseProviderInfo env w o msgs)
   = msgs ++ endpoint_findings env o
     ++ (when (len (GoogleGroups o) <? 1)%nat "missing setting: google-group"
         ++ when (is_empty (GoogleAdminEmail o))
                 "missing setting: google-admin-email"
         ++ when (is_empty (GoogleServiceAccountJSON o))
                 "missing setting: google-service-account-json")
     ++ google_credentials_findings env o)
  /\ (GoogleGroups o <> [] ->
      is_empty (GoogleAdminEmail o) = true ->
      is_empty (GoogleServiceAccountJSON o) = true ->
      parseProviderInfo env w o msgs
      = (w, set_provider o (Some (selected_provider env o)),
         msgs ++ endpoint_findings env o
         ++ ["missing setting: google-admin-email";
             "missing setting: google-service-account-json"]))
  /\ (endpoint_findings env o = [] ->
      GoogleGroups o <> [] ->
      is_empty (GoogleAdminEmail o) = true ->
      is_empty (GoogleServiceAccountJSON o) = true ->
      snd (parseProviderInfo env w o msgs)
      = msgs ++ ["missing setting: google-admin-email";
                 "missing setting: google-service-account-json"])
  /\ (is_empty (GoogleServiceAccountJSON o) = true ->
      opened (fst (fst (parseProviderInfo env w o msgs))) = opened w).
Proof.
  intros V.
  assert (P : parseProviderInfo env w o msgs
              = (let '(w', pr, ms) :=
                   parseProviderInfo_Google env w o (selected_provider env o)
                     (msgs ++ endpoint_findings env o) in
                 (w', set_provider o (Some pr), ms))).
  { unfold parseProviderInfo. rewrite parseProviderInfo_data_acc.
    fold (selected_provider env o). now rewrite V. }
  pose proof (parseProviderInfo_Google_msgs env w o (selected_provider env o)
                (msgs ++ endpoint_findings env o)) as M.
  repeat apply conj.
  - intros R. rewrite P.
    destruct (parseProviderInfo_Google env w o (selected_provider env o)
                (msgs ++ endpoint_findings env o)) as [[w' pr] ms].
    simpl in *. subst ms. unfold google_findings. rewrite R.
    fold (google_missing o). now rewrite <- !app_assoc.
  - intros G A J. rewrite P.
    pose proof (parseProviderInfo_Google_no_credentials env w o
                  (selected_provider env o)
                  (msgs ++ endpoint_findings env o) J) as F.
    destruct (parseProviderInfo_Google env w o (selected_provider env o)
                (msgs ++ endpoint_findings env o)) as [[w' pr] ms].
    simpl in *. injection F as -> ->. subst ms.
    unfold google_findings, google_restricted, google_missing,
      google_credentials_findings, when.
    rewrite A, J. destruct (GoogleGroups o) as [|g gs]; [contradiction|].
    simpl. now rewrite <- !app_assoc.
  - intros N G A J.
    pose proof (parseProviderInfo_Google_msgs env w o
                  (selected_provider env o)
                  (msgs ++ endpoint_findings env o)) as M'.
    rewrite P.
    destruct (parseProviderInfo_Google env w o (selected_provider env o)
                (msgs ++ endpoint_findings env o)) as [[w' pr] ms].
    simpl in *. subst ms. rewrite N, app_nil_r.
    unfold google_findings, google_restricted, google_missing,
      google_credentials_findings, when.
    rewrite A, J. destruct (GoogleGroups o) as [|g gs]; [contradiction|].
    reflexivity.
  - intros J. rewrite P.
    pose proof (parseProviderInfo_Google_no_credentials env w o
                  (selected_provider env o)
                  (msgs ++ endpoint_findings env o) J) as F.
    destruct (parseProviderInfo_Google env w o (selected_provider env o)
                (msgs ++ endpoint_findings env o)) as [[w' pr] ms].
    simpl in *. now injection F as -> ->.
Qed.

(** The theorem for the Google provider with only a group configured. *)
Lemma C6_google_group_restriction_witness :
  let o := with_GoogleGroups ["admins@example.com"] testOptions in
  providers.variant (selected_provider sampleEnv o) = providers.GoogleProvider
  /\ snd (parseProviderInfo sampleEnv world0 o [])
     = ["missing setting: google-admin-email";
        "missing setting: google-service-account-json"]
  /\ opened (fst (fst (parseProviderInfo sampleEnv world0 o []))) = [].
Proof.
  intros o. split; [reflexivity|].
  destruct (C6_google_group_restriction sampleEnv world0 o [] eq_refl)
    as (_ & H & _ & K).
  split.
  - rewrite (H ltac:(discriminate) eq_refl eq_refl). reflexivity.
  - exact (K eq_refl).
Defined.

(** C2, as the code has it: for the OIDC variant the missing-issuer message
    is produced whenever the issuer URL is empty, whether or not discovery
    is skipped; when discovery is skipped, an empty login URL, redeem URL
    and JWKS URL are each reported individually, so that with none of the
    three supplied the check contributes those three messages, preceded by
    the missing-issuer message when the issuer URL is empty as well; and
    when discovery is skipped with issuer and JWKS URLs both present, a
    verifier is attached to the provider. *)
Theorem C2_oidc_requirements
    (env : Env) (w : World) (o : Options) (msgs : list string) :
  providers.variant (selected_provider env o) = providers.OIDCProvider ->
  snd (parseProviderInfo env w o msgs)
  = msgs ++ endpoint_findings env o
    ++ when (is_empty (OIDCIssuerURL o)) "missing-setting: oidc-issuer-url"
    ++ (if SkipOIDCDiscovery o
        then when (is_empty (LoginURL o)) "missing setting: login-url"
             ++ when (is_empty (RedeemURL o)) "missing setting: redeem-url"
             ++ when (is_empty (OIDCJwksURL o))
                     "missing setting: oidc-jwks-url"
        else oidc_discovery_findings env o)
  /\ (SkipOIDCDiscovery o = true ->
      is_empty (LoginURL o) = true ->
      is_empty (RedeemURL o) = true ->
      is_empty (OIDCJwksURL o) = true ->
      snd (parseProviderInfo env w o msgs)
      = msgs ++ endpoint_findings env o
        ++ when (is_empty (OIDCIssuerURL o)) "missing-setting: oidc-issuer-url"
        ++ ["missing setting: login-url"; "missing setting: redeem-url";
            "missing setting: oidc-jwks-url"])
  /\ (SkipOIDCDiscovery o = true ->
      is_empty (OIDCIssuerURL o) = false ->
      is_empty (OIDCJwksURL o) = false ->
      provider (snd (fst (parseProviderInfo env w o msgs)))
      = Some (providers.invoke (selected_provider env o)
                (providers.SetVerifier (OIDCIssuerURL o) (OIDCJwksURL o)))).
Proof.
  intros V.
  assert (P : parseProviderInfo env w o msgs
              = (let '(pr, ms) :=
                   parseProviderInfo_OIDC env o (selected_provider env o)
                     (msgs ++ endpoint_findings env o) in
                 (w, set_provider o (Some pr), ms))).
  { unfold parseProviderInfo. rewrite parseProviderInfo_data_acc.
    fold (selected_provider env o). now rewrite V. }
  pose proof (parseProviderInfo_OIDC_msgs env o (selected_provider env o)
                (msgs ++ endpoint_findings env o)) as M.
  assert (S1 : snd (parseProviderInfo env w o msgs)
               = msgs ++ endpoint_findings env o ++ oidc_findings env o).
  { rewrite P.
    destruct (parseProviderInfo_OIDC env o (selected_provider env o)
                (msgs ++ endpoint_findings env o)) as [pr ms].
    simpl in *. subst ms. now rewrite <- app_assoc. }
  repeat apply conj.
  - exact S1.
  - intros S L R J. rewrite S1. unfold oidc_findings, oidc_issuer_missing,
      oidc_skipped_missing, when. now rewrite S, L, R, J.
  - intros S I J. rewrite P.
    pose proof (parseProviderInfo_OIDC_verifier env o (selected_provider env o)
                  (msgs ++ endpoint_findings env o) S) as F.
    destruct (parseProviderInfo_OIDC env o (selected_provider env o)
                (msgs ++ endpoint_findings env o)) as [pr ms].
    simpl in *. subst pr. now rewrite I, J.
Qed.

(** The theorem for an OIDC provider with discovery skipped, an issuer and a
    JWKS URL. *)
Lemma C2_oidc_requirements_witness :
  let o := with_OIDCJwksURL "https://issuer.example.com/keys"
             (with_OIDCIssuerURL "https://issuer.example.com"
                (with_SkipOIDCDiscovery true
                   (with_Provider "oidc" testOptions))) in
  providers.variant (selected_provider sampleEnv o) = providers.OIDCProvider
  /\ snd (parseProviderInfo sampleEnv world0 o [])
     = ["missing setting: login-url"; "missing setting: redeem-url"]
  /\ option_map providers.calls
       (provider (snd (fst (parseProviderInfo sampleEnv world0 o []))))
     = Some [providers.SetVerifier "https://issuer.example.com"
                                   "https://issuer.example.com/keys"].
Proof.
  intros o. split; [reflexivity|].
  destruct (C2_oidc_requirements sampleEnv world0 o [] eq_refl)
    as (H & _ & K).
  split.
  - rewrite H. reflexivity.
  - rewrite (K eq_refl eq_refl eq_refl). reflexivity.
Defined.

(** C2 as stated fails: with the OIDC variant, discovery skipped and neither
    issuer, login, redeem nor JWKS URL supplied, the missing-issuer message
    is produced although discovery is skipped, and the provider check
    contributes four messages, not three. *)
Lemma C2_counterexample_issuer_reported_when_skipped :
  let o := with_SkipOIDCDiscovery true (with_Provider "oidc" testOptions) in
  providers.variant (selected_provider sampleEnv o) = providers.OIDCProvider
  /\ SkipOIDCDiscovery o = true
  /\ snd (parseProviderInfo sampleEnv world0 o [])
     = ["missing-setting: oidc-issuer-url"; "missing setting: login-url";
        "missing setting: redeem-url"; "missing setting: oidc-jwks-url"]
  /\ len (snd (parseProviderInfo sampleEnv world0 o [])) <> 3.
Proof.
  intros o. repeat split. vm_compute. discriminate.
Qed.

(** ** The aggregated report *)

Lemma Validate_insecureTLS_acc (env : Env) (w : World) (o : Options)
    (msgs : list string) :
  Validate_insecureTLS env w o msgs
  = (fst (Validate_insecureTLS env w o []),
     msgs ++ snd (Validate_insecureTLS env world0 o [])).
Proof.
  unfold Validate_insecureTLS.
  destruct (SSLInsecureSkipVerify o); [|simpl; now rewrite app_nil_r].
  destruct (defaultTransportIsHTTP env); simpl; [now rewrite app_nil_r|].
  reflexivity.
Qed.

Lemma Validate_required_acc (o : Options) (msgs : list string) :
  Validate_required o msgs = msgs ++ Validate_required o [].
Proof.
  unfold Validate_required.
  destruct (is_empty (CookieSecret o));
    destruct (is_empty (ClientID o));
    destruct (is_empty (ClientSecret o));
    destruct (is_empty (AuthenticatedEmailsFile o)
              && (len (EmailDomains o) =? 0)%nat
              && is_empty (HtpasswdFile o));
    simpl; repeat rewrite app_nil_r; repeat rewrite <- app_assoc;
    reflexivity.
Qed.

Lemma Validate_cookieSecret_acc (env : Env) (o : Options)
    (msgs : list string) :
  Validate_cookieSecret env o msgs = msgs ++ Validate_cookieSecret env o [].
Proof.
  rewrite !Validate_cookieSecret_eq.
  destruct (secret_check_enabled o && negb (valid_cookie_secret_size env o));
    simpl; [reflexivity | now rewrite app_nil_r].
Qed.

Lemma Validate_cookieRefresh_acc (env : Env) (o : Options)
    (msgs : list string) :
  Validate_cookieRefresh env o msgs = msgs ++ Validate_cookieRefresh env o [].
Proof.
  unfold Validate_cookieRefresh.
  destruct (CookieRefresh o >=? CookieExpire o)%Z;
    simpl; [reflexivity | now rewrite app_nil_r].
Qed.

Lemma Validate_cookieSameSite_acc (o : Options) (msgs : list string) :
  Validate_cookieSameSite o msgs = msgs ++ Validate_cookieSameSite o [].
Proof.
  unfold Validate_cookieSameSite.
  destruct (String.eqb (CookieSameSite o) ""
            || String.eqb (CookieSameSite o) "none"
            || String.eqb (CookieSameSite o) "lax"
            || String.eqb (CookieSameSite o) "strict");
    simpl; [now rewrite app_nil_r | reflexivity].
Qed.

Lemma parseSignatureKey_acc (env : Env) (o : Options) (msgs : list string) :
  parseSignatureKey env o msgs
  = (fst (parseSignatureKey env o msgs), msgs ++ signature_findings env o).
Proof.
  unfold parseSignatureKey, signature_findings.
  destruct (is_empty (SignatureKey o)); [simpl; now rewrite app_nil_r|].
  destruct (strings.Split (SignatureKey o) ":") as [|a [|b [|c r]]];
    try reflexivity.
  destruct (DigestNameToCryptoHash env a); simpl;
    [now rewrite app_nil_r | reflexivity].
Qed.

Lemma parseSignatureKey_settings (env : Env) (o : Options)
    (msgs : list string) :
  settings (fst (parseSignatureKey env o msgs)) = settings o.
Proof.
  unfold parseSignatureKey.
  destruct (is_empty (SignatureKey o)); [reflexivity|].
  destruct (strings.Split (SignatureKey o) ":") as [|a [|b [|c r]]];
    try reflexivity.
  destruct (DigestNameToCryptoHash env a); reflexivity.
Qed.

Lemma validateCookieName_acc (env : Env) (o : Options) (msgs : list string) :
  validateCookieName env o msgs = msgs ++ validateCookieName env o [].
Proof.
  unfold validateCookieName.
  destruct (is_empty (cookie_String env (CookieName o)));
    simpl; [reflexivity | now rewrite app_nil_r].
Qed.

Lemma Validate_realClientIPHeader_acc (env : Env) (o : Options)
    (msgs : list string) :
  Validate_realClientIPHeader env o msgs
  = msgs ++ Validate_realClientIPHeader env o [].
Proof.
  unfold Validate_realClientIPHeader.
  destruct (negb (is_empty (RealClientIPHeader o)));
    [|simpl; now rewrite app_nil_r].
  destruct (negb (fold_left
                    (fun valid s =>
                       if String.eqb (RealClientIPHeader o) s then true
                       else valid) realClientIPHeaders false));
    simpl; [reflexivity | now rewrite app_nil_r].
Qed.

(** The findings depend on the settings only, not on the internal values. *)
Lemma Validate_findings_settings (env : Env) (o : Options) :
  Validate_findings env (settings o) = Validate_findings env o.
Proof. reflexivity. Qed.

Lemma Validate_findings_same (env : Env) (o o' : Options) :
  settings o' = settings o ->
  Validate_findings env o' = Validate_findings env o.
Proof.
  intros E. rewrite <- (Validate_findings_settings env o'), E.
  apply Validate_findings_settings.
Qed.

Lemma validateCookieName_same (env : Env) (o o' : Options) :
  settings o' = settings o ->
  validateCookieName env o' [] = validateCookieName env o [].
Proof.
  intros E.
  change (validateCookieName env o' [])
    with (validateCookieName env (settings o') []).
  now rewrite E.
Qed.

Lemma Validate_realClientIPHeader_same (env : Env) (o o' : Options) :
  settings o' = settings o ->
  Validate_realClientIPHeader env o' [] = Validate_realClientIPHeader env o [].
Proof.
  intros E.
  change (Validate_realClientIPHeader env o' [])
    with (Validate_realClientIPHeader env (settings o') []).
  now rewrite E.
Qed.

Lemma Validate_collect_msgs (env : Env) (w : World) (o : Options) :
  snd (Validate_collect env w o) = concat (Validate_findings env o).
Proof.
  unfold Validate_collect.
  rewrite Validate_insecureTLS_acc.
  rewrite Validate_required_acc, parseURL_acc.
  set (o1 := set_redirectURL o _).
  rewrite Validate_upstreams_eq.
  set (o2 := set_proxyURLs o1 _).
  rewrite Validate_skipAuthRegex_eq.
  set (o3 := set_CompiledRegex o2 _).
  match goal with
  | |- context [parseProviderInfo env ?w0 o3 ?m] =>
      destruct (parseProviderInfo_eq env w0 o3 m) as (w' & pr & P);
      rewrite P; clear P
  end.
  set (o4 := set_provider o3 (Some pr)).
  rewrite Validate_cookieSecret_acc, Validate_cookieRefresh_acc,
    Validate_cookieSameSite_acc, parseSignatureKey_acc.
  rewrite validateCookieName_acc, Validate_realClientIPHeader_acc.
  set (o5 := fst (parseSignatureKey env o4 _)).
  assert (S5 : settings o5 = settings o).
  { unfold o5. now rewrite parseSignatureKey_settings. }
  rewrite (validateCookieName_same env o o5 S5),
    (Validate_realClientIPHeader_same env o o5 S5).
  cbn [snd]. unfold Validate_findings. cbn [concat].
  change (Upstreams o1) with (Upstreams o).
  change (SkipAuthRegex o2) with (SkipAuthRegex o).
  change (provider_findings env o3) with (provider_findings env o).
  change (Validate_cookieSecret env o4 [])
    with (Validate_cookieSecret env o []).
  change (Validate_cookieRefresh env o4 [])
    with (Validate_cookieRefresh env o []).
  change (Validate_cookieSameSite o4 []) with (Validate_cookieSameSite o []).
  change (signature_findings env o4) with (signature_findings env o).
  rewrite <- !app_assoc. now rewrite app_nil_r.
Qed.

Lemma Validate_error_none (msgs : list string) :
  Validate_error msgs = None <-> msgs = [].
Proof.
  unfold Validate_error. destruct msgs; simpl; split; congruence.
Qed.

(** C5: [Validate] returns no error exactly when no message was collected;
    otherwise it returns one error whose text is the heading followed by all
    collected messages, joined with a newline and two spaces, in the order
    of the checks; the collected messages are the findings of the twelve
    checks one after the other, each determined by the settings alone, so no
    finding of a check is lost because an earlier check failed. *)
Theorem C5_report_aggregation (env : Env) (w : World) (o : Options) :
  snd (Validate env w o) = Validate_error (snd (Validate_collect env w o))
  /\ (snd (Validate env w o) = None <-> snd (Validate_collect env w o) = [])
  /\ (snd (Validate_collect env w o) <> [] ->
      snd (Validate env w o)
      = Some ("Invalid configuration:" ++ nl ++ "  "
              ++ strings.Join (snd (Validate_collect env w o))
                              (nl ++ "  "))%string)
  /\ snd (Validate_collect env w o) = concat (Validate_findings env o)
  /\ (forall (check : list string) (m : string),
        In check (Validate_findings env o) -> In m check ->
        In m (snd (Validate_collect env w o)))
  /\ (forall o' : Options,
        settings o' = settings o ->
        Validate_findings env o' = Validate_findings env o).
Proof.
  assert (V : snd (Validate env w o)
              = Validate_error (snd (Validate_collect env w o))).
  { unfold Validate.
    destruct (Validate_collect env w o) as [[w' o'] msgs]. reflexivity. }
  repeat apply conj.
  - exact V.
  - rewrite V. apply Validate_error_none.
  - rewrite V. apply Validate_error_none.
  - intros N. rewrite V. unfold Validate_error.
    destruct (snd (Validate_collect env w o)); [contradiction | reflexivity].
  - apply Validate_collect_msgs.
  - intros check m I J. rewrite Validate_collect_msgs.
    apply in_concat. now exists check.
  - intros o'. apply Validate_findings_same.
Qed.

(** ** Evaluations on concrete settings *)

Example Split_three_components :
  strings.Split "sha1:a:b" ":" = ["sha1"; "a"; "b"].
Proof. reflexivity. Qed.

Example Split_without_colon :
  strings.Split "invalid spec" ":" = ["invalid spec"].
Proof. reflexivity. Qed.

Example Parse_host_and_port :
  url.Parse "http://a:8080"
  = Ok (url.mkURL "http" "" None "a:8080" "" false "" "" false).
Proof. reflexivity. Qed.

Example Parse_missing_scheme :
  url.Parse ":not a url"
  = Err (url.mkError "parse" ":not a url" url.MissingProtocolScheme).
Proof. reflexivity. Qed.

Example Parse_space_in_host :
  url.Parse "http://a b"
  = Err (url.mkError "parse" "http://a b" (url.InvalidHostError " ")).
Proof. reflexivity. Qed.

Example Parse_colon_in_first_segment :
  url.Parse "1a:b/c"
  = Err (url.mkError "parse" "1a:b/c" url.FirstPathSegmentColon).
Proof. reflexivity. Qed.

Example Parse_bad_escape :
  url.Parse "/a%zz"
  = Err (url.mkError "parse" "/a%zz" (url.EscapeError "%zz")).
Proof. reflexivity. Qed.

Example upstream_error_text :
  upstream_findings sampleEnv [":not a url"]
  = [("error parsing upstream: parse " ++ dquote ++ ":not a url" ++ dquote
      ++ ": missing protocol scheme")%string].
Proof. reflexivity. Qed.

Example secretBytes_unpadded_base64 :
  secretBytes sampleEnv "MDEyMzQ1Njc4OWFiY2RlZg"
  = list_byte_of_string "0123456789abcdef".
Proof. reflexivity. Qed.

Example secretBytes_padded_base64 :
  secretBytes sampleEnv "MDEyMzQ1Njc4OWFiY2RlZg=="
  = list_byte_of_string "0123456789abcdef".
Proof. reflexivity. Qed.

Example secretBytes_raw_key :
  secretBytes sampleEnv "0123456789abcdef"
  = list_byte_of_string "0123456789abcdef".
Proof. reflexivity. Qed.

Example secretBytes_short_base64 :
  base64.URLEncoding_DecodeString (addPadding "Zm9vYmFy")
  = Some (list_byte_of_string "foobar")
  /\ secretBytes sampleEnv "Zm9vYmFy" = list_byte_of_string "Zm9vYmFy".
Proof. split; reflexivity. Qed.

Example cookie_secret_too_short :
  Validate_cookieSecret sampleEnv (with_PassAccessToken true testOptions) []
  = ["cookie_secret must be 16, 24, or 32 bytes to create an AES cipher when pass_access_token == true or cookie_refresh != 0, but is 6 bytes."].
Proof. reflexivity. Qed.

Example cookie_secret_unchecked :
  Validate_cookieSecret sampleEnv testOptions [] = [].
Proof. reflexivity. Qed.

Example refresh_equal_to_expire :
  Validate_cookieRefresh sampleEnv
    (with_CookieRefresh (168 * Hour)%Z testOptions) []
  = ["cookie_refresh (168h0m0s) must be less than cookie_expire (168h0m0s)"].
Proof. reflexivity. Qed.

Example same_site_invalid :
  Validate_cookieSameSite (with_CookieSameSite "invalid" testOptions) []
  = ["cookie_samesite (invalid) must be one of ['', 'lax', 'strict', 'none']"].
Proof. reflexivity. Qed.

Example Validate_test_options :
  snd (Validate sampleEnv world0 testOptions) = None.
Proof. reflexivity. Qed.

Example Validate_new_options :
  snd (Validate sampleEnv world0 (with_EmailDomains ["*"] (NewOptions "")))
  = Some ("Invalid configuration:" ++ nl
          ++ "  missing setting: cookie-secret" ++ nl
          ++ "  missing setting: client-id" ++ nl
          ++ "  missing setting: client-secret")%string.
Proof. reflexivity. Qed.

Example Validate_google_credentials_missing_file :
  let o := with_GoogleServiceAccountJSON "/nowhere.json"
             (with_GoogleAdminEmail "admin@example.com"
                (with_GoogleGroups ["admins@example.com"] testOptions)) in
  snd (Validate sampleEnv world0 o)
  = Some ("Invalid configuration:" ++ nl
          ++ "  invalid Google credentials file: /nowhere.json")%string
  /\ opened (fst (fst (Validate sampleEnv world0 o))) = ["/nowhere.json"].
Proof. split; reflexivity. Qed.

(** * Further properties of options.go *)

(** ** The state a run leaves behind *)

Lemma world_eta (w : World) : mkWorld (InsecureSkipVerify w) (opened w) = w.
Proof. now destruct w. Qed.

Lemma provider_eta (p : providers.Provider) :
  providers.mkProvider (providers.variant p) (providers.data p)
                       (providers.calls p) = p.
Proof. now destruct p. Qed.

Lemma set_signatureData_same (o : Options) :
  set_signatureData o (signatureData o) = o.
Proof. now destruct o. Qed.

Lemma parseProviderInfo_Google_state (env : Env) (w : World) (o : Options)
    (p : providers.Provider) (msgs : list string) :
  fst (parseProviderInfo_Google env w o p msgs)
  = (mkWorld (InsecureSkipVerify w)
       (opened w ++ (if is_empty (GoogleServiceAccountJSON o) then []
                     else [GoogleServiceAccountJSON o])),
     providers.mkProvider (providers.variant p) (providers.data p)
       (providers.calls p
        ++ (if is_empty (GoogleServiceAccountJSON o) then []
            else match os_Open env (GoogleServiceAccountJSON o) with
                 | Some file =>
                     [providers.SetGroupRestriction (GoogleGroups o)
                        (GoogleAdminEmail o) file]
                 | None => []
                 end))).
Proof.
  unfold parseProviderInfo_Google.
  destruct (is_empty (GoogleServiceAccountJSON o)); cbn [negb fst].
  - now rewrite !app_nil_r, world_eta, provider_eta.
  - destruct (os_Open env (GoogleServiceAccountJSON o)); cbn [fst];
      unfold providers.invoke; now rewrite ?app_nil_r, ?provider_eta.
Qed.

Lemma parseProviderInfo_OIDC_state (env : Env) (o : Options)
    (p : providers.Provider) (msgs : list string) :
  fst (parseProviderInfo_OIDC env o p msgs)
  = providers.mkProvider (providers.variant p) (providers.data p)
      (providers.calls p
       ++ (if SkipOIDCDiscovery o then
             if negb (is_empty (OIDCIssuerURL o))
                && negb (is_empty (OIDCJwksURL o))
             then [providers.SetVerifier (OIDCIssuerURL o) (OIDCJwksURL o)]
             else []
           else if is_empty (OIDCIssuerURL o) then []
                else [providers.SetIssuerURL (OIDCIssuerURL o)])).
Proof.
  unfold parseProviderInfo_OIDC.
  destruct (SkipOIDCDiscovery o).
  - destruct (negb (is_empty (OIDCIssuerURL o))
              && negb (is_empty (OIDCJwksURL o))); cbn [fst];
      unfold providers.invoke; now rewrite ?app_nil_r, ?provider_eta.
  - destruct (is_empty (OIDCIssuerURL o)); cbn [negb fst].
    + now rewrite app_nil_r, provider_eta.
    + destruct (oidc_SetIssuerURL env (OIDCIssuerURL o)); reflexivity.
Qed.

Lemma parseProviderInfo_full (env : Env) (w : World) (o : Options)
    (msgs : list string) :
  parseProviderInfo env w o msgs
  = (mkWorld (InsecureSkipVerify w) (opened w ++ provider_opened env o),
     set_provider o (Some (configured_provider env o)),
     msgs ++ provider_findings env o).
Proof.
  unfold parseProviderInfo, configured_provider, provider_calls,
    provider_opened, provider_findings.
  rewrite parseProviderInfo_data_acc. fold (selected_provider env o).
  rewrite app_assoc.
  set (m := msgs ++ endpoint_findings env o).
  set (sp := selected_provider env o).
  destruct (providers.variant sp) eqn:V;
    try (unfold providers.invoke; rewrite V, !app_nil_r, world_eta;
         reflexivity).
  - pose proof (parseProviderInfo_Google_msgs env w o sp m) as M.
    pose proof (parseProviderInfo_Google_state env w o sp m) as S.
    destruct (parseProviderInfo_Google env w o sp m) as [[w' pr] ms].
    cbn [fst snd] in M, S. injection S as -> ->. subst ms.
    now rewrite V.
  - pose proof (parseProviderInfo_OIDC_msgs env o sp m) as M.
    pose proof (parseProviderInfo_OIDC_state env o sp m) as S.
    destruct (parseProviderInfo_OIDC env o sp m) as [pr ms].
    cbn [fst snd] in M, S. subst pr ms.
    now rewrite V, app_nil_r, world_eta.
  - rewrite !app_nil_r, world_eta. rewrite <- V. now rewrite provider_eta.
Qed.

Lemma parseSignatureKey_full (env : Env) (o : Options) (msgs : list string) :
  parseSignatureKey env o msgs
  = (set_signatureData o (signature_result env o),
     msgs ++ signature_findings env o).
Proof.
  unfold parseSignatureKey, signature_result, signature_findings.
  destruct (is_empty (SignatureKey o));
    [now rewrite app_nil_r, set_signatureData_same|].
  destruct (strings.Split (SignatureKey o) ":") as [|a [|b [|c r]]];
    rewrite ?set_signatureData_same; try reflexivity.
  destruct (DigestNameToCryptoHash env a);
    rewrite ?set_signatureData_same, ?app_nil_r; reflexivity.
Qed.

Lemma Validate_insecureTLS_full (env : Env) (w : World) (o : Options)
    (msgs : list string) :
  Validate_insecureTLS env w o msgs
  = (mkWorld (InsecureSkipVerify w
              || (SSLInsecureSkipVerify o && defaultTransportIsHTTP env))
             (opened w),
     msgs ++ snd (Validate_insecureTLS env world0 o [])).
Proof.
  unfold Validate_insecureTLS.
  destruct (SSLInsecureSkipVerify o); simpl.
  - destruct (defaultTransportIsHTTP env); simpl.
    + now rewrite orb_true_r, app_nil_r.
    + now rewrite orb_false_r, world_eta.
  - now rewrite orb_false_r, world_eta, app_nil_r.
Qed.

Lemma triple_eq {A B C : Type} (x : A * B * C) (a : A) (b : B) (c : C) :
  fst (fst x) = a -> snd (fst x) = b -> snd x = c -> x = (a, b, c).
Proof. destruct x as [[x1 x2] x3]. simpl. now intros -> -> ->. Qed.

(** [Validate_collect] in closed form. *)
Lemma Validate_collect_full (env : Env) (w : World) (o : Options) :
  Validate_collect env w o
  = (world_after env w o, validated env o, concat (Validate_findings env o)).
Proof.
  apply triple_eq; [| |apply Validate_collect_msgs];
    unfold Validate_collect;
    rewrite Validate_insecureTLS_full, Validate_required_acc, parseURL_acc,
      Validate_upstreams_eq, Validate_skipAuthRegex_eq,
      parseProviderInfo_full, parseSignatureKey_full;
    cbn [fst snd]; reflexivity.
Qed.

Lemma Validate_full (env : Env) (w : World) (o : Options) :
  Validate env w o
  = (world_after env w o, validated env o,
     Validate_error (concat (Validate_findings env o))).
Proof. unfold Validate. now rewrite Validate_collect_full. Qed.

Lemma settings_same_settings (a b : Options) :
  settings a = settings b -> same_settings a b.
Proof.
  intros E. unfold same_settings.
  repeat match goal with
         | |- _ /\ _ => split
         | |- ?f a = ?f b =>
             change (f a) with (f (settings a));
             change (f b) with (f (settings b)); now rewrite E
         end.
Qed.

Lemma validated_settings (env : Env) (o : Options) :
  settings (validated env o) = settings o.
Proof. reflexivity. Qed.

Lemma findings_of_validated (env : Env) (o : Options) :
  Validate_findings env (validated env o) = Validate_findings env o.
Proof. apply Validate_findings_same, validated_settings. Qed.

(** X1: [Validate] changes no setting; it only fills the internal values:
    the parsed redirect URL (absent when parsing failed), the accepted
    upstream URLs and compiled patterns appended to those already present,
    and a provider, whatever the outcome of the checks. *)
Theorem X1_Validate_fills_internal_values
    (env : Env) (w : World) (o : Options) :
  same_settings o (snd (fst (Validate env w o)))
  /\ redirectURL (snd (fst (Validate env w o)))
     = match url_Parse env (RedirectURL o) with
       | Ok parsed => Some parsed
       | Err _ => None
       end
  /\ proxyURLs (snd (fst (Validate env w o)))
     = proxyURLs o ++ upstream_accepted env (Upstreams o)
  /\ CompiledRegex (snd (fst (Validate env w o)))
     = CompiledRegex o ++ regex_accepted env (SkipAuthRegex o)
  /\ (exists pr, provider (snd (fst (Validate env w o))) = Some pr
                 /\ providers.variant pr
                    = providers.variant (selected_provider env o)
                 /\ providers.data pr
                    = providers.data (selected_provider env o)).
Proof.
  rewrite Validate_full. cbn [fst snd].
  split; [|split; [|split; [|split]]].
  - apply settings_same_settings. symmetry. apply validated_settings.
  - change (redirectURL (validated env o))
      with (fst (parseURL env (RedirectURL o) "redirect" [])).
    unfold parseURL. now destruct (url_Parse env (RedirectURL o)).
  - reflexivity.
  - reflexivity.
  - exists (configured_provider env o). repeat split.
Qed.

(** X2: a second [Validate] on the validated options reports the same error
    as the first, and appends the accepted upstream URLs and the compiled
    patterns once more: the internal lists grow with every run. *)
Theorem X2_Validate_again (env : Env) (w w' : World) (o : Options) :
  snd (Validate env w' (snd (fst (Validate env w o))))
  = snd (Validate env w o)
  /\ proxyURLs (snd (fst (Validate env w' (snd (fst (Validate env w o))))))
     = proxyURLs o ++ upstream_accepted env (Upstreams o)
       ++ upstream_accepted env (Upstreams o)
  /\ CompiledRegex
       (snd (fst (Validate env w' (snd (fst (Validate env w o))))))
     = CompiledRegex o ++ regex_accepted env (SkipAuthRegex o)
       ++ regex_accepted env (SkipAuthRegex o).
Proof.
  rewrite !Validate_full. cbn [fst snd].
  rewrite findings_of_validated.
  repeat apply conj; [reflexivity | |]; cbn; now rewrite <- app_assoc.
Qed.

(** ** The checks outside the provider *)

Lemma app_eq_self {A : Type} (l x : list A) : l ++ x = l <-> x = [].
Proof.
  split; [|intros ->; apply app_nil_r].
  intros H. apply (app_inv_head l). now rewrite app_nil_r.
Qed.

Lemma Validate_required_when (o : Options) (msgs : list string) :
  Validate_required o msgs
  = msgs
    ++ when (is_empty (CookieSecret o)) "missing setting: cookie-secret"
    ++ when (is_empty (ClientID o)) "missing setting: client-id"
    ++ when (is_empty (ClientSecret o)) "missing setting: client-secret"
    ++ when (is_empty (AuthenticatedEmailsFile o)
             && (len (EmailDomains o) =? 0)%nat
             && is_empty (HtpasswdFile o)) email_validation_missing.
Proof.
  unfold Validate_required, when.
  destruct (is_empty (CookieSecret o));
    destruct (is_empty (ClientID o));
    destruct (is_empty (ClientSecret o));
    destruct (is_empty (AuthenticatedEmailsFile o)
              && (len (EmailDomains o) =? 0)%nat
              && is_empty (HtpasswdFile o));
    cbn [app]; rewrite <- ?app_assoc, ?app_nil_r; reflexivity.
Qed.

(** X3: each of cookie secret, client id and client secret that is empty
    gets a message of its own, in that order, followed by one message when
    no e-mail mechanism (emails file, e-mail domain, htpasswd file) is
    configured; nothing is reported exactly when all three are set together
    with at least one mechanism. *)
Theorem X3_required_settings (o : Options) (msgs : list string) :
  Validate_required o msgs
  = msgs
    ++ when (is_empty (CookieSecret o)) "missing setting: cookie-secret"
    ++ when (is_empty (ClientID o)) "missing setting: client-id"
    ++ when (is_empty (ClientSecret o)) "missing setting: client-secret"
    ++ when (is_empty (AuthenticatedEmailsFile o)
             && (len (EmailDomains o) =? 0)%nat
             && is_empty (HtpasswdFile o)) email_validation_missing
  /\ (Validate_required o msgs = msgs
      <-> CookieSecret o <> "" /\ ClientID o <> "" /\ ClientSecret o <> ""
          /\ (AuthenticatedEmailsFile o <> "" \/ EmailDomains o <> []
              \/ HtpasswdFile o <> "")).
Proof.
  split; [apply Validate_required_when|].
  rewrite Validate_required_when, app_eq_self.
  rewrite <- !is_empty_false.
  assert (D : (len (EmailDomains o) =? 0)%nat = false <-> EmailDomains o <> []).
  { destruct (EmailDomains o); simpl; split; congruence. }
  rewrite <- D. unfold when.
  destruct (is_empty (CookieSecret o));
    destruct (is_empty (ClientID o));
    destruct (is_empty (ClientSecret o));
    destruct (is_empty (AuthenticatedEmailsFile o));
    destruct (len (EmailDomains o) =? 0)%nat;
    destruct (is_empty (HtpasswdFile o));
    cbn; split; intros H; try discriminate; intuition congruence.
Qed.

Lemma default_path_nonempty (u : url.URL) : url.Path (default_path u) <> "".
Proof.
  unfold default_path. destruct (is_empty (url.Path u)) eqn:E.
  - discriminate.
  - now apply is_empty_false.
Qed.

Lemma upstream_accepted_paths (env : Env) (targets : list string) :
  Forall (fun u => url.Path u <> "") (upstream_accepted env targets).
Proof.
  induction targets as [|t rest IH]; [constructor|].
  unfold upstream_accepted in *. cbn [flat_map].
  destruct (url_Parse env t); cbn [app]; [|exact IH].
  constructor; [apply default_path_nonempty | exact IH].
Qed.

(** X4: every upstream URL that [Validate] stores has a non-empty path
    (an empty one is stored as "/"), and the stored URLs correspond one to
    one, in order, to the targets the parser accepts; the entries that were
    in the list before the call stay in front, untouched. *)
Theorem X4_upstream_paths (env : Env) (w : World) (o : Options) :
  Forall (fun u => url.Path u <> "") (upstream_accepted env (Upstreams o))
  /\ Forall (fun u => In u (proxyURLs o) \/ url.Path u <> "")
            (proxyURLs (snd (fst (Validate env w o))))
  /\ firstn (len (proxyURLs o)) (proxyURLs (snd (fst (Validate env w o))))
     = proxyURLs o
  /\ len (proxyURLs (snd (fst (Validate env w o))))
     = len (proxyURLs o) + len (Upstreams o)
       - len (upstream_findings env (Upstreams o)).
Proof.
  pose proof (upstream_accepted_paths env (Upstreams o)) as P.
  rewrite Validate_full. cbn [fst snd].
  change (proxyURLs (validated env o))
    with (proxyURLs o ++ upstream_accepted env (Upstreams o)).
  repeat apply conj.
  - exact P.
  - apply Forall_app. split.
    + apply Forall_forall. intros u I. now left.
    + eapply Forall_impl; [|exact P]. intros u H. now right.
  - unfold len. rewrite firstn_app, Nat.sub_diag, firstn_all. simpl.
    apply app_nil_r.
  - pose proof (upstream_split_length env (Upstreams o)) as L.
    unfold len in *. rewrite length_app. lia.
Qed.

Lemma regex_split_length (env : Env) (patterns : list string) :
  len (regex_accepted env patterns) + len (regex_findings env patterns)
  = len patterns.
Proof.
  induction patterns as [|u rest IH]; simpl; [reflexivity|].
  unfold len in *. rewrite !length_app.
  destruct (regexp_Compile env u); simpl; lia.
Qed.

(** X5: every bypass pattern is either compiled and appended, in input
    order, to the compiled list, or reported with one message that quotes
    it; a pattern that fails does not stop the loop. *)
Theorem X5_skip_auth_regex (env : Env) (o : Options) (msgs : list string) :
  Validate_skipAuthRegex env o msgs
  = (set_CompiledRegex o
       (CompiledRegex o ++ regex_accepted env (SkipAuthRegex o)),
     msgs ++ regex_findings env (SkipAuthRegex o))
  /\ len (regex_accepted env (SkipAuthRegex o))
     + len (regex_findings env (SkipAuthRegex o)) = len (SkipAuthRegex o)
  /\ (forall (u : string) (rest : list string),
        regex_accepted env (u :: rest)
        = match regexp_Compile env u with
          | Ok compiled => compiled :: regex_accepted env rest
          | Err _ => regex_accepted env rest
          end
        /\ regex_findings env (u :: rest)
           = match regexp_Compile env u with
             | Ok _ => regex_findings env rest
             | Err err =>
                 ("error compiling regex=" ++ fmt_q env u ++ " "
                  ++ err)%string :: regex_findings env rest
             end).
Proof.
  repeat apply conj.
  - apply Validate_skipAuthRegex_eq.
  - apply regex_split_length.
  - intros u rest. unfold regex_accepted, regex_findings. cbn [flat_map].
    destruct (regexp_Compile env u); split; reflexivity.
Qed.

Lemma real_ip_allowed (v : string) :
  negb (is_empty v)
  && negb (fold_left (fun valid s => if String.eqb v s then true else valid)
                     realClientIPHeaders false) = false
  <-> In v [""; "X-Real-IP"; "X-Forwarded-For"; "X-ProxyUser-IP"].
Proof.
  unfold realClientIPHeaders, is_empty. cbn [fold_left In].
  destruct (String.eqb v "") eqn:E0;
    destruct (String.eqb v "X-Real-IP") eqn:E1;
    destruct (String.eqb v "X-Forwarded-For") eqn:E2;
    destruct (String.eqb v "X-ProxyUser-IP") eqn:E3;
    cbn;
    repeat match goal with
           | H : String.eqb _ _ = true |- _ => apply String.eqb_eq in H
           | H : String.eqb _ _ = false |- _ => apply String.eqb_neq in H
           end;
    split; intros H; try discriminate; try reflexivity; auto;
    intuition congruence.
Qed.

(** X6: the real-client-IP header check accepts the empty header and exactly
    the three names "X-Real-IP", "X-Forwarded-For" and "X-ProxyUser-IP",
    compared byte for byte; any other value appends one message that quotes
    it. *)
Theorem X6_real_client_ip_header (env : Env) (o : Options)
    (msgs : list string) :
  (In (RealClientIPHeader o)
      [""; "X-Real-IP"; "X-Forwarded-For"; "X-ProxyUser-IP"]
   <-> Validate_realClientIPHeader env o msgs = msgs)
  /\ (~ In (RealClientIPHeader o)
         [""; "X-Real-IP"; "X-Forwarded-For"; "X-ProxyUser-IP"]
      <-> Validate_realClientIPHeader env o msgs
          = msgs ++ [("unsupported real-client-ip-header "
                      ++ fmt_q env (RealClientIPHeader o))%string]).
Proof.
  pose proof (real_ip_allowed (RealClientIPHeader o)) as A.
  unfold Validate_realClientIPHeader.
  destruct (negb (is_empty (RealClientIPHeader o))); cbn [andb] in A.
  - destruct (negb (fold_left
                      (fun valid s =>
                         if String.eqb (RealClientIPHeader o) s then true
                         else valid) realClientIPHeaders false)).
    + assert (N : ~ In (RealClientIPHeader o)
                    [""; "X-Real-IP"; "X-Forwarded-For"; "X-ProxyUser-IP"]).
      { intros I. apply A in I. discriminate. }
      repeat split; try tauto.
      * intros H. now apply app_one_neq in H.
    + assert (I : In (RealClientIPHeader o)
                    [""; "X-Real-IP"; "X-Forwarded-For"; "X-ProxyUser-IP"])
        by now apply A.
      repeat split; try tauto.
      * intros H. symmetry in H. now apply app_one_neq in H.
  - assert (I : In (RealClientIPHeader o)
                  [""; "X-Real-IP"; "X-Forwarded-For"; "X-ProxyUser-IP"])
      by now apply A.
    repeat split; try tauto.
    intros H. symmetry in H. now apply app_one_neq in H.
Qed.

(** ** Effects on the world *)

(** X7: [Validate] switches certificate verification off exactly when it is
    asked to and the default transport is an HTTP transport; it never
    switches it back on, and reports the one case in which it could not
    comply. *)
Theorem X7_insecure_transport (env : Env) (w : World) (o : Options) :
  InsecureSkipVerify (fst (fst (Validate env w o)))
  = InsecureSkipVerify w
    || (SSLInsecureSkipVerify o && defaultTransportIsHTTP env)
  /\ (forall msgs : list string,
        snd (Validate_insecureTLS env w o msgs)
        = msgs
          ++ when (SSLInsecureSkipVerify o
                   && negb (defaultTransportIsHTTP env))
               "error setting insecure tls config: DefaultTransport is unexpected type")
  /\ (forall msgs : list string,
        SSLInsecureSkipVerify o = false ->
        Validate_insecureTLS env w o msgs = (w, msgs)).
Proof.
  split; [|split].
  - now rewrite Validate_full.
  - intros msgs. unfold Validate_insecureTLS, when.
    destruct (SSLInsecureSkipVerify o); [|now rewrite app_nil_r].
    destruct (defaultTransportIsHTTP env); cbn; [now rewrite app_nil_r|].
    reflexivity.
  - intros msgs E. unfold Validate_insecureTLS. now rewrite E.
Qed.

(** X8: the only file [Validate] opens is the Google credentials file, and
    it opens it exactly when the selected provider is the Google variant and
    the credentials path is set; for every other configuration no file is
    opened. *)
Theorem X8_files_opened (env : Env) (w : World) (o : Options) :
  (providers.variant (selected_provider env o) = providers.GoogleProvider ->
   is_empty (GoogleServiceAccountJSON o) = false ->
   opened (fst (fst (Validate env w o)))
   = opened w ++ [GoogleServiceAccountJSON o])
  /\ (providers.variant (selected_provider env o) <> providers.GoogleProvider
      \/ is_empty (GoogleServiceAccountJSON o) = true ->
      opened (fst (fst (Validate env w o))) = opened w).
Proof.
  rewrite Validate_full. cbn [fst snd world_after opened].
  unfold provider_opened. split.
  - intros V J. now rewrite V, J.
  - intros [V|J].
    + destruct (providers.variant (selected_provider env o));
        try apply app_nil_r. now contradiction V.
    + rewrite J.
      destruct (providers.variant (selected_provider env o));
        apply app_nil_r.
Qed.

(** ** The provider variants *)

Lemma parseProviderInfo_provider (env : Env) (w : World) (o : Options)
    (msgs : list string) :
  provider (snd (fst (parseProviderInfo env w o msgs)))
  = Some (configured_provider env o).
Proof. now rewrite parseProviderInfo_full. Qed.

(** X9: for the Azure, Bitbucket, GitHub and GitLab variants the provider
    receives exactly one configuration call, carrying the tenant, the team,
    the organisation with its teams, or the groups, whatever their values;
    for these variants and for any variant outside the switch the only
    messages are those of unparsable endpoint URLs and the world is left as
    it was. *)
Theorem X9_unconditional_variants
    (env : Env) (w : World) (o : Options) (msgs : list string) :
  let sp := selected_provider env o in
  let result (call : list providers.Call) :=
    (w,
     set_provider o
       (Some (providers.mkProvider (providers.variant sp) (providers.data sp)
                (providers.calls sp ++ call))),
     msgs ++ endpoint_findings env o) in
  (providers.variant sp = providers.AzureProvider ->
   parseProviderInfo env w o msgs
   = result [providers.Configure (AzureTenant o)])
  /\ (providers.variant sp = providers.BitbucketProvider ->
      parseProviderInfo env w o msgs
      = result [providers.SetTeam (BitbucketTeam o)])
  /\ (providers.variant sp = providers.GitHubProvider ->
      parseProviderInfo env w o msgs
      = result [providers.SetOrgTeam (GitHubOrg o) (GitHubTeams o)])
  /\ (providers.variant sp = providers.GitLabProvider ->
      parseProviderInfo env w o msgs
      = result [providers.SetGroups (GitLabGroups o)])
  /\ (providers.variant sp = providers.OtherProvider ->
      parseProviderInfo env w o msgs = result []).
Proof.
  intros sp result. subst sp result. cbv beta.
  rewrite parseProviderInfo_full.
  unfold configured_provider, provider_calls, provider_opened,
    provider_findings.
  repeat apply conj; intros V; rewrite V;
    now rewrite !app_nil_r, world_eta.
Qed.

(** X10: for the OIDC variant the provider receives at most one call: with
    discovery skipped, a verifier when issuer and JWKS URLs are both set and
    nothing otherwise, so that no discovery is ever attempted; without the
    skip, a discovery on the issuer URL when it is set, whose error, if any,
    is appended to the report as it is. *)
Theorem X10_oidc_calls
    (env : Env) (w : World) (o : Options) (msgs : list string) :
  providers.variant (selected_provider env o) = providers.OIDCProvider ->
  let sp := selected_provider env o in
  let stored (call : list providers.Call) :=
    Some (providers.mkProvider (providers.variant sp) (providers.data sp)
            (providers.calls sp ++ call)) in
  (SkipOIDCDiscovery o = true ->
   provider (snd (fst (parseProviderInfo env w o msgs)))
   = stored (if negb (is_empty (OIDCIssuerURL o))
                && negb (is_empty (OIDCJwksURL o))
             then [providers.SetVerifier (OIDCIssuerURL o) (OIDCJwksURL o)]
             else []))
  /\ (SkipOIDCDiscovery o = false ->
      provider (snd (fst (parseProviderInfo env w o msgs)))
      = stored (if is_empty (OIDCIssuerURL o) then []
                else [providers.SetIssuerURL (OIDCIssuerURL o)]))
  /\ (SkipOIDCDiscovery o = false ->
      is_empty (OIDCIssuerURL o) = false ->
      snd (parseProviderInfo env w o msgs)
      = msgs ++ endpoint_findings env o
        ++ match oidc_SetIssuerURL env (OIDCIssuerURL o) with
           | Some err => [err]
           | None => []
           end)
  /\ fst (fst (parseProviderInfo env w o msgs)) = w.
Proof.
  intros V sp stored. subst sp stored. cbv beta.
  rewrite parseProviderInfo_full. cbn [fst snd].
  change (provider (set_provider o (Some (configured_provider env o))))
    with (Some (configured_provider env o)).
  unfold configured_provider, provider_calls, provider_opened,
    provider_findings, oidc_findings, oidc_issuer_missing,
    oidc_discovery_findings, when.
  rewrite V. repeat apply conj.
  - intros S. now rewrite S.
  - intros S. now rewrite S.
  - intros S I. now rewrite S, I.
  - now rewrite app_nil_r, world_eta.
Qed.

(** The theorem for an OIDC provider that discovers its endpoints. *)
Lemma X10_oidc_calls_witness :
  let o := with_OIDCIssuerURL "https://issuer.example.com"
             (with_Provider "oidc" testOptions) in
  providers.variant (selected_provider sampleEnv o) = providers.OIDCProvider
  /\ option_map providers.calls
       (provider (snd (fst (parseProviderInfo sampleEnv world0 o []))))
     = Some [providers.SetIssuerURL "https://issuer.example.com"]
  /\ snd (parseProviderInfo sampleEnv world0 o []) = [].
Proof.
  intros o. split; [reflexivity|].
  destruct (X10_oidc_calls sampleEnv world0 o [] eq_refl)
    as (_ & H & K & _).
  split.
  - rewrite (H eq_refl). reflexivity.
  - rewrite (K eq_refl eq_refl). reflexivity.
Defined.

(** X11: for the Google variant with a credentials path, the file is opened
    whether or not the group list and the admin e-mail are set; when it
    opens, the provider receives the group restriction with the configured
    groups, admin e-mail and that file, and no credentials message is
    added; when it does not, the provider receives no call and the message
    naming the path closes the provider's findings. *)
Theorem X11_google_credentials
    (env : Env) (w : World) (o : Options) (msgs : list string) :
  providers.variant (selected_provider env o) = providers.GoogleProvider ->
  is_empty (GoogleServiceAccountJSON o) = false ->
  let sp := selected_provider env o in
  let missing :=
    when (len (GoogleGroups o) <? 1)%nat "missing setting: google-group"
    ++ when (is_empty (GoogleAdminEmail o))
            "missing setting: google-admin-email" in
  opened (fst (fst (parseProviderInfo env w o msgs)))
  = opened w ++ [GoogleServiceAccountJSON o]
  /\ (forall file : os.File,
        os_Open env (GoogleServiceAccountJSON o) = Some file ->
        provider (snd (fst (parseProviderInfo env w o msgs)))
        = Some (providers.invoke sp
                  (providers.SetGroupRestriction (GoogleGroups o)
                     (GoogleAdminEmail o) file))
        /\ snd (parseProviderInfo env w o msgs)
           = msgs ++ endpoint_findings env o ++ missing)
  /\ (os_Open env (GoogleServiceAccountJSON o) = None ->
      provider (snd (fst (parseProviderInfo env w o msgs))) = Some sp
      /\ snd (parseProviderInfo env w o msgs)
         = msgs ++ endpoint_findings env o ++ missing
           ++ [("invalid Google credentials file: "
                ++ GoogleServiceAccountJSON o)%string]).
Proof.
  intros V J sp missing. subst sp missing.
  rewrite parseProviderInfo_full. cbn [fst snd opened].
  change (provider (set_provider o (Some (configured_provider env o))))
    with (Some (configured_provider env o)).
  unfold configured_provider, provider_calls, provider_opened,
    provider_findings, google_findings, google_restricted, google_missing,
    google_credentials_findings, when, providers.invoke.
  rewrite V, J. cbn [negb]. rewrite !orb_true_r.
  repeat apply conj.
  - reflexivity.
  - intros file F. rewrite F. split; [reflexivity|].
    repeat rewrite app_nil_r. repeat rewrite <- app_assoc. reflexivity.
  - intros F. rewrite F. split; [now rewrite app_nil_r, <- V, provider_eta|].
    repeat rewrite app_nil_r. repeat rewrite <- app_assoc. reflexivity.
Qed.

(** The theorem for a Google provider whose credentials file is missing. *)
Lemma X11_google_credentials_witness :
  let o := with_GoogleServiceAccountJSON "/nowhere.json"
             (with_GoogleGroups ["admins@example.com"] testOptions) in
  providers.variant (selected_provider sampleEnv o) = providers.GoogleProvider
  /\ is_empty (GoogleServiceAccountJSON o) = false
  /\ opened (fst (fst (parseProviderInfo sampleEnv world0 o [])))
     = ["/nowhere.json"]
  /\ snd (parseProviderInfo sampleEnv world0 o [])
     = ["missing setting: google-admin-email";
        "invalid Google credentials file: /nowhere.json"].
Proof.
  intros o. split; [reflexivity|]. split; [reflexivity|].
  destruct (X11_google_credentials sampleEnv world0 o [] eq_refl eq_refl)
    as (H & _ & K).
  split.
  - rewrite H. reflexivity.
  - destruct (K eq_refl) as [_ M]. rewrite M. reflexivity.
Defined.

(** ** Signature key, padding and the error text *)

(** X12: [parseSignatureKey] does nothing for an empty key; whenever it
    reports a message it leaves the receiver untouched; and the signature
    data found afterwards either was there before or rejoins, as
    algorithm, colon, stored key, to the signature-key setting, with the
    stored hash being the digest of that algorithm name. *)
Theorem X12_signature_round_trip
    (env : Env) (o : Options) (msgs : list string) :
  (is_empty (SignatureKey o) = true ->
   parseSignatureKey env o msgs = (o, msgs))
  /\ (snd (parseSignatureKey env o msgs) <> msgs ->
      fst (parseSignatureKey env o msgs) = o)
  /\ (forall sd : SignatureData,
        signatureData (fst (parseSignatureKey env o msgs)) = Some sd ->
        signatureData o = Some sd
        \/ exists algorithm : string,
             SignatureKey o = (algorithm ++ ":" ++ key sd)%string
             /\ DigestNameToCryptoHash env algorithm = Some (hash sd)
             /\ strings.Count algorithm ":" = 0
             /\ strings.Count (key sd) ":" = 0).
Proof.
  split; [apply parseSignatureKey_empty|].
  rewrite parseSignatureKey_full. cbn [fst snd].
  unfold signature_result, signature_findings.
  destruct (is_empty (SignatureKey o)).
  { rewrite set_signatureData_same, app_nil_r. split; [congruence|].
    intros sd H. now left. }
  destruct (strings.Split (SignatureKey o) ":") as [|a [|b [|c r]]] eqn:S;
    rewrite ?set_signatureData_same;
    try (split; [reflexivity | intros sd H; now left]).
  destruct (DigestNameToCryptoHash env a) as [h|] eqn:D;
    rewrite ?set_signatureData_same, ?app_nil_r.
  - split; [congruence|].
    intros sd H. right. cbn in H. injection H as <-. cbn [key hash].
    exists a. apply Split_two_inv in S. destruct S as (K & Ca & Cb).
    now repeat split.
  - split; [reflexivity | intros sd H; now left].
Qed.

Lemma addPadding_shape (s : string) :
  exists pad : string,
    addPadding s = (s ++ pad)%string /\ (pad = "" \/ pad = "=" \/ pad = "==").
Proof.
  destruct (mod4_cases (String.length s)) as [E|[E|[E|E]]].
  - exists "". split; [|auto]. rewrite addPadding_other by auto.
    clear. induction s as [|c s IH]; simpl; congruence.
  - exists "". split; [|auto]. rewrite addPadding_other by auto.
    clear. induction s as [|c s IH]; simpl; congruence.
  - exists "==". split; [now apply addPadding_2 | auto].
  - exists "=". split; [now apply addPadding_3 | auto].
Qed.

(** X13: [addPadding] only ever appends "", "=" or "==" to its argument, and
    padding a padded secret changes nothing more. *)
Theorem X13_addPadding_idempotent (s : string) :
  addPadding (addPadding s) = addPadding s
  /\ (exists pad : string,
        addPadding s = (s ++ pad)%string
        /\ (pad = "" \/ pad = "=" \/ pad = "=="))
  /\ String.length s <= String.length (addPadding s) <= String.length s + 2.
Proof.
  split; [|split; [apply addPadding_shape|]].
  - destruct (mod4_cases (String.length s)) as [E|[E|[E|E]]].
    + rewrite (addPadding_other s) by auto. apply addPadding_other; auto.
    + rewrite (addPadding_other s) by auto. apply addPadding_other; auto.
    + rewrite (addPadding_2 s E). apply addPadding_other. left.
      now rewrite length_app_string, add_mod4, E.
    + rewrite (addPadding_3 s E). apply addPadding_other. left.
      now rewrite length_app_string, add_mod4, E.
  - destruct (addPadding_shape s) as (pad & -> & [-> | [-> | ->]]);
      rewrite length_app_string; simpl; lia.
Qed.

Lemma occurs_in_refl_app (pre m post : string) :
  occurs_in m (pre ++ m ++ post)%string.
Proof. now exists pre, post. Qed.

Lemma string_app_assoc (a b c : string) :
  ((a ++ b) ++ c)%string = (a ++ b ++ c)%string.
Proof. induction a as [|x a IH]; simpl; [reflexivity | now rewrite IH]. Qed.

Lemma string_app_nil_r (a : string) : (a ++ "")%string = a.
Proof. induction a as [|x a IH]; simpl; [reflexivity | now rewrite IH]. Qed.

Lemma occurs_in_prepend (m a pre : string) :
  occurs_in m a -> occurs_in m (pre ++ a)%string.
Proof.
  intros (p & q & ->). exists (pre ++ p)%string, q.
  now rewrite string_app_assoc.
Qed.

Lemma occurs_in_Join (sep : string) (msgs : list string) :
  Forall (fun m => occurs_in m (strings.Join msgs sep)) msgs.
Proof.
  induction msgs as [|m rest IH]; [constructor|].
  destruct rest as [|m' rest].
  - constructor; [|constructor]. exists "", "". cbn.
    now rewrite string_app_nil_r.
  - rewrite Join_cons2. constructor.
    + exists "", (sep ++ strings.Join (m' :: rest) sep)%string. reflexivity.
    + eapply Forall_impl; [|exact IH]. intros x H.
      apply occurs_in_prepend. now apply occurs_in_prepend.
Qed.

Lemma HasPrefix_app (p s : string) :
  strings.HasPrefix (p ++ s)%string p = true.
Proof.
  unfold strings.HasPrefix.
  induction p as [|a p IH]; [now destruct s|].
  cbn. destruct (ascii_dec a a); [exact IH | contradiction].
Qed.

(** X14: the error [Validate] builds from a non-empty report begins with the
    heading line and contains every collected message as a contiguous piece
    of its text; for an empty report there is no error. *)
Theorem X14_error_text (msgs : list string) :
  match Validate_error msgs with
  | None => msgs = []
  | Some text =>
      msgs <> []
      /\ strings.HasPrefix text ("Invalid configuration:" ++ nl ++ "  ")
         = true
      /\ Forall (fun m => occurs_in m text) msgs
  end.
Proof.
  unfold Validate_error. destruct msgs as [|m rest]; [reflexivity|].
  cbn [len length Nat.eqb negb].
  split; [discriminate|]. split.
  - apply (HasPrefix_app ("Invalid configuration:" ++ nl ++ "  ")%string).
  - eapply Forall_impl; [|apply (occurs_in_Join (nl ++ "  ") (m :: rest))].
    intros x H.
    change ("Invalid configuration:" ++ nl ++ "  "
            ++ strings.Join (m :: rest) (nl ++ "  "))%string
      with (("Invalid configuration:" ++ nl ++ "  ")
            ++ strings.Join (m :: rest) (nl ++ "  "))%string.
    now apply occurs_in_prepend.
Qed.

(** ** What a successful validation guarantees *)

Lemma upstream_findings_nil (env : Env) (targets : list string) :
  upstream_findings env targets = [] ->
  Forall (fun t => exists u, url_Parse env t = Ok u) targets.
Proof.
  induction targets as [|t rest IH]; [constructor|].
  unfold upstream_findings in *. cbn [flat_map].
  destruct (url_Parse env t) as [u|err] eqn:P; cbn [app]; [|discriminate].
  intros H. constructor; [now exists u | now apply IH].
Qed.

Lemma regex_findings_nil (env : Env) (patterns : list string) :
  regex_findings env patterns = [] ->
  Forall (fun p => exists r, regexp_Compile env p = Ok r) patterns.
Proof.
  induction patterns as [|t rest IH]; [constructor|].
  unfold regex_findings in *. cbn [flat_map].
  destruct (regexp_Compile env t) as [r|err] eqn:P; cbn [app]; [|discriminate].
  intros H. constructor; [now exists r | now apply IH].
Qed.

Lemma url_findings_nil (env : Env) (to_parse urltype : string) :
  url_findings env to_parse urltype = [] ->
  exists u, url_Parse env to_parse = Ok u.
Proof.
  unfold url_findings, parseURL.
  destruct (url_Parse env to_parse) as [u|err]; [now exists u|].
  cbn. discriminate.
Qed.

Lemma cookieSecret_nil (env : Env) (o : Options) :
  Validate_cookieSecret env o [] = [] ->
  secret_check_enabled o = true -> secret_passes env (CookieSecret o).
Proof.
  rewrite Validate_cookieSecret_eq. intros H E. rewrite E in H.
  apply secretBytes_size. rewrite <- valid_cookie_secret_size_eq.
  destruct (valid_cookie_secret_size env o); [reflexivity | discriminate].
Qed.

Lemma cookieRefresh_nil (env : Env) (o : Options) :
  Validate_cookieRefresh env o [] = [] ->
  (CookieRefresh o < CookieExpire o)%Z.
Proof.
  unfold Validate_cookieRefresh.
  destruct (CookieRefresh o >=? CookieExpire o)%Z eqn:C; [discriminate|].
  intros _. destruct (Z.lt_ge_cases (CookieRefresh o) (CookieExpire o))
    as [H|H]; [exact H|]. apply Z.geb_le in H. congruence.
Qed.

Lemma cookieSameSite_nil (o : Options) :
  Validate_cookieSameSite o [] = [] ->
  In (CookieSameSite o) [""; "none"; "lax"; "strict"].
Proof.
  unfold Validate_cookieSameSite. intros H. apply same_site_allowed.
  destruct (String.eqb (CookieSameSite o) ""
            || String.eqb (CookieSameSite o) "none"
            || String.eqb (CookieSameSite o) "lax"
            || String.eqb (CookieSameSite o) "strict");
    [reflexivity | discriminate].
Qed.

Lemma realClientIPHeader_nil (env : Env) (o : Options) :
  Validate_realClientIPHeader env o [] = [] ->
  In (RealClientIPHeader o)
     [""; "X-Real-IP"; "X-Forwarded-For"; "X-ProxyUser-IP"].
Proof.
  unfold Validate_realClientIPHeader. intros H. apply real_ip_allowed.
  destruct (negb (is_empty (RealClientIPHeader o))); [|reflexivity].
  destruct (negb (fold_left
                    (fun valid s =>
                       if String.eqb (RealClientIPHeader o) s then true
                       else valid) realClientIPHeaders false));
    [discriminate | reflexivity].
Qed.

Lemma signature_findings_nil (env : Env) (o : Options) :
  signature_findings env o = [] ->
  is_empty (SignatureKey o) = false ->
  exists (sd : SignatureData) (algorithm : string),
    signature_result env o = Some sd
    /\ SignatureKey o = (algorithm ++ ":" ++ key sd)%string
    /\ DigestNameToCryptoHash env algorithm = Some (hash sd).
Proof.
  unfold signature_findings, signature_result. intros H E. rewrite E in *.
  destruct (strings.Split (SignatureKey o) ":") as [|a [|b [|c r]]] eqn:S;
    try discriminate.
  destruct (DigestNameToCryptoHash env a) as [h|] eqn:D; [|discriminate].
  exists (mkSignatureData h b), a. cbn [key hash].
  apply Split_two_inv in S. destruct S as (K & _ & _). now repeat split.
Qed.

Lemma when_nil (b : bool) (m : string) : when b m = [] -> b = false.
Proof. destruct b; [discriminate | reflexivity]. Qed.

Lemma oidc_findings_nil (env : Env) (o : Options) :
  oidc_findings env o = [] ->
  is_empty (OIDCIssuerURL o) = false
  /\ (SkipOIDCDiscovery o = true ->
      is_empty (LoginURL o) = false /\ is_empty (RedeemURL o) = false
      /\ is_empty (OIDCJwksURL o) = false)
  /\ (SkipOIDCDiscovery o = false ->
      oidc_SetIssuerURL env (OIDCIssuerURL o) = None).
Proof.
  unfold oidc_findings, oidc_issuer_missing, oidc_skipped_missing,
    oidc_discovery_findings. intros H.
  apply app_eq_nil in H. destruct H as [I H]. apply when_nil in I.
  rewrite I in *. split; [reflexivity|]. split; intros S; rewrite S in H.
  - apply app_eq_nil in H. destruct H as [L H].
    apply app_eq_nil in H. destruct H as [R J].
    now rewrite (when_nil _ _ L), (when_nil _ _ R), (when_nil _ _ J).
  - destruct (oidc_SetIssuerURL env (OIDCIssuerURL o));
      [discriminate | reflexivity].
Qed.

Lemma google_findings_nil (env : Env) (o : Options) :
  google_findings env o = [] ->
  (google_restricted o = true ->
   GoogleGroups o <> [] /\ is_empty (GoogleAdminEmail o) = false
   /\ is_empty (GoogleServiceAccountJSON o) = false)
  /\ (is_empty (GoogleServiceAccountJSON o) = false ->
      exists file, os_Open env (GoogleServiceAccountJSON o) = Some file).
Proof.
  unfold google_findings, google_missing, google_credentials_findings.
  intros H. apply app_eq_nil in H. destruct H as [M C]. split.
  - intros R. rewrite R in M.
    apply app_eq_nil in M. destruct M as [G M].
    apply app_eq_nil in M. destruct M as [A J].
    apply when_nil in G, A, J. repeat split; try assumption.
    intros N. rewrite N in G. discriminate.
  - intros J. rewrite J in C.
    destruct (os_Open env (GoogleServiceAccountJSON o)) as [file|];
      [now exists file | discriminate].
Qed.

Lemma Validate_none_findings (env : Env) (w : World) (o : Options) :
  snd (Validate env w o) = None ->
  Forall (fun check => check = []) (Validate_findings env o).
Proof.
  rewrite Validate_full. cbn [snd]. intros H.
  apply Validate_error_none in H.
  induction (Validate_findings env o) as [|c rest IH]; [constructor|].
  cbn [concat] in H. apply app_eq_nil in H. destruct H as [-> H].
  constructor; [reflexivity | now apply IH].
Qed.

(** X15: when [Validate] returns no error, the configuration is usable: the
    three credentials and an e-mail mechanism are present, the redirect URL
    and every upstream target were parsed and stored, every bypass pattern
    compiled, refresh is below expiry, the same-site value and the
    real-client-IP header are admissible, the cookie name serialises, a
    secret that has to be an AES key is one, a non-empty signature key was
    resolved and stored, and a requested insecure transport is in place. *)
Theorem X15_validated_configuration (env : Env) (w : World) (o : Options) :
  snd (Validate env w o) = None ->
  (CookieSecret o <> "" /\ ClientID o <> "" /\ ClientSecret o <> ""
   /\ (AuthenticatedEmailsFile o <> "" \/ EmailDomains o <> []
       \/ HtpasswdFile o <> ""))
  /\ (exists u, url_Parse env (RedirectURL o) = Ok u
                /\ redirectURL (snd (fst (Validate env w o))) = Some u)
  /\ Forall (fun t => exists u, url_Parse env t = Ok u) (Upstreams o)
  /\ len (proxyURLs (snd (fst (Validate env w o))))
     = len (proxyURLs o) + len (Upstreams o)
  /\ Forall (fun p => exists r, regexp_Compile env p = Ok r)
            (SkipAuthRegex o)
  /\ (secret_check_enabled o = true -> secret_passes env (CookieSecret o))
  /\ (CookieRefresh o < CookieExpire o)%Z
  /\ In (CookieSameSite o) [""; "none"; "lax"; "strict"]
  /\ (is_empty (SignatureKey o) = false ->
      exists (sd : SignatureData) (algorithm : string),
        signatureData (snd (fst (Validate env w o))) = Some sd
        /\ SignatureKey o = (algorithm ++ ":" ++ key sd)%string
        /\ DigestNameToCryptoHash env algorithm = Some (hash sd))
  /\ cookie_String env (CookieName o) <> ""
  /\ In (RealClientIPHeader o)
        [""; "X-Real-IP"; "X-Forwarded-For"; "X-ProxyUser-IP"]
  /\ (SSLInsecureSkipVerify o = true ->
      InsecureSkipVerify (fst (fst (Validate env w o))) = true).
Proof.
  intros N. pose proof (Validate_none_findings env w o N) as F.
  unfold Validate_findings in F.
  repeat match goal with
         | H : Forall _ (_ :: _) |- _ =>
             let E := fresh "E" in
             let T := fresh "T" in
             inversion H as [|? ? E T]; subst; clear H
         end.
  rewrite Validate_full. cbn [fst snd].
  repeat match goal with |- _ /\ _ => split end.
  - assert (R : Validate_required o [] = []) by assumption.
    rewrite Validate_required_when in R. cbn [app] in R.
    apply app_eq_nil in R. destruct R as [R1 R].
    apply when_nil, is_empty_false in R1. exact R1.
  - assert (R : Validate_required o [] = []) by assumption.
    rewrite Validate_required_when in R. cbn [app] in R.
    apply app_eq_nil in R. destruct R as [_ R].
    apply app_eq_nil in R. destruct R as [R2 _].
    apply when_nil, is_empty_false in R2. exact R2.
  - assert (R : Validate_required o [] = []) by assumption.
    rewrite Validate_required_when in R. cbn [app] in R.
    apply app_eq_nil in R. destruct R as [_ R].
    apply app_eq_nil in R. destruct R as [_ R].
    apply app_eq_nil in R. destruct R as [R3 _].
    apply when_nil, is_empty_false in R3. exact R3.
  - assert (R : Validate_required o [] = []) by assumption.
    rewrite Validate_required_when in R. cbn [app] in R.
    apply app_eq_nil in R. destruct R as [_ R].
    apply app_eq_nil in R. destruct R as [_ R].
    apply app_eq_nil in R. destruct R as [_ R4].
    apply when_nil in R4.
    destruct (is_empty (AuthenticatedEmailsFile o)) eqn:A;
      [|left; now apply is_empty_false].
    destruct (EmailDomains o) as [|d ds]; [|right; left; discriminate].
    destruct (is_empty (HtpasswdFile o)) eqn:P;
      [discriminate | right; right; now apply is_empty_false].
  - assert (R : url_findings env (RedirectURL o) "redirect" = [])
      by assumption.
    apply url_findings_nil in R. destruct R as [u R]. exists u.
    split; [exact R|].
    change (redirectURL (validated env o))
      with (fst (parseURL env (RedirectURL o) "redirect" [])).
    unfold parseURL. now rewrite R.
  - now apply upstream_findings_nil.
  - assert (R : upstream_findings env (Upstreams o) = []) by assumption.
    pose proof (upstream_split_length env (Upstreams o)) as L.
    rewrite R in L. cbn in L. rewrite Nat.add_0_r in L.
    change (proxyURLs (validated env o))
      with (proxyURLs o ++ upstream_accepted env (Upstreams o)).
    unfold len in *. rewrite length_app. now rewrite L.
  - now apply regex_findings_nil.
  - now apply cookieSecret_nil.
  - now apply (cookieRefresh_nil env).
  - now apply cookieSameSite_nil.
  - intros K.
    assert (R : signature_findings env o = []) by assumption.
    exact (signature_findings_nil env o R K).
  - assert (R : validateCookieName env o [] = []) by assumption.
    unfold validateCookieName in R.
    destruct (is_empty (cookie_String env (CookieName o))) eqn:C;
      [discriminate | now apply is_empty_false].
  - now apply (realClientIPHeader_nil env).
  - intros S.
    assert (R : snd (Validate_insecureTLS env world0 o []) = [])
      by assumption.
    unfold Validate_insecureTLS in R. rewrite S in R.
    cbn [world_after InsecureSkipVerify]. rewrite S.
    destruct (defaultTransportIsHTTP env); [apply orb_true_r | discriminate].
Qed.

(** The theorem for the options of the tests, which validate. *)
Lemma X15_validated_configuration_witness :
  snd (Validate sampleEnv world0 testOptions) = None
  /\ CookieSecret testOptions <> ""
  /\ (CookieRefresh testOptions < CookieExpire testOptions)%Z.
Proof.
  split; [reflexivity|].
  destruct (X15_validated_configuration sampleEnv world0 testOptions eq_refl)
    as ((C & _) & _ & _ & _ & _ & _ & R & _).
  split; [exact C | exact R].
Defined.

Lemma endpoint_findings_nil (env : Env) (o : Options) :
  endpoint_findings env o = [] ->
  Forall (fun s => exists u, url_Parse env s = Ok u)
         [LoginURL o; RedeemURL o; ProfileURL o; ValidateURL o;
          ProtectedResource o].
Proof.
  unfold endpoint_findings. intros H.
  repeat (apply app_eq_nil in H;
          let E := fresh "E" in destruct H as [E H];
          apply url_findings_nil in E).
  apply url_findings_nil in H.
  repeat constructor; assumption.
Qed.

(** X16: when [Validate] returns no error, the provider is usable as well:
    the five endpoint URLs were parsed; for the OIDC variant the issuer URL
    is set and, with discovery skipped, so are login, redeem and JWKS URLs,
    while without the skip the discovery succeeded; for the Google variant a
    group restriction is either absent or complete, and a configured
    credentials file was opened. *)
Theorem X16_validated_provider (env : Env) (w : World) (o : Options) :
  snd (Validate env w o) = None ->
  Forall (fun s => exists u, url_Parse env s = Ok u)
         [LoginURL o; RedeemURL o; ProfileURL o; ValidateURL o;
          ProtectedResource o]
  /\ (providers.variant (selected_provider env o) = providers.OIDCProvider ->
      OIDCIssuerURL o <> ""
      /\ (SkipOIDCDiscovery o = true ->
          LoginURL o <> "" /\ RedeemURL o <> "" /\ OIDCJwksURL o <> "")
      /\ (SkipOIDCDiscovery o = false ->
          oidc_SetIssuerURL env (OIDCIssuerURL o) = None))
  /\ (providers.variant (selected_provider env o) = providers.GoogleProvider ->
      (GoogleGroups o <> [] \/ GoogleAdminEmail o <> ""
       \/ GoogleServiceAccountJSON o <> "" ->
       GoogleGroups o <> [] /\ GoogleAdminEmail o <> ""
       /\ GoogleServiceAccountJSON o <> "")
      /\ (GoogleServiceAccountJSON o <> "" ->
          exists file,
            os_Open env (GoogleServiceAccountJSON o) = Some file)).
Proof.
  intros N. pose proof (Validate_none_findings env w o N) as F.
  unfold Validate_findings in F.
  do 5 (inversion F as [|? ? _ F']; subst; clear F; rename F' into F).
  inversion F as [|? ? P _]; subst; clear F.
  unfold provider_findings in P.
  apply app_eq_nil in P. destruct P as [E P].
  split; [now apply endpoint_findings_nil|]. split.
  - intros V. rewrite V in P. apply oidc_findings_nil in P.
    destruct P as (I & S & D). rewrite <- !is_empty_false.
    split; [exact I|]. split; [exact S | exact D].
  - intros V. rewrite V in P. apply google_findings_nil in P.
    destruct P as (R & J). rewrite <- !is_empty_false. split.
    + intros A.
      assert (G : google_restricted o = true).
      { unfold google_restricted.
        destruct A as [A|[A|A]].
        - destruct (GoogleGroups o); [contradiction | reflexivity].
        - rewrite A. apply orb_true_iff. left. apply orb_true_r.
        - rewrite A. apply orb_true_r. }
      exact (R G).
    + exact J.
Qed.

(** The theorem for an OIDC provider with discovery skipped. *)
Lemma X16_validated_provider_witness :
  let o := with_OIDCJwksURL "https://issuer.example.com/keys"
             (with_RedeemURL "https://issuer.example.com/token"
                (with_LoginURL "https://issuer.example.com/auth"
                   (with_OIDCIssuerURL "https://issuer.example.com"
                      (with_SkipOIDCDiscovery true
                         (with_Provider "oidc" testOptions))))) in
  snd (Validate sampleEnv world0 o) = None /\ OIDCIssuerURL o <> "".
Proof.
  intros o. split; [reflexivity|].
  destruct (X16_validated_provider sampleEnv world0 o eq_refl)
    as (_ & H & _).
  exact (proj1 (H eq_refl)).
Defined.

(** ** The defaults *)

(** X17: whatever the environment, the defaults of [NewOptions] pass every
    check that reads only the settings it fixes: refresh against expiry,
    same-site, real-client-IP header, signature key, upstream targets and
    bypass patterns, and the secret-size check, which is switched off; what
    they lack are the three credentials and an e-mail mechanism, reported
    with the four messages of the required-settings check. *)
Theorem X17_defaults_against_checks (env : Env) (format : string) :
  let o := NewOptions format in
  Validate_cookieRefresh env o [] = []
  /\ Validate_cookieSameSite o [] = []
  /\ Validate_realClientIPHeader env o [] = []
  /\ snd (parseSignatureKey env o []) = []
  /\ snd (Validate_upstreams env o []) = []
  /\ snd (Validate_skipAuthRegex env o []) = []
  /\ Validate_cookieSecret env o [] = []
  /\ snd (Validate_insecureTLS env world0 o []) = []
  /\ Validate_required o []
     = ["missing setting: cookie-secret"; "missing setting: client-id";
        "missing setting: client-secret"; email_validation_missing].
Proof. cbv zeta. repeat split. Qed.

(** * Properties of main.go *)

(** ** The flag set against the struct tags *)

Lemma distinct_NoDup (names : list string) :
  distinct names = true -> NoDup names.
Proof.
  induction names as [|n rest IH]; [constructor|].
  cbn [distinct]. intros H. apply andb_true_iff in H. destruct H as [N D].
  constructor; [|now apply IH].
  intros I. apply negb_true_iff in N.
  assert (E : existsb (String.eqb n) rest = true).
  { apply existsb_exists. exists n. split; [exact I | apply String.eqb_refl]. }
  congruence.
Qed.

Lemma tags_have_flags (format : string) :
  forall t, In t Options_tags ->
  exists f, flag.Lookup (mainFlagSet format) (tag_flag t) = Some f
            /\ forall o, flag.same_kind (flag.DefValue f) (tag_value t o)
                         = true.
Proof.
  intros t H. unfold Options_tags in H. cbn [In] in H.
  repeat (destruct H as [<- | H];
          [eexists; split; [reflexivity | intros o; reflexivity]|]).
  contradiction.
Qed.

Lemma flags_have_tags (format : string) :
  forall f, In f (mainFlagSet format) ->
  exists t, In t Options_tags /\ tag_flag t = flag.Name f.
Proof.
  intros f H.
  assert (B : forallb
                (fun f => existsb
                            (fun t => String.eqb (tag_flag t) (flag.Name f))
                            Options_tags)
                (mainFlagSet format) = true) by (vm_compute; reflexivity).
  rewrite forallb_forall in B. specialize (B f H).
  apply existsb_exists in B. destruct B as (t & I & E).
  exists t. split; [exact I | now apply String.eqb_eq].
Qed.

(** X18: the flags of [mainFlagSet], together with the two flags [main]
    adds, have pairwise distinct names, so no flag is defined twice; every
    tagged field of [Options] finds a flag of its name whose value has the
    type of the field, and every flag belongs to a field, so the flag set
    and the struct correspond one to one. *)
Theorem X18_flags_match_fields (format : string) :
  NoDup (map flag.Name (mainFlagSet format ++ main_flags))
  /\ NoDup (map tag_flag Options_tags)
  /\ len (mainFlagSet format) = len Options_tags
  /\ (forall t, In t Options_tags ->
      exists f, flag.Lookup (mainFlagSet format) (tag_flag t) = Some f
                /\ forall o, flag.same_kind (flag.DefValue f) (tag_value t o)
                             = true)
  /\ (forall f, In f (mainFlagSet format) ->
      exists t, In t Options_tags /\ tag_flag t = flag.Name f).
Proof.
  split; [apply distinct_NoDup; vm_compute; reflexivity|].
  split; [apply distinct_NoDup; vm_compute; reflexivity|].
  split; [reflexivity|].
  split; [apply tags_have_flags | apply flags_have_tags].
Qed.

(** X19: the config-file key of every field is its flag name with dashes
    turned into underscores, or that name with a plural "s"; and every
    environment variable bound to a field is "OAUTH2_PROXY_" followed by the
    config-file key in upper case. *)
Theorem X19_tag_naming :
  Forall (fun t =>
            (tag_cfg t = underscored (tag_flag t)
             \/ tag_cfg t = (underscored (tag_flag t) ++ "s")%string)
            /\ (forall e, tag_env t = Some e ->
                e = ("OAUTH2_PROXY_" ++ ToUpper (tag_cfg t))%string))
         Options_tags.
Proof.
  unfold Options_tags.
  repeat (apply Forall_cons;
          [split;
           [first [left; reflexivity | right; reflexivity]
           |intros e H;
            first [discriminate H | injection H as <-; reflexivity]]|]).
  apply Forall_nil.
Qed.

(** X20: for every field but three, the default of its flag is the value
    [NewOptions] gives the field; the three exceptions are the Azure tenant
    ("common" against ""), the cookie path ("/" against "") and the provider
    ("google" against ""). *)
Theorem X20_flag_defaults (format : string) :
  Forall (fun t =>
            match flag.Lookup (mainFlagSet format) (tag_flag t) with
            | Some f =>
                flag.DefValue f = tag_value t (NewOptions format)
                \/ In (tag_flag t) ["azure-tenant"; "cookie-path"; "provider"]
            | None => False
            end)
         Options_tags
  /\ option_map flag.DefValue
       (flag.Lookup (mainFlagSet format) "azure-tenant")
     = Some (flag.StringValue "common")
  /\ AzureTenant (NewOptions format) = ""
  /\ option_map flag.DefValue
       (flag.Lookup (mainFlagSet format) "cookie-path")
     = Some (flag.StringValue "/")
  /\ CookiePath (NewOptions format) = ""
  /\ option_map flag.DefValue (flag.Lookup (mainFlagSet format) "provider")
     = Some (flag.StringValue "google")
  /\ Provider (NewOptions format) = "".
Proof.
  split; [|repeat split].
  unfold Options_tags.
  repeat (apply Forall_cons;
          [first [left; reflexivity | right; cbn; tauto]|]).
  apply Forall_nil.
Qed.

(** ** [main] *)


(** X22: a banner decides the sign-in message alone ("-" gives the empty
    message, any other banner is the message); without a banner an
    authenticated-emails file or an empty domain list leaves the message as
    it is; a single domain is named unless it is "*"; and with two or more
    domains all of them are listed, a "*" among them included. *)
Theorem X22_sign_in_message (opts : Options) (current : string) :
  (Banner opts = "-" -> main_SignInMessage opts current = "")
  /\ (Banner opts <> "" -> Banner opts <> "-" ->
      main_SignInMessage opts current = Banner opts)
  /\ (Banner opts = "" ->
      AuthenticatedEmailsFile opts <> "" \/ EmailDomains opts = [] ->
      main_SignInMessage opts current = current)
  /\ (Banner opts = "" -> AuthenticatedEmailsFile opts = "" ->
      forall domain : string,
        EmailDomains opts = [domain] ->
        main_SignInMessage opts current
        = if String.eqb domain "*" then current
          else ("Authenticate using " ++ domain)%string)
  /\ (Banner opts = "" -> AuthenticatedEmailsFile opts = "" ->
      forall (d1 d2 : string) (rest : list string),
        EmailDomains opts = d1 :: d2 :: rest ->
        main_SignInMessage opts current
        = ("Authenticate using one of the following domains: "
           ++ d1 ++ ", " ++ strings.Join (d2 :: rest) ", ")%string).
Proof.
  unfold main_SignInMessage. repeat apply conj.
  - intros B. now rewrite B.
  - intros B1 B2. apply is_empty_false in B1. rewrite B1. cbn [negb].
    apply String.eqb_neq in B2. now rewrite B2.
  - intros B [A|D]; rewrite B; cbn.
    + apply is_empty_false in A. rewrite A. now rewrite andb_false_r.
    + now rewrite D.
  - intros B A domain D. rewrite B, A, D. cbn.
    now destruct (String.eqb domain "*").
  - intros B A d1 d2 rest D. rewrite B, A, D. reflexivity.
Qed.

(** X23: when [main] serves, the outermost handler is the logging handler,
    or its silent counterpart when request logging is off; directly inside
    it sits the HTTPS redirect exactly when force-https is set; innermost is
    the proxy, whose sign-in message follows the banner rules and which
    carries the htpasswd file exactly when one is configured, together with
    the display-form setting. *)
Theorem X23_served_handler (menv : MainEnv) (w : World) (config : string)
    (showVersion : bool) :
  match snd (main menv w config showVersion) with
  | Serving s =>
      let opts := Opts s in
      exists p : proxy.OAuthProxy,
        ServerHandler s
        = (let inner :=
             if ForceHTTPS opts
             then redirectToHTTPS (ProxyHandler p) (HttpsAddress opts)
             else ProxyHandler p in
           if RequestLogging opts
           then LoggingHandler inner (RealClientIPHeader opts)
                               (RequestLoggingFormat opts)
           else NoLoggingHandler inner)
        /\ proxy.SignInMessage p
           = main_SignInMessage opts
               (proxy.SignInMessage (NewOAuthProxy menv opts))
        /\ (if is_empty (HtpasswdFile opts)
            then proxy.HtpasswdFile_ p
                 = proxy.HtpasswdFile_ (NewOAuthProxy menv opts)
                 /\ proxy.DisplayHtpasswdForm_ p
                    = proxy.DisplayHtpasswdForm_ (NewOAuthProxy menv opts)
            else (exists file,
                    NewHtpasswdFromFile menv (HtpasswdFile opts) = Ok file
                    /\ proxy.HtpasswdFile_ p = Some file)
                 /\ proxy.DisplayHtpasswdForm_ p = DisplayHtpasswdForm opts)
  | _ => True
  end.
Proof.
  unfold main.
  destruct showVersion; [exact I|].
  destruct (if negb (is_empty config) then toml_DecodeFile menv config
            else None); [exact I|].
  destruct (Validate (validation menv) w
              (Resolve menv config
                 (NewOptions (defaultRequestLoggingFormat_ menv))))
    as [[w' o'] [text|]]; [exact I|].
  destruct (is_empty (HtpasswdFile o')) eqn:H; cbn [negb].
  - cbn [snd Opts ServerHandler]. eexists. split; [reflexivity|].
    rewrite H. repeat split.
  - destruct (NewHtpasswdFromFile menv (HtpasswdFile o')) as [file|err] eqn:F;
      [|exact I].
    cbn [snd Opts ServerHandler]. eexists. split; [reflexivity|].
    rewrite H. split; [reflexivity|]. split; [|reflexivity].
    now exists file.
Qed.

(** ** Raw secrets that look like base64 *)

Lemma length_quantum_bytes_4 (val : N) :
  len (base64.quantum_bytes val 4) = 3.
Proof. reflexivity. Qed.

Lemma decode_quads (n : nat) :
  forall s : string,
    all_alphabet s = true -> String.length s = 4 * n ->
    exists b, base64.decode s [] = Some b /\ len b = 3 * n.
Proof.
  induction n as [|n IH]; intros s A L.
  - destruct s; [|discriminate]. now exists [].
  - destruct s as [|c1 [|c2 [|c3 [|c4 rest]]]]; try (cbn in L; lia).
    cbn [all_alphabet] in A.
    destruct (base64.decodeMap c1) as [v1|] eqn:D1; [|discriminate].
    destruct (base64.decodeMap c2) as [v2|] eqn:D2; [|discriminate].
    destruct (base64.decodeMap c3) as [v3|] eqn:D3; [|discriminate].
    destruct (base64.decodeMap c4) as [v4|] eqn:D4; [|discriminate].
    destruct (IH rest A) as (b & B & Lb); [cbn in L; lia|].
    exists (base64.quantum_bytes (base64.quantum v1 v2 v3 v4) 4 ++ b).
    split.
    + cbn [base64.decode]. rewrite D1. cbn [app].
      rewrite D2. cbn [app]. rewrite D3. cbn [app]. rewrite D4, B.
      reflexivity.
    + unfold len in *. rewrite length_app.
      change (length (base64.quantum_bytes (base64.quantum v1 v2 v3 v4) 4))
        with 3. lia.
Qed.

Lemma secretBytes_alphabet (s : string) (n : nat) :
  all_alphabet s = true -> String.length s = 4 * n ->
  exists b, base64.URLEncoding_DecodeString (addPadding s) = Some b
            /\ len b = 3 * n
            /\ secretBytes sampleEnv s
               = if size_ok (3 * n) then b else list_byte_of_string s.
Proof.
  intros A L. destruct (decode_quads n s A L) as (b & B & Lb).
  assert (P : addPadding s = s).
  { apply addPadding_other. left. rewrite L.
    now rewrite Nat.mul_comm, Nat.Div0.mod_mul. }
  exists b. rewrite P. unfold base64.URLEncoding_DecodeString.
  split; [exact B|]. split; [exact Lb|].
  rewrite secretBytes_eq, P.
  change (base64_DecodeString sampleEnv s) with (base64.decode s []).
  now rewrite B, Lb.
Qed.

(** X24: with Go's URL-safe base64 decoder, a secret written only with the
    letters, digits, '-' and '_' of that alphabet is used as it stands when
    it has 16 or 24 characters, but a 32-character one always decodes, so
    the codec returns its 24 decoded bytes and never the 32 raw ones. *)
Theorem X24_raw_secret_read_as_base64 (s : string) :
  all_alphabet s = true ->
  (String.length s = 16 \/ String.length s = 24 ->
   secretBytes sampleEnv s = list_byte_of_string s)
  /\ (String.length s = 32 ->
      len (secretBytes sampleEnv s) = 24
      /\ base64.URLEncoding_DecodeString s = Some (secretBytes sampleEnv s)
      /\ secretBytes sampleEnv s <> list_byte_of_string s).
Proof.
  intros A. split.
  - intros [L|L].
    + destruct (secretBytes_alphabet s 4 A L) as (b & _ & _ & S). exact S.
    + destruct (secretBytes_alphabet s 6 A L) as (b & _ & _ & S). exact S.
  - intros L.
    destruct (secretBytes_alphabet s 8 A L) as (b & D & Lb & S).
    cbn [size_ok Nat.mul Nat.add Nat.eqb orb] in S.
    rewrite S. split; [exact Lb|]. split.
    + rewrite <- D. f_equal. symmetry. apply addPadding_other. left.
      now rewrite L.
    + intros E. apply (f_equal (@List.length Byte.byte)) in E.
      fold (len b) in E. fold (len (list_byte_of_string s)) in E.
      rewrite Lb, length_list_byte_of_string, L in E. discriminate.
Qed.

(** The theorem for a 32-character passphrase. *)
Lemma X24_raw_secret_read_as_base64_witness :
  all_alphabet "0123456789abcdef0123456789abcdef" = true
  /\ len (secretBytes sampleEnv "0123456789abcdef0123456789abcdef") = 24.
Proof.
  split; [reflexivity|].
  destruct (X24_raw_secret_read_as_base64
              "0123456789abcdef0123456789abcdef" eq_refl) as [_ H].
  exact (proj1 (H eq_refl)).
Defined.

(** ** Evaluations of [main] *)

Example main_version :
  main sampleMainEnv world0 "missing.cfg" true
  = (world0,
     [Printed ("oauth2_proxy v2.2.1 (built with go1.12)" ++ nl)%string],
     Returned).
Proof. reflexivity. Qed.

Example main_config_error :
  main sampleMainEnv world0 "missing.cfg" false
  = (world0,
     [Logged "ERROR: failed to load config file missing.cfg - open missing.cfg: no such file or directory"],
     Exited 1).
Proof. reflexivity. Qed.

Example main_serves :
  snd (main sampleMainEnv world0 "" false)
  = Serving
      (mkServer
         (LoggingHandler
            (ProxyHandler (proxy.mkOAuthProxy "" None false))
            "X-Real-IP" "")
         (validated sampleEnv testOptions)).
Proof. reflexivity. Qed.

(** ** The size check against the URL-safe decoder *)

Lemma decode_in_URL (s : string) :
  forall dbuf, decode_in base64.encodeURL s dbuf = base64.decode s dbuf.
Proof.
  induction s as [|c rest IH]; intros dbuf; [reflexivity|].
  cbn [decode_in base64.decode]. unfold base64.decodeMap.
  destruct (base64.position c base64.encodeURL 0).
  - destruct dbuf as [|v0 [|v1 [|v2 [|v3 r]]]]; try apply IH.
    now rewrite IH.
  - now rewrite IH.
Qed.
















